(** * KMN Chat edge worker: model-listing cache, chat relay, CORS

    A shallow embedding of [src/worker.js] (the complete worker, with the
    memory, analytics, automation and widget routes) and the properties of
    its upstream relay.

    Conventions of the embedding.

    - A JavaScript string is a [string]; each character stands for one
      UTF-16 code unit below 256, so [String.length] is [.length].
    - A JavaScript value that came out of [JSON.parse], or that is about to
      go into [JSON.stringify], is a [JSValue].  A number is given by an
      integer: [JNum z] is the double [JSON.parse] reads from the digits of
      [z], which is [z] itself up to 2^53.
    - An [async] handler is a [Task]: it runs atomically up to its next
      outbound [fetch], where it is suspended with a continuation.  Reading
      a body ([request.json()], [res.json()], [res.text()]) is an await
      too, but no handler looks at shared state on either side of it before
      it has the body, so the read is folded into the segment it belongs
      to: the body of the request is there when the handler starts, and the
      body of a response when its [fetch] settles.  The responses considered
      are those whose body arrives: a read that never settles leaves its
      handler suspended for good.
    - The module-level [modelsCache] binding lives in a [Store]: a heap of
      [{ at, data }] objects, a heap of arrays, and the location the binding
      currently points to. *)

From Stdlib Require Import ZArith String Ascii Lia.
From stdpp Require Import base option list strings pretty.

Set Warnings "-register-all".

Open Scope string_scope.
Open Scope Z_scope.

(** ** JavaScript strings and values *)

Module JS.

(** [WhiteSpace] and [LineTerminator] code units below 256: TAB, LF, VT, FF,
    CR, SP and NBSP. *)
Definition is_space (c : ascii) : bool :=
  let n := N_of_ascii c in
  ((9 <=? n) && (n <=? 13) || (n =? 32) || (n =? 160))%N.

Fixpoint trimStart (s : string) : string :=
  match s with
  | String c s' => if is_space c then trimStart s' else s
  | EmptyString => EmptyString
  end.

Fixpoint trimEnd (s : string) : string :=
  match s with
  | String c s' =>
      match trimEnd s' with
      | EmptyString => if is_space c then EmptyString else String c EmptyString
      | r => String c r
      end
  | EmptyString => EmptyString
  end.

(** [s.trim()] *)
Definition trim (s : string) : string := trimEnd (trimStart s).

(** Lower-casing of one code unit below 256: [A-Z], and the Latin-1 capitals
    U+00C0..U+00DE except the multiplication sign U+00D7. *)
Definition lower_unit (c : ascii) : ascii :=
  let n := N_of_ascii c in
  if ((65 <=? n) && (n <=? 90)
      || (192 <=? n) && (n <=? 222) && negb (n =? 215))%N
  then ascii_of_N (n + 32) else c.

(** [s.toLowerCase()] *)
Fixpoint toLowerCase (s : string) : string :=
  match s with
  | String c s' => String (lower_unit c) (toLowerCase s')
  | EmptyString => EmptyString
  end.

(** [s.includes(sub)] *)
Fixpoint includes (sub s : string) : bool :=
  String.prefix sub s
  || match s with
     | String _ s' => includes sub s'
     | EmptyString => false
     end.

(** [s.slice(0, n)] for a literal [n >= 0]. *)
Fixpoint slice0 (n : nat) (s : string) : string :=
  match n, s with
  | S n', String c s' => String c (slice0 n' s')
  | _, _ => EmptyString
  end.

(** [s.length] *)
Definition length (s : string) : Z := Z.of_nat (String.length s).

Inductive JSValue : Type :=
| JUndefined
| JNull
| JBool (b : bool)
| JNum (z : Z)
| JStr (s : string)
| JArr (elems : list JSValue)
| JObj (props : list (string * JSValue)).

(** An object is its list of own properties in insertion order; keys are
    unique in an object that [JSON.parse] or an object literal built. *)
Fixpoint lookup_prop (k : string) (props : list (string * JSValue)) : JSValue :=
  match props with
  | (k', v) :: rest => if String.eqb k k' then v else lookup_prop k rest
  | [] => JUndefined
  end.

(** [obj[k] = v] on a property list: overwrite in place, or append. *)
Fixpoint set_prop {A} (k : string) (v : A) (props : list (string * A))
  : list (string * A) :=
  match props with
  | (k', v') :: rest =>
      if String.eqb k k' then (k, v) :: rest else (k', v') :: set_prop k v rest
  | [] => [(k, v)]
  end.

(** [{ ...a, ...b }] *)
Definition spread {A} (a b : list (string * A)) : list (string * A) :=
  fold_left (fun acc kv => set_prop kv.1 kv.2 acc) b a.

(** ToBoolean *)
Definition truthy (v : JSValue) : bool :=
  match v with
  | JUndefined | JNull => false
  | JBool b => b
  | JNum z => negb (Z.eqb z 0)
  | JStr s => negb (String.eqb s "")
  | JArr _ | JObj _ => true
  end.

(** [a || b] *)
Definition or_else (a b : JSValue) : JSValue := if truthy a then a else b.

(** [a ?? b] *)
Definition nullish_else (a b : JSValue) : JSValue :=
  match a with
  | JUndefined | JNull => b
  | _ => a
  end.

(** [v?.k] for the property names the worker reads ([id], [name], [data],
    [model], [prompt], ...): none of them is a built-in property of a
    primitive or of an array, so only objects answer. *)
Definition get (v : JSValue) (k : string) : JSValue :=
  match v with
  | JObj props => lookup_prop k props
  | _ => JUndefined
  end.

(** [v?.[0]] *)
Definition get0 (v : JSValue) : JSValue :=
  match v with
  | JArr (x :: _) => x
  | JObj props => lookup_prop "0" props
  | JStr (String c _) => JStr (String c EmptyString)
  | _ => JUndefined
  end.

(** [Array.isArray(v)] *)
Definition isArray (v : JSValue) : bool :=
  match v with
  | JArr _ => true
  | _ => false
  end.

Fixpoint join (sep : string) (parts : list string) : string :=
  match parts with
  | [] => ""
  | [p] => p
  | p :: rest => p ++ sep ++ join sep rest
  end.

(** The text of [String(v)] for a plain [v]: one that holds no number
    beyond the safe integers and, as far as the conversion looks, no object
    with an own [toString] key.  An array joins its elements with commas,
    [null] and [undefined] elements contributing the empty string.
    [Worker.String_] is the conversion on every value. *)
Fixpoint ToString (v : JSValue) : string :=
  match v with
  | JUndefined => "undefined"
  | JNull => "null"
  | JBool true => "true"
  | JBool false => "false"
  | JNum z => pretty z
  | JStr s => s
  | JArr elems =>
      join ","
        (List.map
           (fun x => match x with
                     | JUndefined | JNull => ""
                     | _ => ToString x
                     end) elems)
  | JObj _ => "[object Object]"
  end.

(** [Object.hasOwn(obj, k)] on a property list. *)
Definition has_own (k : string) (props : list (string * JSValue)) : bool :=
  existsb (fun kv => String.eqb k kv.1) props.

(** [Number.isSafeInteger(z)] *)
Definition is_safe_integer (z : Z) : bool :=
  Z.ltb (Z.abs z) 9007199254740992.

(** A value is plain when neither it nor, if it is an array, any of its
    elements at any depth is a number beyond the safe integers or an object
    with an own [toString] key. *)
Fixpoint plain (v : JSValue) : bool :=
  match v with
  | JNum z => is_safe_integer z
  | JArr elems => forallb plain elems
  | JObj props => negb (has_own "toString" props)
  | _ => true
  end.

(** Induction over a value and the elements of its arrays. *)
Lemma JSValue_elems_ind (P : JSValue -> Prop) :
  P JUndefined -> P JNull -> (forall b, P (JBool b)) ->
  (forall z, P (JNum z)) -> (forall s, P (JStr s)) ->
  (forall elems, Forall P elems -> P (JArr elems)) ->
  (forall props, P (JObj props)) ->
  forall v, P v.
Proof.
  intros Hundefined Hnull Hbool Hnum Hstr Harr Hobj.
  exact (fix IH (v : JSValue) : P v :=
           match v with
           | JUndefined => Hundefined
           | JNull => Hnull
           | JBool b => Hbool b
           | JNum z => Hnum z
           | JStr s => Hstr s
           | JArr elems =>
               Harr elems
                 ((fix all (l : list JSValue) : Forall P l :=
                     match l with
                     | [] => @List.Forall_nil _ P
                     | x :: rest => @List.Forall_cons _ P x rest (IH x) (all rest)
                     end) elems)
           | JObj props => Hobj props
           end).
Qed.

(** A value that was thrown, or that a promise was rejected with: an [Error]
    object, or a string (the abort reason of an [AbortController] is the
    value given to [abort], and the worker gives it a string). *)
Inductive Thrown : Type :=
| ErrorObj (name message : string)
| ThrownText (s : string).

(** [String(e?.message || e)].  [Error.prototype.toString] gives the name
    alone when the message is empty. *)
Definition error_text (e : Thrown) : string :=
  match e with
  | ErrorObj name message =>
      if String.eqb message "" then name else message
  | ThrownText s => s
  end.

(** The result of [Number(x)]: a double is NaN, an infinity, or a rational. *)
Inductive JSNum : Type :=
| NaN
| PosInf
| NegInf
| Fin (num : Z) (den : positive).

(** [d < n] for an integral [d]. *)
Definition lt_num (d : Z) (n : JSNum) : bool :=
  match n with
  | NaN | NegInf => false
  | PosInf => true
  | Fin num den => Z.ltb (d * Z.pos den) num
  end.

End JS.

Import JS.

(** ** The host: requests, responses, outbound calls *)

(** Either a value, or a value that was thrown. *)
Inductive Completion (A : Type) : Type :=
| Normal (a : A)
| Throw (e : Thrown).
Arguments Normal {A} a.
Arguments Throw {A} e.

(** The bindings of [env]; each is absent or a string. *)
Record Env := {
  OPEN_ROUTER_API_KEY : option string;
  OPENROUTER_BASE_URL : option string;
  MODELS_CACHE_TTL_MS : option string;
  SITE_URL : option string;
  SITE_NAME : option string;
  ALLOWED_ORIGIN : option string;
  SUPABASE_URL : option string;
  SUPABASE_ANON_KEY : option string;
}.

(** ToBoolean of a binding: absent and the empty string are falsy. *)
Definition present (v : option string) : bool :=
  match v with
  | Some s => negb (String.eqb s "")
  | None => false
  end.

(** [v || d] *)
Definition or_default (v : option string) (d : string) : string :=
  match v with
  | Some s => if String.eqb s "" then d else s
  | None => d
  end.

(** [`${v}`] *)
Definition interpolate (v : option string) : string :=
  match v with
  | Some s => s
  | None => "undefined"
  end.

(** What [handle*] reads of the inbound request.  [json_body] is the result
    of [await request.json()], [None] when it rejects. *)
Record Request := {
  method : string;
  pathname : string;
  searchParams : list (string * string);
  Origin : option string;
  json_body : option JSValue;
}.

(** [url.searchParams.get(k)] *)
Fixpoint searchParams_get (k : string) (ps : list (string * string))
  : option string :=
  match ps with
  | (k', v) :: rest => if String.eqb k k' then Some v else searchParams_get k rest
  | [] => None
  end.

(** The three constant texts the worker serves; their contents are not
    looked at. *)
Inductive Page : Type := INDEX_HTML | BUILDER_HTML | WIDGET_JS.

(** The body of a response: none ([null]), a page, [JSON.stringify(data)],
    or the stream of an upstream response handed over as it is. *)
Inductive Body : Type :=
| NoBody
| PageBody (p : Page)
| JsonBody (data : JSValue)
| StreamBody (chunks : list string).

Record Response := {
  status : Z;
  headers : list (string * string);
  body : Body;
}.

(** [h.get(k)] on the headers of a response. *)
Fixpoint header (k : string) (hs : list (string * string)) : option string :=
  match hs with
  | (k', v) :: rest => if String.eqb k k' then Some v else header k rest
  | [] => None
  end.

(** The response to an outbound [fetch], as far as the worker looks at it:
    [res.status], [res.body] (null, or the chunks of the stream), and what
    [await res.json()] and [await res.text()] give. *)
Record UpResponse := {
  up_status : Z;
  up_body : option (list string);
  up_json : Completion JSValue;
  up_text : Completion string;
}.

(** [res.ok] *)
Definition ok (res : UpResponse) : bool :=
  (200 <=? up_status res) && (up_status res <=? 299).

(** [res.body] is not null. *)
Definition has_body (res : UpResponse) : bool :=
  match up_body res with
  | Some _ => true
  | None => false
  end.

(** An abort signal armed by [setTimeout(() => ac.abort(reason), ms)]. *)
Record Signal := {
  deadline_ms : Z;
  reason : string;
}.

Record OutRequest := {
  url : string;
  out_method : string;
  out_headers : list (string * string);
  out_body : option JSValue;
  signal : option Signal;
}.

(** What the other end of an outbound call does: it never answers, or the
    call settles [after] milliseconds. *)
Inductive Upstream : Type :=
| Never
| Settles (after : Z) (c : Completion UpResponse).

(** The race between an outbound call and its abort signal.  A call given no
    signal settles when the other end does, or never.  A call given a signal
    that fires first is aborted: the connection is closed and the call
    rejects with the abort reason.  The timer is armed before the call is
    made, so it fires first when both fall on the same millisecond.  The
    second component tells whether the call was aborted. *)
Definition settle (sig : option Signal) (u : Upstream)
  : option (Completion UpResponse * bool) :=
  match sig, u with
  | None, Never => None
  | None, Settles _ c => Some (c, false)
  | Some s, Never => Some (Throw (ThrownText (reason s)), true)
  | Some s, Settles after c =>
      if after <? deadline_ms s then Some (c, false)
      else Some (Throw (ThrownText (reason s)), true)
  end.

(** [Date.now()] and [new Date().toISOString()] during one segment of a
    handler. *)
Record Clock := {
  now : Z;
  iso : string;
}.

(** What the embedding takes as given: built-ins of the host whose exact
    result no property below depends on, and the fold of
    [handleAnalyticsSummaryGet] over the rows of the store (it counts with a
    [Set] and an object used as a map, and throws on a [null] row).
    [Number_toString] is the text of a number beyond the safe integers
    (the shortest digits that read back as the same double, in exponent
    form from 1e21 on), and [primitive_TypeError] what [String] throws on
    an object it cannot convert. *)
Record Host := {
  Number : string -> JSNum;
  Number_toString : Z -> string;
  encodeURIComponent : string -> string;
  status_RangeError : Thrown;
  null_body_TypeError : Thrown;
  primitive_TypeError : Thrown;
  analyticsSummary : list JSValue -> Completion JSValue;
}.

(** ** The models cache *)

(** The object [{ at, data }]; [data] is [null] or a reference to an array. *)
Record CacheObj := {
  cache_at : Z;
  cache_data : option nat;
}.

#[export] Instance CacheObj_inhabited : Inhabited CacheObj :=
  populate {| cache_at := 0; cache_data := None |}.

(** The heap of [{ at, data }] objects, the heap of arrays, and the object
    the module-level binding [modelsCache] points to. *)
Record Store := {
  objects : list CacheObj;
  arrays : list (list JSValue);
  modelsCache : nat;
}.

(** [let modelsCache = { at: 0, data: null };] *)
Definition initial_store : Store :=
  {| objects := [ {| cache_at := 0; cache_data := None |} ];
     arrays := [];
     modelsCache := 0 |}.

(** [modelsCache.at] and [modelsCache.data] *)
Definition modelsCache_at (st : Store) : Z :=
  cache_at (objects st !!! modelsCache st).

Definition modelsCache_data (st : Store) : option (list JSValue) :=
  match cache_data (objects st !!! modelsCache st) with
  | Some a => Some (arrays st !!! a)
  | None => None
  end.

(** [modelsCache = { at: now, data: models }]: the array and the object are
    new, and the binding is pointed at the new object. *)
Definition assign_modelsCache (at_ : Z) (models : list JSValue) (st : Store)
  : Store :=
  {| objects :=
       (objects st
          ++ [ {| cache_at := at_; cache_data := Some (List.length (arrays st)) |} ])%list;
     arrays := (arrays st ++ [models])%list;
     modelsCache := List.length (objects st) |}.

(** ** Handlers as tasks *)

(** A handler in progress: it has answered, it has thrown, or it waits for
    an outbound call, to be resumed with how the call settled on the store
    as it is by then. *)
Inductive Task : Type :=
| Respond (r : Response)
| Fail (e : Thrown)
| Await (req : OutRequest)
        (k : Clock -> Completion UpResponse -> Store -> Task * Store).

(** A continuation that does not touch the store. *)
Definition await (req : OutRequest)
    (k : Clock -> Completion UpResponse -> Task) : Task :=
  Await req (fun clk res st => (k clk res, st)).

(** [return c] outside of a [try]. *)
Definition finish (c : Completion Response) : Task :=
  match c with
  | Normal r => Respond r
  | Throw e => Fail e
  end.

(** [const x = c; rest] outside of a [try]: when [c] throws, so does the
    handler. *)
Definition and_then {A} (c : Completion A) (rest : A -> Task) : Task :=
  match c with
  | Normal a => rest a
  | Throw e => Fail e
  end.

(** [return c] inside of [try { ... } catch (e) { handler }]. *)
Definition try_return (c : Completion Response) (handler : Thrown -> Task)
  : Task :=
  match c with
  | Normal r => Respond r
  | Throw e => handler e
  end.

(** ** The worker *)

Module Worker.

Definition DEFAULT_BASE : string := "https://openrouter.ai/api/v1".
Definition DEFAULT_MODELS_CACHE_TTL_MS : Z := 300000.
Definition MAX_PROMPT_CHARS : Z := 8000.

(** The timer of [handleChat]:
    [setTimeout(() => ac.abort("upstream_timeout"), 30000)]. *)
Definition chat_signal : Signal :=
  {| deadline_ms := 30000; reason := "upstream_timeout" |}.

(** The text of [String(body?.k || d).trim()] when the field is plain; the
    handlers convert with [text_field]. *)
Definition string_field (body_ : JSValue) (k d : string) : string :=
  trim (ToString (or_else (get body_ k) (JStr d))).

Definition fallbackModels : list JSValue :=
  [ JObj [("id", JStr "openai/gpt-4o-mini"); ("name", JStr "GPT-4o mini")];
    JObj [("id", JStr "google/gemini-2.0-flash-001"); ("name", JStr "Gemini 2.0 Flash")];
    JObj [("id", JStr "anthropic/claude-3.5-haiku"); ("name", JStr "Claude 3.5 Haiku")] ].

Definition personaPrompt (persona : string) : string :=
  let p := toLowerCase (if String.eqb persona "" then "default" else persona) in
  if String.eqb p "sales" then
    "You are a sales assistant. Be persuasive, concise, and CTA-driven while staying honest."
  else if String.eqb p "tutor" then
    "You are a tutor. Explain step-by-step, ask check questions, and adapt to learner level."
  else if String.eqb p "support" then
    "You are a customer support agent. Be calm, precise, and solution-first."
  else "You are Ko Paing style assistant: concise, practical, safe.".

Definition corsHeaders (request : Request) (env : Env) : list (string * string) :=
  let origin := or_default (Origin request) "*" in
  let allowed := or_default (ALLOWED_ORIGIN env) "*" in
  let value :=
    if String.eqb allowed "*" then "*"
    else if String.eqb origin allowed then allowed else "null" in
  [ ("access-control-allow-origin", value);
    ("access-control-allow-methods", "GET,POST,OPTIONS");
    ("access-control-allow-headers", "content-type");
    ("vary", "Origin") ].

Definition openRouterHeaders (env : Env) : list (string * string) :=
  let h := [("Authorization", "Bearer " ++ interpolate (OPEN_ROUTER_API_KEY env))] in
  let h := if present (SITE_URL env)
           then set_prop "HTTP-Referer" (interpolate (SITE_URL env)) h else h in
  let h := if present (SITE_NAME env)
           then set_prop "X-Title" (interpolate (SITE_NAME env)) h else h in
  h.

(** Called only where [SUPABASE_ANON_KEY] is present. *)
Definition supabaseHeaders (env : Env) : list (string * string) :=
  [ ("apikey", interpolate (SUPABASE_ANON_KEY env));
    ("Authorization", "Bearer " ++ interpolate (SUPABASE_ANON_KEY env));
    ("content-type", "application/json") ].

(** The outbound call of [handleModels]. *)
Definition models_request (env : Env) : OutRequest :=
  {| url := or_default (OPENROUTER_BASE_URL env) DEFAULT_BASE ++ "/models";
     out_method := "GET";
     out_headers := openRouterHeaders env;
     out_body := None;
     signal := None |}.

(** The outbound call of [handleChat], armed with the 30 s timer. *)
Definition chat_request (env : Env) (model prompt persona : string)
  : OutRequest :=
  {| url := or_default (OPENROUTER_BASE_URL env) DEFAULT_BASE
            ++ "/chat/completions";
     out_method := "POST";
     out_headers :=
       spread (openRouterHeaders env)
         [ ("content-type", "application/json");
           ("accept", "text/event-stream") ];
     out_body :=
       Some (JObj
         [ ("model", JStr model);
           ("stream", JBool true);
           ("messages",
            JArr [ JObj [ ("role", JStr "system");
                          ("content", JStr (personaPrompt persona)) ];
                   JObj [ ("role", JStr "user");
                          ("content", JStr prompt) ] ]) ]);
     signal := Some chat_signal |}.

Section Handlers.

Context (host : Host).

(** [new Response(body, { status, headers })]: a status outside 200..599 is
    a [RangeError], and a body with a null-body status (204, 205, 304; 101
    and 103 are out of range already) is a [TypeError]. *)
Definition new_Response (b : Body) (st : Z) (hs : list (string * string))
  : Completion Response :=
  if (st <? 200) || (599 <? st) then Throw (status_RangeError host)
  else
    match b with
    | NoBody => Normal {| status := st; headers := hs; body := b |}
    | _ =>
        if (st =? 204) || (st =? 205) || (st =? 304)
        then Throw (null_body_TypeError host)
        else Normal {| status := st; headers := hs; body := b |}
    end.

(** [String(v)]: an object converts through [Object.prototype.toString]
    unless it has an own [toString] key, whose value is no function in a
    parsed object, and then [valueOf] gives the object back and the
    conversion throws; an array joins the conversions of its elements from
    the left. *)
Fixpoint String_ (v : JSValue) : Completion string :=
  match v with
  | JUndefined => Normal "undefined"
  | JNull => Normal "null"
  | JBool true => Normal "true"
  | JBool false => Normal "false"
  | JNum z =>
      Normal (if is_safe_integer z then pretty z else Number_toString host z)
  | JStr s => Normal s
  | JArr elems =>
      let fix parts (l : list JSValue) : Completion (list string) :=
        match l with
        | [] => Normal []
        | x :: rest =>
            match match x with
                  | JUndefined | JNull => Normal ""
                  | _ => String_ x
                  end with
            | Throw e => Throw e
            | Normal p =>
                match parts rest with
                | Throw e => Throw e
                | Normal ps => Normal (p :: ps)
                end
            end
        end in
      match parts elems with
      | Throw e => Throw e
      | Normal ps => Normal (join "," ps)
      end
  | JObj props =>
      if has_own "toString" props then Throw (primitive_TypeError host)
      else Normal "[object Object]"
  end.

(** [String(body?.k || d)] *)
Definition String_field (body_ : JSValue) (k d : string) : Completion string :=
  String_ (or_else (get body_ k) (JStr d)).

(** [String(body?.k || d).trim()] *)
Definition text_field (body_ : JSValue) (k d : string) : Completion string :=
  match String_field body_ k d with
  | Normal s => Normal (trim s)
  | Throw e => Throw e
  end.

(** [String(body?.k || d).slice(0, n)] *)
Definition sliced_field (body_ : JSValue) (k d : string) (n : nat)
  : Completion string :=
  match String_field body_ k d with
  | Normal s => Normal (slice0 n s)
  | Throw e => Throw e
  end.

Definition json (data : JSValue) (st : Z) (hs : list (string * string))
  : Completion Response :=
  new_Response (JsonBody data) st
    (spread [("content-type", "application/json; charset=utf-8")] hs).

Definition htmlResponse (html : Page) (request : Request) (env : Env)
  : Completion Response :=
  new_Response (PageBody html) 200
    (spread [("content-type", "text/html; charset=utf-8")]
       (corsHeaders request env)).

(** [Number(env.MODELS_CACHE_TTL_MS || DEFAULT_MODELS_CACHE_TTL_MS)] *)
Definition ttl_of (env : Env) : JSNum :=
  if present (MODELS_CACHE_TTL_MS env)
  then Number host (interpolate (MODELS_CACHE_TTL_MS env))
  else Fin DEFAULT_MODELS_CACHE_TTL_MS 1.

(** [modelsCache.data && now - modelsCache.at < ttl] *)
Definition cache_hit (ttl : JSNum) (now_ : Z) (st : Store) : bool :=
  match modelsCache_data st with
  | Some _ => lt_num (now_ - modelsCache_at st) ttl
  | None => false
  end.

(** [.map((m) => ({ id: m?.id, name: m?.name || m?.id }))] *)
Definition project (m : JSValue) : JSValue :=
  JObj [ ("id", get m "id");
         ("name", or_else (get m "name") (get m "id")) ].

(** [Array.isArray(data?.data) ? data.data : []] *)
Definition entries_of (data : JSValue) : list JSValue :=
  match get data "data" with
  | JArr entries => entries
  | _ => []
  end.

(** [entries.map(...).filter((m) => m.id)] *)
Definition models_of (data : JSValue) : list JSValue :=
  List.filter (fun m => truthy (get m "id")) (List.map project (entries_of data)).

Definition handleModels (request : Request) (env : Env) (clk : Clock)
    (st : Store) : Task * Store :=
  if negb (present (OPEN_ROUTER_API_KEY env)) then
    (finish
       (json (JObj [ ("error", JStr "OPEN_ROUTER_API_KEY missing");
                     ("code", JStr "CONFIG_ERROR") ])
          500 (corsHeaders request env)), st)
  else
    let ttl := ttl_of env in
    let now_ := now clk in
    if cache_hit ttl now_ st then
      (finish
         (json (JObj [ ("models", JArr (default [] (modelsCache_data st)));
                       ("cached", JBool true) ])
            200 (corsHeaders request env)), st)
    else
      let catch (e : Thrown) : Task :=
        finish
          (json (JObj [ ("models", JArr fallbackModels);
                        ("fallback", JBool true);
                        ("degraded", JBool true) ])
             200 (corsHeaders request env)) in
      (Await (models_request env)
         (fun _ settled st' =>
            match settled with
            | Throw e => (catch e, st')
            | Normal res =>
                if negb (ok res) then
                  let fallback := fallbackModels in
                  (try_return
                     (json (JObj [ ("models", JArr fallback);
                                   ("fallback", JBool true) ])
                        200 (corsHeaders request env)) catch, st')
                else
                  match up_json res with
                  | Throw e => (catch e, st')
                  | Normal data =>
                      let models := models_of data in
                      match models with
                      | [] =>
                          let fallback := fallbackModels in
                          (try_return
                             (json (JObj [ ("models", JArr fallback);
                                           ("fallback", JBool true) ])
                                200 (corsHeaders request env)) catch, st')
                      | _ :: _ =>
                          let st'' := assign_modelsCache now_ models st' in
                          (try_return
                             (json (JObj [ ("models", JArr models);
                                           ("cached", JBool false) ])
                                200 (corsHeaders request env)) catch, st'')
                      end
                  end
            end), st).

(** The [catch] of [handleChat]. *)
Definition chat_catch (request : Request) (env : Env) (e : Thrown) : Task :=
  let timeout := includes "upstream_timeout" (error_text e) in
  finish
    (json (JObj [ ("error",
                   JStr (if timeout then "upstream timeout" else "network failure")) ])
       (if timeout then 504 else 502) (corsHeaders request env)).

(** [handleChat] from [clearTimeout(timer)] on, once the outbound call has
    settled.  The text of an upstream error is read for the log only. *)
Definition chat_settled (request : Request) (env : Env)
    (settled : Completion UpResponse) : Task :=
  match settled with
  | Throw e => chat_catch request env e
  | Normal upstream =>
      if negb (ok upstream) || negb (has_body upstream) then
        try_return
          (json (JObj [ ("error", JStr "upstream error");
                        ("status", JNum (up_status upstream)) ])
             (if up_status upstream =? 0 then 502 else up_status upstream)
             (corsHeaders request env))
          (chat_catch request env)
      else
        try_return
          (new_Response (StreamBody (default [] (up_body upstream))) 200
             (spread
                [ ("content-type", "text/event-stream; charset=utf-8");
                  ("cache-control", "no-cache, no-transform");
                  ("x-accel-buffering", "no") ]
                (corsHeaders request env)))
          (chat_catch request env)
  end.

Definition handleChat (request : Request) (env : Env) (clk : Clock) : Task :=
  if negb (present (OPEN_ROUTER_API_KEY env)) then
    finish
      (json (JObj [ ("error", JStr "OPEN_ROUTER_API_KEY missing");
                    ("code", JStr "CONFIG_ERROR") ])
         500 (corsHeaders request env))
  else
    match json_body request with
    | None =>
        finish (json (JObj [("error", JStr "Invalid JSON")]) 400
                  (corsHeaders request env))
    | Some body_ =>
        and_then (text_field body_ "model" "") (fun model =>
        and_then (text_field body_ "prompt" "") (fun prompt =>
        and_then (text_field body_ "persona" "default") (fun persona =>
        if String.eqb model "" then
          finish (json (JObj [("error", JStr "model is required")]) 400
                    (corsHeaders request env))
        else if String.eqb prompt "" then
          finish (json (JObj [("error", JStr "prompt is required")]) 400
                    (corsHeaders request env))
        else if MAX_PROMPT_CHARS <? JS.length prompt then
          finish
            (json (JObj [("error",
                          JStr ("prompt exceeds " ++ pretty MAX_PROMPT_CHARS ++ " chars"))])
               400 (corsHeaders request env))
        else
          await (chat_request env model prompt persona)
            (fun _ settled => chat_settled request env settled))))
    end.

(** *** The persistence passthrough *)

Definition store_configured (env : Env) : bool :=
  present (SUPABASE_URL env) && present (SUPABASE_ANON_KEY env).

Definition not_configured (request : Request) (env : Env) : Task :=
  finish
    (json (JObj [ ("ok", JBool false);
                  ("code", JStr "SUPABASE_NOT_CONFIGURED") ])
       200 (corsHeaders request env)).

Definition invalid_json (request : Request) (env : Env) : Task :=
  finish
    (json (JObj [("ok", JBool false); ("error", JStr "invalid json")])
       400 (corsHeaders request env)).

(** [catch (e) { return json({ ok: false, error: String(e?.message || e) }, 500, ...) }] *)
Definition store_catch (request : Request) (env : Env) (e : Thrown) : Task :=
  finish
    (json (JObj [("ok", JBool false); ("error", JStr (error_text e))])
       500 (corsHeaders request env)).

(** [Array.isArray(arr) && arr[0] ? arr[0].k : otherwise] *)
Definition first_row (arr : JSValue) (k : string) (otherwise : JSValue)
  : JSValue :=
  if isArray arr && truthy (get0 arr) then get (get0 arr) k else otherwise.

(** [await res.json().catch(() => ({}))] *)
Definition json_or_empty (res : UpResponse) : JSValue :=
  match up_json res with
  | Normal data => data
  | Throw _ => JObj []
  end.

Definition handleBuilderStateGet (request : Request) (env : Env) (clk : Clock)
  : Task :=
  if negb (store_configured env) then not_configured request env
  else
    let bot := trim (or_default (searchParams_get "bot" (searchParams request)) "default") in
    await
      {| url := interpolate (SUPABASE_URL env) ++ "/rest/v1/builder_states?bot=eq."
                ++ encodeURIComponent host bot
                ++ "&select=bot,state_json,updated_at&limit=1";
         out_method := "GET";
         out_headers := supabaseHeaders env;
         out_body := None;
         signal := None |}
      (fun _ settled =>
         match settled with
         | Throw e => store_catch request env e
         | Normal res =>
             match up_json res with
             | Throw e => store_catch request env e
             | Normal arr =>
                 if negb (ok res) then
                   try_return
                     (json (JObj [("ok", JBool false); ("error", arr)])
                        500 (corsHeaders request env))
                     (store_catch request env)
                 else
                   try_return
                     (json (JObj [ ("ok", JBool true);
                                   ("state", first_row arr "state_json" JNull) ])
                        200 (corsHeaders request env))
                     (store_catch request env)
             end
         end).

(** The tail shared by the two upserts:
    [const data = await res.json().catch(() => ({}));
     if (!res.ok) return json({ ok: false, error: data }, 500, ...);
     return json({ ok: true, data }, 200, ...);] inside the [try]. *)
Definition upsert_result (request : Request) (env : Env)
    (settled : Completion UpResponse) : Task :=
  match settled with
  | Throw e => store_catch request env e
  | Normal res =>
      let data := json_or_empty res in
      if negb (ok res) then
        try_return
          (json (JObj [("ok", JBool false); ("error", data)])
             500 (corsHeaders request env))
          (store_catch request env)
      else
        try_return
          (json (JObj [("ok", JBool true); ("data", data)])
             200 (corsHeaders request env))
          (store_catch request env)
  end.

Definition handleBuilderStatePost (request : Request) (env : Env) (clk : Clock)
  : Task :=
  if negb (store_configured env) then not_configured request env
  else
    match json_body request with
    | None => invalid_json request env
    | Some body_ =>
        and_then (text_field body_ "bot" "default") (fun bot =>
        let state := get body_ "state" in
        if String.eqb bot "" || negb (truthy state) then
          finish
            (json (JObj [ ("ok", JBool false);
                          ("error", JStr "bot/state required") ])
               400 (corsHeaders request env))
        else
          await
            {| url := interpolate (SUPABASE_URL env)
                      ++ "/rest/v1/builder_states?on_conflict=bot";
               out_method := "POST";
               out_headers :=
                 spread (supabaseHeaders env)
                   [ ("content-type", "application/json");
                     ("Prefer", "resolution=merge-duplicates,return=representation") ];
               out_body :=
                 Some (JArr [ JObj [ ("bot", JStr bot);
                                     ("state_json", state);
                                     ("updated_at", JStr (iso clk)) ] ]);
               signal := None |}
            (fun _ settled => upsert_result request env settled))
    end.

Definition handleMemoryGet (request : Request) (env : Env) (clk : Clock)
  : Task :=
  if negb (store_configured env) then not_configured request env
  else
    let userId :=
      trim (or_default (searchParams_get "userId" (searchParams request)) "guest") in
    await
      {| url := interpolate (SUPABASE_URL env) ++ "/rest/v1/user_memory?user_id=eq."
                ++ encodeURIComponent host userId
                ++ "&select=user_id,memory_json,updated_at&limit=1";
         out_method := "GET";
         out_headers := supabaseHeaders env;
         out_body := None;
         signal := None |}
      (fun _ settled =>
         match settled with
         | Throw e => store_catch request env e
         | Normal res =>
             match up_json res with
             | Throw e => store_catch request env e
             | Normal arr =>
                 if negb (ok res) then
                   try_return
                     (json (JObj [("ok", JBool false); ("error", arr)])
                        500 (corsHeaders request env))
                     (store_catch request env)
                 else
                   try_return
                     (json (JObj [ ("ok", JBool true);
                                   ("memory", first_row arr "memory_json" (JObj [])) ])
                        200 (corsHeaders request env))
                     (store_catch request env)
             end
         end).

Definition handleMemoryPost (request : Request) (env : Env) (clk : Clock)
  : Task :=
  if negb (store_configured env) then not_configured request env
  else
    match json_body request with
    | None => invalid_json request env
    | Some body_ =>
        and_then (text_field body_ "userId" "guest") (fun userId =>
        let memory := or_else (get body_ "memory") (JObj []) in
        await
          {| url := interpolate (SUPABASE_URL env)
                    ++ "/rest/v1/user_memory?on_conflict=user_id";
             out_method := "POST";
             out_headers :=
               spread (supabaseHeaders env)
                 [("Prefer", "resolution=merge-duplicates,return=representation")];
             out_body :=
               Some (JArr [ JObj [ ("user_id", JStr userId);
                                   ("memory_json", memory);
                                   ("updated_at", JStr (iso clk)) ] ]);
             signal := None |}
          (fun _ settled => upsert_result request env settled))
    end.

Definition handleAnalyticsEventPost (request : Request) (env : Env)
    (clk : Clock) : Task :=
  if negb (store_configured env) then not_configured request env
  else
    match json_body request with
    | None => invalid_json request env
    | Some body_ =>
        and_then (sliced_field body_ "eventType" "message" 64%nat) (fun event_type =>
        and_then (sliced_field body_ "userId" "guest" 128%nat) (fun user_id =>
        and_then (sliced_field body_ "sessionId" "session" 128%nat) (fun session_id =>
        and_then (sliced_field body_ "nodeId" "" 128%nat) (fun node_id =>
        let payload :=
          JArr [ JObj [ ("event_type", JStr event_type);
                        ("user_id", JStr user_id);
                        ("session_id", JStr session_id);
                        ("node_id", JStr node_id);
                        ("meta_json", or_else (get body_ "meta") (JObj []));
                        ("created_at", JStr (iso clk)) ] ] in
        await
          {| url := interpolate (SUPABASE_URL env) ++ "/rest/v1/analytics_events";
             out_method := "POST";
             out_headers := spread (supabaseHeaders env) [("Prefer", "return=minimal")];
             out_body := Some payload;
             signal := None |}
          (fun _ settled =>
             match settled with
             | Throw e => store_catch request env e
             | Normal res =>
                 if negb (ok res) then
                   match up_text res with
                   | Throw e => store_catch request env e
                   | Normal txt =>
                       try_return
                         (json (JObj [("ok", JBool false); ("error", JStr txt)])
                            500 (corsHeaders request env))
                         (store_catch request env)
                   end
                 else
                   try_return
                     (json (JObj [("ok", JBool true)]) 200 (corsHeaders request env))
                     (store_catch request env)
             end)))))
    end.

Definition handleAnalyticsSummaryGet (request : Request) (env : Env)
    (clk : Clock) : Task :=
  if negb (store_configured env) then not_configured request env
  else
    await
      {| url := interpolate (SUPABASE_URL env)
                ++ "/rest/v1/analytics_events?select=event_type,user_id,node_id,created_at&order=created_at.desc&limit=1000";
         out_method := "GET";
         out_headers := supabaseHeaders env;
         out_body := None;
         signal := None |}
      (fun _ settled =>
         match settled with
         | Throw e => store_catch request env e
         | Normal res =>
             match up_json res with
             | Throw e => store_catch request env e
             | Normal rows =>
                 if negb (ok res) then
                   try_return
                     (json (JObj [("ok", JBool false); ("error", rows)])
                        500 (corsHeaders request env))
                     (store_catch request env)
                 else
                   let events := match rows with
                                 | JArr rs => rs
                                 | _ => []
                                 end in
                   match analyticsSummary host events with
                   | Throw e => store_catch request env e
                   | Normal summary =>
                       try_return
                         (json (JObj [("ok", JBool true); ("summary", summary)])
                            200 (corsHeaders request env))
                         (store_catch request env)
                   end
             end
         end).

Definition handleAutomationTrigger (request : Request) (env : Env)
    (clk : Clock) : Task :=
  match json_body request with
  | None => invalid_json request env
  | Some body_ =>
      and_then (text_field body_ "text" "") (fun text =>
      and_then (text_field body_ "model" "openai/gpt-4o-mini") (fun model =>
      and_then (text_field body_ "persona" "support") (fun persona =>
      and_then (text_field body_ "userId" "automation") (fun userId =>
      if String.eqb text "" then
        finish
          (json (JObj [("ok", JBool false); ("error", JStr "text required")])
             400 (corsHeaders request env))
      else if negb (present (OPEN_ROUTER_API_KEY env)) then
        finish
          (json (JObj [ ("ok", JBool false);
                        ("error", JStr "OPEN_ROUTER_API_KEY missing") ])
             500 (corsHeaders request env))
      else
        await
          {| url := or_default (OPENROUTER_BASE_URL env) DEFAULT_BASE
                    ++ "/chat/completions";
             out_method := "POST";
             out_headers :=
               spread (openRouterHeaders env) [("content-type", "application/json")];
             out_body :=
               Some (JObj
                 [ ("model", JStr model);
                   ("stream", JBool false);
                   ("messages",
                    JArr [ JObj [ ("role", JStr "system");
                                  ("content", JStr (personaPrompt persona)) ];
                           JObj [ ("role", JStr "user");
                                  ("content", JStr text) ] ]) ]);
             signal := None |}
          (fun clk' settled =>
             match settled with
             | Throw e => store_catch request env e
             | Normal upstream =>
                 let data := json_or_empty upstream in
                 if negb (ok upstream) then
                   try_return
                     (json (JObj [("ok", JBool false); ("error", data)])
                        (if up_status upstream =? 0 then 500
                         else up_status upstream)
                        (corsHeaders request env))
                     (store_catch request env)
                 else
                   let answer :=
                     or_else
                       (get (get (get0 (get data "choices")) "message") "content")
                       (JStr "") in
                   let done :=
                     try_return
                       (json (JObj [("ok", JBool true); ("output", answer)])
                          200 (corsHeaders request env))
                       (store_catch request env) in
                   if store_configured env then
                     await
                       {| url := interpolate (SUPABASE_URL env)
                                 ++ "/rest/v1/analytics_events";
                          out_method := "POST";
                          out_headers :=
                            spread (supabaseHeaders env) [("Prefer", "return=minimal")];
                          out_body :=
                            Some (JArr
                              [ JObj
                                  [ ("event_type", JStr "automation");
                                    ("user_id", JStr userId);
                                    ("session_id", JStr "automation");
                                    ("node_id", JStr "webhook");
                                    ("meta_json",
                                     JObj [ ("textLen", JNum (JS.length text));
                                            ("model", JStr model);
                                            ("persona", JStr persona) ]);
                                    ("created_at", JStr (iso clk')) ] ]);
                          signal := None |}
                       (fun _ _ => done)
                   else done
             end)))))
  end.

(** *** The router *)

Definition fetch (request : Request) (env : Env) (clk : Clock) (st : Store)
  : Task * Store :=
  let path := pathname request in
  let meth := method request in
  if String.eqb meth "OPTIONS" then
    (finish (new_Response NoBody 200 (corsHeaders request env)), st)
  else if String.eqb path "/" then
    (finish (htmlResponse INDEX_HTML request env), st)
  else if String.eqb path "/builder" then
    (finish (htmlResponse BUILDER_HTML request env), st)
  else if String.eqb path "/api/health" then
    (finish
       (json (JObj [ ("ok", JBool true);
                     ("service", JStr "kopaing-edge-terminal-chat") ])
          200 (corsHeaders request env)), st)
  else if String.eqb path "/api/models" && String.eqb meth "GET" then
    handleModels request env clk st
  else if String.eqb path "/api/chat" && String.eqb meth "POST" then
    (handleChat request env clk, st)
  else if String.eqb path "/api/builder/state" && String.eqb meth "GET" then
    (handleBuilderStateGet request env clk, st)
  else if String.eqb path "/api/builder/state" && String.eqb meth "POST" then
    (handleBuilderStatePost request env clk, st)
  else if String.eqb path "/api/memory" && String.eqb meth "GET" then
    (handleMemoryGet request env clk, st)
  else if String.eqb path "/api/memory" && String.eqb meth "POST" then
    (handleMemoryPost request env clk, st)
  else if String.eqb path "/api/analytics/event" && String.eqb meth "POST" then
    (handleAnalyticsEventPost request env clk, st)
  else if String.eqb path "/api/analytics/summary" && String.eqb meth "GET" then
    (handleAnalyticsSummaryGet request env clk, st)
  else if String.eqb path "/api/automation/trigger" && String.eqb meth "POST" then
    (handleAutomationTrigger request env clk, st)
  else if String.eqb path "/widget.js" && String.eqb meth "GET" then
    (finish
       (new_Response (PageBody WIDGET_JS) 200
          (spread [("content-type", "application/javascript; charset=utf-8")]
             (corsHeaders request env))), st)
  else
    (finish (json (JObj [("error", JStr "Not found")]) 404
               (corsHeaders request env)), st).

(** ** The event loop *)

(** The worker between two segments: the store and the handlers that wait
    for an outbound call. *)
Record World := {
  store : Store;
  waiting : list Task;
}.

Definition initial_world : World :=
  {| store := initial_store; waiting := [] |}.

(** One segment runs to its end before another starts: either a request
    arrives and its handler runs up to its first outbound call, or an
    outbound call of a waiting handler settles and the handler runs on. *)
Inductive step (env : Env) : World -> World -> Prop :=
| step_request w request clk t st' :
    fetch request env clk (store w) = (t, st') ->
    step env w {| store := st'; waiting := t :: waiting w |}
| step_settled w i req k u settled aborted clk t st' :
    waiting w !! i = Some (Await req k) ->
    settle (signal req) u = Some (settled, aborted) ->
    k clk settled (store w) = (t, st') ->
    step env w {| store := st'; waiting := <[i := t]> (waiting w) |}.

Inductive reachable (env : Env) : World -> Prop :=
| reachable_initial : reachable env initial_world
| reachable_step w w' : reachable env w -> step env w w' -> reachable env w'.

End Handlers.

(** ** Vocabulary of the properties *)

(** The response [json(data, st, corsHeaders(request, env))] builds when
    [st] is a status that may carry a body. *)
Definition json_response (data : JSValue) (st : Z) (request : Request)
    (env : Env) : Response :=
  {| status := st;
     headers :=
       spread [("content-type", "application/json; charset=utf-8")]
         (corsHeaders request env);
     body := JsonBody data |}.

(** Every way the task can go on ends in a response that satisfies [P]: it
    never throws, and whatever its outbound calls settle with, on whatever
    store it is resumed, it answers with such a response. *)
Inductive answers (P : Response -> Prop) : Task -> Prop :=
| answers_now r : P r -> answers P (Respond r)
| answers_later req k :
    (forall clk settled st, answers P (k clk settled st).1) ->
    answers P (Await req k).

(** Every way the task can end: whatever its outbound calls settle with, on
    whatever store it is resumed, it answers with a response that satisfies
    [P], or throws a value that satisfies [Q] and gives no response. *)
Inductive ends_with (P : Response -> Prop) (Q : Thrown -> Prop)
  : Task -> Prop :=
| ends_with_now r : P r -> ends_with P Q (Respond r)
| ends_with_thrown e : Q e -> ends_with P Q (Fail e)
| ends_with_later req k :
    (forall clk settled st, ends_with P Q (k clk settled st).1) ->
    ends_with P Q (Await req k).

(** What the first of the conversions that throws, if any, throws. *)
Fixpoint first_throw {A} (cs : list (Completion A)) : option Thrown :=
  match cs with
  | Throw e :: _ => Some e
  | Normal _ :: rest => first_throw rest
  | [] => None
  end.

(** The task answers without any outbound call. *)
Definition short_circuits (t : Task) : Prop :=
  exists r, t = Respond r.

(** What one segment may do to the store: nothing, or the assignment
    [modelsCache = { at, data: models }] with a list of at least one entry. *)
Definition replaced_or_kept (st st' : Store) : Prop :=
  st' = st
  \/ exists at_ models, models <> [] /\ st' = assign_modelsCache at_ models st.

(** Every segment the task will ever run treats the store that way. *)
Inductive cache_safe : Task -> Prop :=
| cache_safe_respond r : cache_safe (Respond r)
| cache_safe_fail e : cache_safe (Fail e)
| cache_safe_await req k :
    (forall clk settled st,
        replaced_or_kept st (k clk settled st).2
        /\ cache_safe (k clk settled st).1) ->
    cache_safe (Await req k).

(** The binding points into the heap, at an object whose [data] is [null]
    or points at a stored array of at least one entry. *)
Definition cache_inv (st : Store) : Prop :=
  (modelsCache st < List.length (objects st))%nat
  /\ match cache_data (objects st !!! modelsCache st) with
     | Some a => (a < List.length (arrays st))%nat /\ arrays st !!! a <> []
     | None => True
     end.

(** The models a response to [/api/models] lists, if it lists any. *)
Definition listed_models (r : Response) : option (list JSValue) :=
  match body r with
  | JsonBody (JObj (("models", JArr ms) :: _)) => Some ms
  | _ => None
  end.

(** A flag of the JSON envelope of a response. *)
Definition flag (k : string) (r : Response) : JSValue :=
  match body r with
  | JsonBody data => get data k
  | _ => JUndefined
  end.

(** The projection the specification words: [{ id, name: name ?? id }]. *)
Definition project_nullish (m : JSValue) : JSValue :=
  JObj [ ("id", get m "id");
         ("name", nullish_else (get m "name") (get m "id")) ].

(** A host to run the handlers on in examples: [Number] reads a run of
    decimal digits, [encodeURIComponent] is given unreserved characters
    only, no number is beyond the safe integers, and the summary fold
    counts nothing. *)
Fixpoint digits_value (acc : Z) (s : string) : option Z :=
  match s with
  | EmptyString => Some acc
  | String c s' =>
      let n := Z.of_N (N_of_ascii c) in
      if (48 <=? n) && (n <=? 57) then digits_value (10 * acc + (n - 48)) s'
      else None
  end.

Definition example_host : Host :=
  {| Number := fun s => match digits_value 0 s with
                        | Some z => Fin z 1
                        | None => NaN
                        end;
     Number_toString := pretty;
     encodeURIComponent := fun s => s;
     status_RangeError :=
       ErrorObj "RangeError" "init status must be in the range of 200 to 599";
     null_body_TypeError :=
       ErrorObj "TypeError" "response with null body status cannot have body";
     primitive_TypeError :=
       ErrorObj "TypeError" "Cannot convert object to primitive value";
     analyticsSummary := fun _ => Normal (JObj []) |}.

Definition example_env : Env :=
  {| OPEN_ROUTER_API_KEY := Some "sk-or-test";
     OPENROUTER_BASE_URL := None;
     MODELS_CACHE_TTL_MS := None;
     SITE_URL := None;
     SITE_NAME := None;
     ALLOWED_ORIGIN := None;
     SUPABASE_URL := None;
     SUPABASE_ANON_KEY := None |}.

Definition example_request (meth path : string) (b : option JSValue) : Request :=
  {| method := meth;
     pathname := path;
     searchParams := [];
     Origin := Some "https://chat.example";
     json_body := b |}.

Definition clock_at (t : Z) : Clock := {| now := t; iso := "" |}.

(** A prompt of [n] characters. *)
Fixpoint repeat_a (n : nat) : string :=
  match n with
  | O => EmptyString
  | S n' => String "a" (repeat_a n')
  end.

Definition prompt_of_length (n : Z) : string := repeat_a (Z.to_nat n).

(** The response carries the [access-control-allow-origin] header that
    [corsHeaders] computes for the request. *)
Definition carries_cors (request : Request) (env : Env) (r : Response) : Prop :=
  header "access-control-allow-origin" (headers r)
  = header "access-control-allow-origin" (corsHeaders request env).

(** What holds of the worker between any two segments. *)
Definition world_inv (w : World) : Prop :=
  cache_inv (store w) /\ Forall cache_safe (waiting w).

(** A 200 that lists at least one model. *)
Definition lists_models (r : Response) : Prop :=
  status r = 200
  /\ exists models, listed_models r = Some models /\ models <> [].

(** Resumes a handler that waits for its outbound call, on the store it
    left. *)
Definition resume (ts : Task * Store) (clk : Clock)
    (settled : Completion UpResponse) : Task * Store :=
  match ts.1 with
  | Await _ k => k clk settled ts.2
  | _ => ts
  end.

(** What becomes of a handler that waits for its outbound call when the
    other end behaves as [u]: how it goes on, and whether the call was
    aborted.  [None] when the call never settles, or no call is awaited. *)
Definition deliver (ts : Task * Store) (clk : Clock) (u : Upstream)
  : option ((Task * Store) * bool) :=
  match ts.1 with
  | Await req k =>
      match settle (signal req) u with
      | Some (settled, aborted) => Some (k clk settled ts.2, aborted)
      | None => None
      end
  | _ => None
  end.

(** An upstream response with the given status and JSON body. *)
Definition json_reply (st : Z) (data : JSValue) : UpResponse :=
  {| up_status := st;
     up_body := Some [];
     up_json := Normal data;
     up_text := Normal "" |}.

(** The worker after one request for the models has come in on a cold
    start, and after upstream has answered it with one model. *)
Definition example_models_request : Request :=
  example_request "GET" "/api/models" None.

Definition example_models_reply : UpResponse :=
  json_reply 200
    (JObj [("data", JArr [ JObj [ ("id", JStr "acme/model-1");
                                  ("name", JStr "Model One") ] ])]).

Definition example_world_waiting : World :=
  {| store := initial_store;
     waiting :=
       [ (fetch example_host example_models_request example_env
            (clock_at 1000) initial_store).1 ] |}.

Definition example_world_captured : World :=
  {| store :=
       assign_modelsCache 1000
         [ JObj [("id", JStr "acme/model-1"); ("name", JStr "Model One")] ]
         initial_store;
     waiting :=
       [ (resume
            (fetch example_host example_models_request example_env
               (clock_at 1000) initial_store)
            (clock_at 1200) (Normal example_models_reply)).1 ] |}.

(** No segment the task will ever run changes the store. *)
Inductive keeps_store : Task -> Prop :=
| keeps_store_respond r : keeps_store (Respond r)
| keeps_store_fail e : keeps_store (Fail e)
| keeps_store_await req k :
    (forall clk settled st,
        (k clk settled st).2 = st /\ keeps_store (k clk settled st).1) ->
    keeps_store (Await req k).

(** The routes that go to a handler, after [OPTIONS], the two pages and
    [/api/health]. *)
Definition handler_routes : list (string * string) :=
  [ ("/api/models", "GET"); ("/api/chat", "POST");
    ("/api/builder/state", "GET"); ("/api/builder/state", "POST");
    ("/api/memory", "GET"); ("/api/memory", "POST");
    ("/api/analytics/event", "POST"); ("/api/analytics/summary", "GET");
    ("/api/automation/trigger", "POST"); ("/widget.js", "GET") ].

(** The routes that need the store of builder states, memories and events. *)
Definition store_routes : list (string * string) :=
  [ ("/api/builder/state", "GET"); ("/api/builder/state", "POST");
    ("/api/memory", "GET"); ("/api/memory", "POST");
    ("/api/analytics/event", "POST"); ("/api/analytics/summary", "GET") ].

(** Every character of the string is white space. *)
Fixpoint all_space (s : string) : bool :=
  match s with
  | String c s' => is_space c && all_space s'
  | EmptyString => true
  end.

(** An environment with nothing configured. *)
Definition example_env_bare : Env :=
  {| OPEN_ROUTER_API_KEY := None;
     OPENROUTER_BASE_URL := None;
     MODELS_CACHE_TTL_MS := None;
     SITE_URL := None;
     SITE_NAME := None;
     ALLOWED_ORIGIN := None;
     SUPABASE_URL := None;
     SUPABASE_ANON_KEY := None |}.

(** An environment with the credential and the store configured. *)
Definition example_env_store : Env :=
  {| OPEN_ROUTER_API_KEY := Some "sk-or-test";
     OPENROUTER_BASE_URL := None;
     MODELS_CACHE_TTL_MS := None;
     SITE_URL := None;
     SITE_NAME := None;
     ALLOWED_ORIGIN := None;
     SUPABASE_URL := Some "https://store.example";
     SUPABASE_ANON_KEY := Some "anon-key" |}.

(** The outbound call of [handleModels] did not give a list to store: it
    was rejected, or answered with a status that is not 2xx, or with a body
    that does not parse or holds no entry with an id. *)
Definition gave_no_models (settled : Completion UpResponse) : Prop :=
  match settled with
  | Throw _ => True
  | Normal res =>
      ok res = false
      \/ (exists e, up_json res = Throw e)
      \/ (exists data, up_json res = Normal data /\ models_of data = [])
  end.

(** An entry as the worker lists it: an object [{ id, name }], both truthy. *)
Definition model_entry (m : JSValue) : Prop :=
  exists id name,
    m = JObj [("id", id); ("name", name)]
    /\ truthy id = true /\ truthy name = true.

(** The store is as it was, or [modelsCache] was assigned the list projected
    from the JSON of an upstream response, which is not empty. *)
Definition kept_or_captured (st st' : Store) : Prop :=
  st' = st
  \/ exists at_ data,
       models_of data <> []
       /\ st' = assign_modelsCache at_ (models_of data) st.

(** Every segment the task will ever run treats the store that way. *)
Inductive captures_upstream : Task -> Prop :=
| captures_respond r : captures_upstream (Respond r)
| captures_fail e : captures_upstream (Fail e)
| captures_await req k :
    (forall clk settled st,
        kept_or_captured st (k clk settled st).2
        /\ captures_upstream (k clk settled st).1) ->
    captures_upstream (Await req k).

(** The list the binding points at, if any, was projected from the JSON of
    an upstream response and is not empty. *)
Definition cache_provenance (st : Store) : Prop :=
  match modelsCache_data st with
  | Some models => exists data, models = models_of data /\ models <> []
  | None => True
  end.

(** The worker with the outbound calls that have settled so far, the latest
    first: the event loop of [step], keeping a record of each call together
    with what it settled with. *)
Inductive run (host : Host) (env : Env)
  : World -> list (OutRequest * Completion UpResponse) -> Prop :=
| run_initial : run host env initial_world []
| run_request w calls request clk t st' :
    run host env w calls ->
    fetch host request env clk (store w) = (t, st') ->
    run host env {| store := st'; waiting := t :: waiting w |} calls
| run_settled w calls i req k u settled aborted clk t st' :
    run host env w calls ->
    waiting w !! i = Some (Await req k) ->
    settle (signal req) u = Some (settled, aborted) ->
    k clk settled (store w) = (t, st') ->
    run host env {| store := st'; waiting := <[i := t]> (waiting w) |}
      ((req, settled) :: calls).

(** The store is as it was, or [modelsCache] was assigned the list, not
    empty, projected from the JSON of the 2xx response that the call, which
    is the one to [GET /models], has just settled with. *)
Definition kept_or_took (env : Env) (req : OutRequest)
    (settled : Completion UpResponse) (st st' : Store) : Prop :=
  st' = st
  \/ exists at_ res data,
       req = models_request env
       /\ settled = Normal res
       /\ ok res = true
       /\ up_json res = Normal data
       /\ models_of data <> []
       /\ st' = assign_modelsCache at_ (models_of data) st.

(** Every segment the task will ever run treats the store that way. *)
Inductive takes_own (env : Env) : Task -> Prop :=
| takes_own_respond r : takes_own env (Respond r)
| takes_own_fail e : takes_own env (Fail e)
| takes_own_await req k :
    (forall clk settled st,
        kept_or_took env req settled st (k clk settled st).2
        /\ takes_own env (k clk settled st).1) ->
    takes_own env (Await req k).

(** The list the binding points at, if any, was projected from the JSON of
    a 2xx response that one of the calls to [GET /models] settled with, and
    is not empty. *)
Definition held_from (env : Env)
    (calls : list (OutRequest * Completion UpResponse)) (st : Store) : Prop :=
  match modelsCache_data st with
  | Some models =>
      exists res data,
        In (models_request env, Normal res) calls
        /\ ok res = true
        /\ up_json res = Normal data
        /\ models = models_of data
        /\ models <> []
  | None => True
  end.

(** ** The scripts of the pages

    The three pages the worker serves read the event stream of [/api/chat]
    with the same loop ([send] of the chat page, [aiReply] of the builder,
    [send] of the widget), and the builder escapes what it puts into its
    canvas.  [JSON.parse] is taken as given; a chunk is the text the
    streaming decoder hands over for one read. *)

Module Page.

Definition newline : ascii := ascii_of_N 10.

Definition is_newline (c : ascii) : bool := Ascii.eqb c newline.

(** Puts a character in front of the first piece. *)
Definition cons_first (c : ascii) (pieces : list string) : list string :=
  match pieces with
  | p :: ps => String c p :: ps
  | [] => [String c EmptyString]
  end.

(** [s.split('\n\n')]: the matches are taken from the left and do not
    overlap. *)
Fixpoint split_blank (s : string) : list string :=
  match s with
  | EmptyString => [EmptyString]
  | String c s' =>
      match s' with
      | String c' rest =>
          if is_newline c && is_newline c' then EmptyString :: split_blank rest
          else cons_first c (split_blank s')
      | EmptyString => [String c EmptyString]
      end
  end.

(** [s.split('\n')] *)
Fixpoint split_lines (s : string) : list string :=
  match s with
  | EmptyString => [EmptyString]
  | String c s' =>
      if is_newline c then EmptyString :: split_lines s'
      else cons_first c (split_lines s')
  end.

(** [s.slice(n)] *)
Fixpoint slice_from (n : nat) (s : string) : string :=
  match n, s with
  | S n', String _ s' => slice_from n' s'
  | _, _ => s
  end.

(** The first line that starts with ["data: "], without these six
    characters and trimmed; the empty string when there is none. *)
Definition data_line (ev : string) : string :=
  match List.find (String.prefix "data: ") (split_lines ev) with
  | Some line => trim (slice_from 6 line)
  | None => ""
  end.

(** [x.choices[0].delta.content] when each step is there and the content is
    a string, else the empty string. *)
Definition token_of (x : JSValue) : string :=
  let choice := get0 (get x "choices") in
  if truthy x && truthy (get x "choices") && truthy choice
     && truthy (get choice "delta")
  then match get (get choice "delta") "content" with
       | JStr t => t
       | _ => ""
       end
  else "".

(** What one event adds to the text shown. *)
Definition event_text (JSON_parse : string -> option JSValue) (ev : string)
  : string :=
  let dataLine := data_line ev in
  if String.eqb dataLine "" || String.eqb dataLine "[DONE]" then ""
  else match JSON_parse dataLine with
       | Some x => token_of x
       | None => ""
       end.

(** The loop over [reader.read()]: [buf] is the text not yet split into
    events, [out] the text shown so far. *)
Fixpoint read_chunks (JSON_parse : string -> option JSValue)
    (buf out : string) (chunks : list string) : string :=
  match chunks with
  | [] => out
  | chunk :: rest =>
      let events := split_blank (buf ++ chunk) in
      let buf' := List.last events "" in
      let out' :=
        fold_left (fun o ev => o ++ event_text JSON_parse ev)
          (removelast events) out in
      read_chunks JSON_parse buf' out' rest
  end.

(** The text [aiReply] returns for a stream that comes in these chunks. *)
Definition aiReply (JSON_parse : string -> option JSValue)
    (chunks : list string) : string :=
  read_chunks JSON_parse "" "" chunks.

Definition double_quote : ascii := ascii_of_N 34.

(** The character a text is escaped by: one of five entities, or itself. *)
Definition escape_char (c : ascii) : string :=
  if Ascii.eqb c "&" then "&amp;"
  else if Ascii.eqb c "<" then "&lt;"
  else if Ascii.eqb c ">" then "&gt;"
  else if Ascii.eqb c double_quote then "&quot;"
  else if Ascii.eqb c "'" then "&#039;"
  else String c EmptyString.

(** [escapeHtml(s)] for a string [s]. *)
Fixpoint escapeHtml (s : string) : string :=
  match s with
  | String c s' => escape_char c ++ escapeHtml s'
  | EmptyString => EmptyString
  end.

(** The text of the whole stream. *)
Fixpoint stream_text (chunks : list string) : string :=
  match chunks with
  | [] => EmptyString
  | chunk :: rest => chunk ++ stream_text rest
  end.

(** The two newlines that end an event. *)
Definition blank_line : string :=
  String newline (String newline EmptyString).

(** The characters that open or close markup or an attribute value. *)
Definition is_markup (c : ascii) : bool :=
  Ascii.eqb c "<" || Ascii.eqb c ">" || Ascii.eqb c double_quote
  || Ascii.eqb c "'".

(** Every character of the string satisfies [p]. *)
Fixpoint all_chars (p : ascii -> bool) (s : string) : bool :=
  match s with
  | String c s' => p c && all_chars p s'
  | EmptyString => true
  end.

(** A stand-in for [JSON.parse] in examples: it reads any text [t] as the
    event whose delta content is [t]. *)
Definition example_parse (t : string) : option JSValue :=
  Some (JObj [("choices",
               JArr [JObj [("delta", JObj [("content", JStr t)])]])]).

End Page.

(** ** Properties *)

Section Properties.

Context (host : Host).

Lemma json_ok data st request env :
  200 <= st <= 599 -> st <> 204 -> st <> 205 -> st <> 304 ->
  json host data st (corsHeaders request env)
  = Normal (json_response data st request env).
Proof.
  intros Hrange H204 H205 H304.
  unfold json, new_Response, json_response.
  replace (st <? 200) with false by lia.
  replace (599 <? st) with false by lia.
  replace (st =? 204) with false by lia.
  replace (st =? 205) with false by lia.
  replace (st =? 304) with false by lia.
  reflexivity.
Qed.

(** *** The built-ins on small inputs *)

Example trim_both_ends : trim "  gpt 4  " = "gpt 4".
Proof. reflexivity. Qed.

Example trim_only_spaces : trim "   " = "".
Proof. reflexivity. Qed.

Example toLowerCase_mixed : toLowerCase "SaLeS" = "sales".
Proof. reflexivity. Qed.

Example includes_inside :
  includes "upstream_timeout" "Invalid URL: upstream_timeout/chat" = true.
Proof. reflexivity. Qed.

Example includes_absent : includes "upstream_timeout" "fetch failed" = false.
Proof. reflexivity. Qed.

Example ToString_number : ToString (JNum 42) = "42".
Proof. reflexivity. Qed.

Example ToString_array :
  ToString (JArr [JStr "a"; JNull; JNum 7]) = "a,,7".
Proof. reflexivity. Qed.

Example String_number : String_ host (JNum 42) = Normal "42".
Proof. reflexivity. Qed.

Example String_large_number :
  String_ host (JNum (10 ^ 21)) = Normal (Number_toString host (10 ^ 21)).
Proof. reflexivity. Qed.

Example String_object :
  String_ host (JObj [("a", JNum 1)]) = Normal "[object Object]".
Proof. reflexivity. Qed.

Example String_own_toString :
  String_ host (JObj [("toString", JNum 1)]) = Throw (primitive_TypeError host).
Proof. reflexivity. Qed.

Example String_array_own_toString :
  String_ host (JArr [JStr "a"; JArr [JObj [("toString", JNull)]]])
  = Throw (primitive_TypeError host).
Proof. reflexivity. Qed.

Example string_field_default :
  string_field (JObj [("model", JStr " m ")]) "persona" "default" = "default".
Proof. reflexivity. Qed.

Example error_text_of_reason :
  error_text (ThrownText "upstream_timeout") = "upstream_timeout".
Proof. reflexivity. Qed.

Example models_of_mixed :
  models_of
    (JObj [("data", JArr [ JObj [("id", JStr "a"); ("name", JStr "A")];
                           JObj [("name", JStr "no id")];
                           JNull;
                           JObj [("id", JStr "c")] ])])
  = [ JObj [("id", JStr "a"); ("name", JStr "A")];
      JObj [("id", JStr "c"); ("name", JStr "c")] ].
Proof. reflexivity. Qed.

Example settle_in_time res :
  settle (Some chat_signal) (Settles 29999 (Normal res))
  = Some (Normal res, false).
Proof. reflexivity. Qed.

Example initial_store_misses ttl t : cache_hit ttl t initial_store = false.
Proof. reflexivity. Qed.

(** *** Validation of a chat request *)

Lemma eqb_empty_false s : s <> "" -> String.eqb s "" = false.
Proof. intros H. apply String.eqb_neq. exact H. Qed.

Lemma length_pos_nonempty s : 0 < JS.length s -> s <> "".
Proof. intros Hs ->. unfold JS.length in Hs. cbn in Hs. lia. Qed.

Lemma handleChat_no_credential request env clk :
  present (OPEN_ROUTER_API_KEY env) = false ->
  handleChat host request env clk
  = Respond (json_response
               (JObj [ ("error", JStr "OPEN_ROUTER_API_KEY missing");
                       ("code", JStr "CONFIG_ERROR") ])
               500 request env).
Proof.
  intros Hkey. unfold handleChat. rewrite Hkey. cbn [negb].
  rewrite json_ok by lia. reflexivity.
Qed.

Lemma handleChat_invalid_json request env clk :
  present (OPEN_ROUTER_API_KEY env) = true ->
  json_body request = None ->
  handleChat host request env clk
  = Respond (json_response (JObj [("error", JStr "Invalid JSON")])
               400 request env).
Proof.
  intros Hkey Hbody. unfold handleChat. rewrite Hkey, Hbody. cbn [negb].
  rewrite json_ok by lia. reflexivity.
Qed.

Section Chat_checks.

Context (request : Request) (env : Env) (clk : Clock) (body_ : JSValue).
Context (Hkey : present (OPEN_ROUTER_API_KEY env) = true).
Context (Hbody : json_body request = Some body_).
Context (model prompt persona : string).
Context (Hmodel : text_field host body_ "model" "" = Normal model).
Context (Hprompt : text_field host body_ "prompt" "" = Normal prompt).
Context (Hpersona : text_field host body_ "persona" "default" = Normal persona).

Lemma handleChat_no_model :
  model = "" ->
  handleChat host request env clk
  = Respond (json_response (JObj [("error", JStr "model is required")])
               400 request env).
Proof.
  intros Hm. unfold handleChat.
  rewrite Hkey, Hbody, Hmodel, Hprompt, Hpersona. cbn [negb and_then].
  rewrite Hm. cbn [String.eqb].
  rewrite json_ok by lia. reflexivity.
Qed.

Lemma handleChat_no_prompt :
  model <> "" -> prompt = "" ->
  handleChat host request env clk
  = Respond (json_response (JObj [("error", JStr "prompt is required")])
               400 request env).
Proof.
  intros Hm Hp. unfold handleChat.
  rewrite Hkey, Hbody, Hmodel, Hprompt, Hpersona. cbn [negb and_then].
  rewrite (eqb_empty_false model Hm), Hp.
  cbn [String.eqb]. rewrite json_ok by lia. reflexivity.
Qed.

Lemma handleChat_long_prompt :
  model <> "" -> MAX_PROMPT_CHARS < JS.length prompt ->
  handleChat host request env clk
  = Respond (json_response
               (JObj [("error", JStr "prompt exceeds 8000 chars")])
               400 request env).
Proof.
  intros Hm Hlen. unfold handleChat.
  rewrite Hkey, Hbody, Hmodel, Hprompt, Hpersona. cbn [negb and_then].
  assert (Hp : prompt <> "")
    by (apply length_pos_nonempty; unfold MAX_PROMPT_CHARS in Hlen; lia).
  rewrite (eqb_empty_false model Hm), (eqb_empty_false prompt Hp).
  replace (MAX_PROMPT_CHARS <? JS.length prompt) with true by lia.
  rewrite json_ok by lia. reflexivity.
Qed.

Lemma handleChat_valid :
  model <> "" -> prompt <> "" -> JS.length prompt <= MAX_PROMPT_CHARS ->
  handleChat host request env clk
  = await (chat_request env model prompt persona)
      (fun _ settled => chat_settled host request env settled).
Proof.
  intros Hm Hp Hlen. unfold handleChat.
  rewrite Hkey, Hbody, Hmodel, Hprompt, Hpersona. cbn [negb and_then].
  rewrite (eqb_empty_false model Hm), (eqb_empty_false prompt Hp).
  replace (MAX_PROMPT_CHARS <? JS.length prompt) with false by lia.
  reflexivity.
Qed.

End Chat_checks.

(** The three conversions of [handleChat] come before its checks: when one
    of them throws, so does the handler, whatever the other fields are. *)
Lemma handleChat_throws request env clk body_ e :
  present (OPEN_ROUTER_API_KEY env) = true ->
  json_body request = Some body_ ->
  first_throw [ text_field host body_ "model" "";
                text_field host body_ "prompt" "";
                text_field host body_ "persona" "default" ] = Some e ->
  handleChat host request env clk = Fail e.
Proof.
  intros Hkey Hbody Hthrow. unfold handleChat. rewrite Hkey, Hbody.
  cbn [negb first_throw] in *.
  destruct (text_field host body_ "model" "") as [model | e1];
    [| cbn [and_then]; congruence].
  destruct (text_field host body_ "prompt" "") as [prompt | e2];
    [| cbn [and_then]; congruence].
  destruct (text_field host body_ "persona" "default") as [persona | e3];
    [discriminate | cbn [and_then]; congruence].
Qed.

Example handleChat_persona_own_toString request env clk :
  present (OPEN_ROUTER_API_KEY env) = true ->
  json_body request
  = Some (JObj [ ("model", JStr "m"); ("prompt", JStr "p");
                 ("persona", JObj [("toString", JNum 1)]) ]) ->
  handleChat host request env clk = Fail (primitive_TypeError host).
Proof.
  intros Hkey Hbody.
  apply (handleChat_throws request env clk _ _ Hkey Hbody). reflexivity.
Qed.

(** A field that is absent or falsy converts to its default, and a string
    to itself. *)
Lemma text_field_falsy body_ k d :
  truthy (get body_ k) = false ->
  text_field host body_ k d = Normal (trim d).
Proof.
  intros Hfalsy. unfold text_field, String_field, or_else.
  rewrite Hfalsy. reflexivity.
Qed.

Lemma text_field_string body_ k d s :
  get body_ k = JStr s -> s <> "" ->
  text_field host body_ k d = Normal (trim s).
Proof.
  intros Hs Hne. unfold text_field, String_field, or_else. rewrite Hs.
  cbn [truthy]. rewrite (eqb_empty_false s Hne). reflexivity.
Qed.

(** On a field that is absent or falsy, [string_field] is the text the
    handlers work with. *)
Lemma text_field_string_field body_ k d :
  truthy (get body_ k) = false ->
  text_field host body_ k d = Normal (string_field body_ k d).
Proof.
  intros Hfalsy. unfold text_field, String_field, string_field, or_else.
  rewrite Hfalsy. reflexivity.
Qed.

(** C5. [handleChat] converts the three fields of the body to text and then
    checks the model first, then that the prompt is not empty, then its
    length: a request whose model is empty is answered 400 "model is
    required" whatever its prompt (so for model = "" and prompt = "" the
    error names the model, not the prompt); with a model, an empty prompt is
    answered 400 "prompt is required"; with a model and a prompt, a prompt
    of more than 8000 characters is answered 400 "prompt exceeds 8000
    chars".  The checks come after the conversions: a field that [String]
    cannot convert makes the handler throw before any of them. *)
Theorem handleChat_validation_order request env clk body_ :
  present (OPEN_ROUTER_API_KEY env) = true ->
  json_body request = Some body_ ->
  (forall persona,
      get body_ "model" = JStr "" -> get body_ "prompt" = JStr "" ->
      text_field host body_ "persona" "default" = Normal persona ->
      handleChat host request env clk
      = Respond (json_response (JObj [("error", JStr "model is required")])
                   400 request env))
  /\ (forall model prompt persona,
         text_field host body_ "model" "" = Normal model ->
         text_field host body_ "prompt" "" = Normal prompt ->
         text_field host body_ "persona" "default" = Normal persona ->
         (model = "" ->
          handleChat host request env clk
          = Respond (json_response (JObj [("error", JStr "model is required")])
                       400 request env))
         /\ (model <> "" -> prompt = "" ->
             handleChat host request env clk
             = Respond (json_response
                          (JObj [("error", JStr "prompt is required")])
                          400 request env))
         /\ (model <> "" -> prompt <> "" ->
             MAX_PROMPT_CHARS < JS.length prompt ->
             handleChat host request env clk
             = Respond (json_response
                          (JObj [("error", JStr "prompt exceeds 8000 chars")])
                          400 request env)))
  /\ (forall e,
         first_throw [ text_field host body_ "model" "";
                       text_field host body_ "prompt" "";
                       text_field host body_ "persona" "default" ] = Some e ->
         handleChat host request env clk = Fail e).
Proof.
  intros Hkey Hbody.
  split; [| split].
  - intros persona Hm Hp Hpersona.
    apply (handleChat_no_model request env clk body_ Hkey Hbody
             "" "" persona); try assumption; try reflexivity.
    + apply text_field_falsy. rewrite Hm. reflexivity.
    + apply text_field_falsy. rewrite Hp. reflexivity.
  - intros model prompt persona Hmodel Hprompt Hpersona.
    split; [| split].
    + apply (handleChat_no_model request env clk body_ Hkey Hbody
               model prompt persona Hmodel Hprompt Hpersona).
    + apply (handleChat_no_prompt request env clk body_ Hkey Hbody
               model prompt persona Hmodel Hprompt Hpersona).
    + intros Hm _.
      apply (handleChat_long_prompt request env clk body_ Hkey Hbody
               model prompt persona Hmodel Hprompt Hpersona Hm).
  - intros e. apply handleChat_throws; assumption.
Qed.

(** C6. A chat request with a credential, a JSON body whose three fields
    convert to text, and a model passes validation when its prompt has at
    most 8000 characters, exactly 8000 included, and the handler then goes
    on to the outbound call to [/chat/completions]; with 8001 characters,
    and with any longer prompt, it is answered 400 "prompt exceeds 8000
    chars".  A request that violates any precondition (no credential, a body
    that is not JSON, no model, no prompt, a prompt too long) is answered
    without any outbound call, and one with a field that [String] cannot
    convert ends before any outbound call too: the handler throws. *)
Theorem handleChat_prompt_boundary request env clk :
  (forall body_ model prompt persona,
      present (OPEN_ROUTER_API_KEY env) = true ->
      json_body request = Some body_ ->
      text_field host body_ "model" "" = Normal model ->
      text_field host body_ "prompt" "" = Normal prompt ->
      text_field host body_ "persona" "default" = Normal persona ->
      model <> "" ->
      prompt <> "" ->
      JS.length prompt <= MAX_PROMPT_CHARS ->
      exists k,
        handleChat host request env clk
        = Await (chat_request env model prompt persona) k)
  /\ (forall body_ model prompt persona,
         present (OPEN_ROUTER_API_KEY env) = true ->
         json_body request = Some body_ ->
         text_field host body_ "model" "" = Normal model ->
         text_field host body_ "prompt" "" = Normal prompt ->
         text_field host body_ "persona" "default" = Normal persona ->
         model <> "" ->
         JS.length prompt = 8000 ->
         exists k,
           handleChat host request env clk
           = Await (chat_request env model prompt persona) k)
  /\ (forall body_ model prompt persona,
         present (OPEN_ROUTER_API_KEY env) = true ->
         json_body request = Some body_ ->
         text_field host body_ "model" "" = Normal model ->
         text_field host body_ "prompt" "" = Normal prompt ->
         text_field host body_ "persona" "default" = Normal persona ->
         model <> "" ->
         JS.length prompt = 8001 ->
         handleChat host request env clk
         = Respond (json_response
                      (JObj [("error", JStr "prompt exceeds 8000 chars")])
                      400 request env))
  /\ (present (OPEN_ROUTER_API_KEY env) = false
      \/ json_body request = None
      \/ (exists body_ model prompt persona,
             json_body request = Some body_
             /\ text_field host body_ "model" "" = Normal model
             /\ text_field host body_ "prompt" "" = Normal prompt
             /\ text_field host body_ "persona" "default" = Normal persona
             /\ (model = "" \/ prompt = ""
                 \/ MAX_PROMPT_CHARS < JS.length prompt)) ->
      short_circuits (handleChat host request env clk))
  /\ (forall body_ e,
         present (OPEN_ROUTER_API_KEY env) = true ->
         json_body request = Some body_ ->
         first_throw [ text_field host body_ "model" "";
                       text_field host body_ "prompt" "";
                       text_field host body_ "persona" "default" ] = Some e ->
         handleChat host request env clk = Fail e).
Proof.
  split; [| split; [| split; [| split]]].
  - intros body_ model prompt persona Hkey Hbody Hmodel Hprompt Hpersona
      Hm Hp Hlen.
    rewrite (handleChat_valid request env clk body_ Hkey Hbody
               model prompt persona Hmodel Hprompt Hpersona Hm Hp Hlen).
    unfold await. eexists. reflexivity.
  - intros body_ model prompt persona Hkey Hbody Hmodel Hprompt Hpersona
      Hm Hlen.
    rewrite (handleChat_valid request env clk body_ Hkey Hbody
               model prompt persona Hmodel Hprompt Hpersona Hm).
    + unfold await. eexists. reflexivity.
    + apply length_pos_nonempty. lia.
    + unfold MAX_PROMPT_CHARS. lia.
  - intros body_ model prompt persona Hkey Hbody Hmodel Hprompt Hpersona
      Hm Hlen.
    apply (handleChat_long_prompt request env clk body_ Hkey Hbody
             model prompt persona Hmodel Hprompt Hpersona Hm).
    unfold MAX_PROMPT_CHARS. lia.
  - intros Hbad. unfold short_circuits.
    destruct (present (OPEN_ROUTER_API_KEY env)) eqn:Hkey;
      [| eexists; apply handleChat_no_credential; exact Hkey].
    destruct Hbad as [Hbad | [Hbody | Hbad]];
      [discriminate | eexists; apply handleChat_invalid_json; assumption |].
    destruct Hbad
      as (body_ & model & prompt & persona & Hbody & Hmodel & Hprompt
          & Hpersona & Hbad).
    destruct (String.eqb_spec model "") as [Hm | Hm];
      [eexists;
       apply (handleChat_no_model request env clk body_ Hkey Hbody
                model prompt persona Hmodel Hprompt Hpersona Hm) |].
    destruct (String.eqb_spec prompt "") as [Hp | Hp];
      [eexists;
       apply (handleChat_no_prompt request env clk body_ Hkey Hbody
                model prompt persona Hmodel Hprompt Hpersona Hm Hp) |].
    destruct Hbad as [Hbad | [Hbad | Hbad]]; try contradiction.
    eexists.
    apply (handleChat_long_prompt request env clk body_ Hkey Hbody
             model prompt persona Hmodel Hprompt Hpersona Hm Hbad).
  - intros body_ e. apply handleChat_throws.
Qed.

(** *** Personas *)

Lemma lower_unit_idempotent c : lower_unit (lower_unit c) = lower_unit c.
Proof. destruct c as [[] [] [] [] [] [] [] []]; reflexivity. Qed.

Lemma toLowerCase_idempotent s : toLowerCase (toLowerCase s) = toLowerCase s.
Proof.
  induction s as [| c s IH]; cbn; [reflexivity |].
  rewrite lower_unit_idempotent, IH. reflexivity.
Qed.

Lemma toLowerCase_empty s : toLowerCase s = "" -> s = "".
Proof. destruct s; [reflexivity | discriminate]. Qed.

(** [personaPrompt] is a function of the lower-cased persona. *)
Lemma personaPrompt_lower s t :
  toLowerCase s = toLowerCase t -> personaPrompt s = personaPrompt t.
Proof.
  intros Hst. unfold personaPrompt.
  destruct (String.eqb_spec s "") as [-> | Hs].
  - symmetry in Hst. apply toLowerCase_empty in Hst. subst t. reflexivity.
  - destruct (String.eqb_spec t "") as [-> | Ht].
    + apply toLowerCase_empty in Hst. contradiction.
    + rewrite Hst. reflexivity.
Qed.

(** C7. The persona table is fixed and looked up without regard to letter
    case: two personas with the same lower-cased form select the same
    prompt, so "sales", "tutor" and "support" in any letter case select
    their three fixed prompts; every other persona string selects the
    prompt of "default"; and a chat request without a [persona] field (or
    with a falsy one) asks for the prompt of "default" too. *)
Theorem personaPrompt_table :
  (forall s t, toLowerCase s = toLowerCase t -> personaPrompt s = personaPrompt t)
  /\ (forall s, toLowerCase s = "sales" ->
        personaPrompt s
        = "You are a sales assistant. Be persuasive, concise, and CTA-driven while staying honest.")
  /\ (forall s, toLowerCase s = "tutor" ->
        personaPrompt s
        = "You are a tutor. Explain step-by-step, ask check questions, and adapt to learner level.")
  /\ (forall s, toLowerCase s = "support" ->
        personaPrompt s
        = "You are a customer support agent. Be calm, precise, and solution-first.")
  /\ (forall s,
        toLowerCase s <> "sales" -> toLowerCase s <> "tutor" ->
        toLowerCase s <> "support" ->
        personaPrompt s = personaPrompt "default")
  /\ personaPrompt "default"
     = "You are Ko Paing style assistant: concise, practical, safe."
  /\ (forall body_,
        get body_ "persona" = JUndefined ->
        personaPrompt (string_field body_ "persona" "default")
        = personaPrompt "default")
  /\ (forall body_,
        truthy (get body_ "persona") = false ->
        personaPrompt (string_field body_ "persona" "default")
        = personaPrompt "default").
Proof.
  assert (Hfixed : forall s name,
             toLowerCase s = name -> name <> "" ->
             personaPrompt s = personaPrompt name).
  { intros s name Hs Hname. apply personaPrompt_lower.
    subst name. symmetry. apply toLowerCase_idempotent. }
  repeat split.
  - exact personaPrompt_lower.
  - intros s Hs. rewrite (Hfixed s "sales" Hs); [reflexivity | discriminate].
  - intros s Hs. rewrite (Hfixed s "tutor" Hs); [reflexivity | discriminate].
  - intros s Hs. rewrite (Hfixed s "support" Hs); [reflexivity | discriminate].
  - intros s Hsales Htutor Hsupport. unfold personaPrompt at 1.
    destruct (String.eqb_spec s "") as [-> | Hs]; [reflexivity |].
    cbn zeta.
    rewrite (proj2 (String.eqb_neq _ _) Hsales),
            (proj2 (String.eqb_neq _ _) Htutor),
            (proj2 (String.eqb_neq _ _) Hsupport).
    reflexivity.
  - intros body_ Habsent. unfold string_field. rewrite Habsent. reflexivity.
  - intros body_ Hfalsy. unfold string_field, or_else. rewrite Hfalsy.
    reflexivity.
Qed.

(** *** Every way a handler can end *)

Lemma answers_finish P c r :
  c = Normal r -> P r -> answers P (finish c).
Proof. intros -> HP. apply answers_now, HP. Qed.

Lemma answers_try_return P c handler :
  (forall r, c = Normal r -> P r) ->
  (forall e, answers P (handler e)) ->
  answers P (try_return c handler).
Proof.
  intros Hr He. destruct c as [r | e]; cbn.
  - apply answers_now, Hr. reflexivity.
  - apply He.
Qed.

Lemma answers_await P req k :
  (forall clk settled, answers P (k clk settled)) ->
  answers P (await req k).
Proof. intros Hk. apply answers_later. intros clk settled st. apply Hk. Qed.

Lemma new_Response_inv b st hs r :
  new_Response host b st hs = Normal r ->
  r = {| status := st; headers := hs; body := b |}.
Proof.
  unfold new_Response. intros H.
  destruct ((st <? 200) || (599 <? st)); [discriminate |].
  destruct b; try destruct ((st =? 204) || (st =? 205) || (st =? 304));
    congruence.
Qed.

Lemma json_inv data st request env r :
  json host data st (corsHeaders request env) = Normal r ->
  r = json_response data st request env.
Proof. apply new_Response_inv. Qed.

Lemma ends_with_answers P Q t : answers P t -> ends_with P Q t.
Proof.
  induction 1 as [r HP | req k _ IH];
    [apply ends_with_now, HP | apply ends_with_later, IH].
Qed.

Lemma ends_with_try_return P Q c handler :
  (forall r, c = Normal r -> P r) ->
  (forall e, ends_with P Q (handler e)) ->
  ends_with P Q (try_return c handler).
Proof.
  intros Hr He. destruct c as [r | e]; cbn.
  - apply ends_with_now, Hr. reflexivity.
  - apply He.
Qed.

Lemma ends_with_await P Q req k :
  (forall clk settled, ends_with P Q (k clk settled)) ->
  ends_with P Q (await req k).
Proof. intros Hk. apply ends_with_later. intros clk settled st. apply Hk. Qed.

Lemma ends_with_and_then {A} P Q (c : Completion A) rest :
  (forall a, ends_with P Q (rest a)) ->
  (forall e, c = Throw e -> Q e) ->
  ends_with P Q (and_then c rest).
Proof.
  intros Hrest Hthrow. destruct c as [a | e]; cbn.
  - apply Hrest.
  - apply ends_with_thrown, Hthrow. reflexivity.
Qed.

(** *** CORS *)

Lemma json_cors request env data st r :
  json host data st (corsHeaders request env) = Normal r ->
  carries_cors request env r.
Proof. intros H. apply json_inv in H. subst r. reflexivity. Qed.

Lemma new_Response_cors request env b st hs r :
  new_Response host b st hs = Normal r ->
  header "access-control-allow-origin" hs
  = header "access-control-allow-origin" (corsHeaders request env) ->
  carries_cors request env r.
Proof. intros H Hhs. apply new_Response_inv in H. subst r. exact Hhs. Qed.

Lemma finish_json_cors request env data st :
  200 <= st <= 599 -> st <> 204 -> st <> 205 -> st <> 304 ->
  ends_with (carries_cors request env) (fun _ => True)
    (finish (json host data st (corsHeaders request env))).
Proof.
  intros. rewrite json_ok by assumption. apply ends_with_now. reflexivity.
Qed.

Lemma store_catch_cors request env e :
  ends_with (carries_cors request env) (fun _ => True) (store_catch host request env e).
Proof. apply finish_json_cors; lia. Qed.

Lemma chat_catch_cors request env e :
  ends_with (carries_cors request env) (fun _ => True) (chat_catch host request env e).
Proof.
  unfold chat_catch.
  destruct (includes "upstream_timeout" (error_text e));
    apply finish_json_cors; lia.
Qed.

(** Walks down a handler, one case of its control flow at a time. *)
Ltac walk_cors :=
  repeat
    (lazymatch goal with
     | |- ends_with _ _ (if ?c then _ else _) => destruct c
     | |- ends_with _ _ (match ?x with _ => _ end) => destruct x
     | |- ends_with _ _ (await _ _) => apply ends_with_await; intros
     | |- ends_with _ _ (and_then _ _) =>
         apply ends_with_and_then; [intros | intros; exact I]
     | |- ends_with _ _ (try_return _ _) =>
         apply ends_with_try_return;
         [ intros ? ?;
           first [ eapply json_cors; eassumption
                 | eapply new_Response_cors; [eassumption | reflexivity] ]
         | intros ]
     | |- ends_with _ _ (store_catch _ _ _ _) => apply store_catch_cors
     | |- ends_with _ _ (chat_catch _ _ _ _) => apply chat_catch_cors
     | |- ends_with _ _ (finish (json _ _ _ _)) => apply finish_json_cors; lia
     | |- ends_with _ _ (finish _) => apply ends_with_now; reflexivity
     end).

Lemma handleModels_cors request env clk st :
  ends_with (carries_cors request env) (fun _ => True) (handleModels host request env clk st).1.
Proof.
  unfold handleModels.
  destruct (negb (present (OPEN_ROUTER_API_KEY env))); cbn [fst];
    [walk_cors |].
  destruct (cache_hit (ttl_of host env) (now clk) st); cbn [fst];
    [walk_cors |].
  apply ends_with_later. intros clk' settled st'.
  destruct settled as [res | e]; cbn [fst]; [| walk_cors].
  destruct (negb (ok res)); cbn [fst]; [walk_cors |].
  destruct (up_json res); cbn [fst]; [| walk_cors].
  destruct (models_of a); cbn [fst]; walk_cors.
Qed.

Lemma handleChat_cors request env clk :
  ends_with (carries_cors request env) (fun _ => True) (handleChat host request env clk).
Proof. unfold handleChat, chat_settled. walk_cors. Qed.

Lemma fetch_cors request env clk st :
  ends_with (carries_cors request env) (fun _ => True) (fetch host request env clk st).1.
Proof.
  unfold fetch.
  repeat
    (lazymatch goal with
     | |- ends_with _ _ (fst (if ?c then _ else _)) => destruct c
     end);
    cbn [fst].
  all: try apply handleModels_cors.
  all: try apply handleChat_cors.
  all: unfold htmlResponse, handleBuilderStateGet, handleBuilderStatePost,
         handleMemoryGet, handleMemoryPost, handleAnalyticsEventPost,
         handleAnalyticsSummaryGet, handleAutomationTrigger, upsert_result,
         not_configured, invalid_json.
  all: walk_cors.
Qed.

(** C9. Whatever the request, the [access-control-allow-origin] header is
    "*" when [ALLOWED_ORIGIN] is absent, empty or "*"; when it is
    configured to another value, the header echoes the request's [Origin]
    if that is the configured value, and is the string "null" otherwise.
    Every response the worker gives carries the header so computed,
    whichever route the request takes and however its outbound calls
    settle; a handler that throws gives no response. *)
Theorem cors_allow_origin request env clk st :
  let value := header "access-control-allow-origin" (corsHeaders request env) in
  (present (ALLOWED_ORIGIN env) = false \/ ALLOWED_ORIGIN env = Some "*" ->
   value = Some "*")
  /\ (forall allowed,
         ALLOWED_ORIGIN env = Some allowed -> allowed <> "" -> allowed <> "*" ->
         (Origin request = Some allowed -> value = Some allowed)
         /\ (Origin request <> Some allowed -> value = Some "null"))
  /\ ends_with
       (fun r => header "access-control-allow-origin" (headers r) = value)
       (fun _ => True)
       (fetch host request env clk st).1.
Proof.
  cbn zeta. split; [| split].
  - unfold corsHeaders, present. intros [Habsent | Hstar].
    + destruct (ALLOWED_ORIGIN env) as [allowed |]; cbn.
      * destruct (String.eqb allowed ""); [reflexivity | discriminate].
      * reflexivity.
    + rewrite Hstar. reflexivity.
  - intros allowed Hallowed Hne Hstar. unfold corsHeaders.
    rewrite Hallowed. cbn [or_default header String.eqb].
    rewrite (eqb_empty_false allowed Hne).
    rewrite (proj2 (String.eqb_neq allowed "*") Hstar).
    split.
    + intros ->. cbn [or_default].
      rewrite (eqb_empty_false allowed Hne), String.eqb_refl. reflexivity.
    + intros Hother.
      destruct (String.eqb_spec (or_default (Origin request) "*") allowed)
        as [Heq | Hneq]; [| reflexivity].
      exfalso. apply Hother. unfold or_default in Heq.
      destruct (Origin request) as [o |]; [| congruence].
      destruct (String.eqb_spec o ""); congruence.
  - apply fetch_cors.
Qed.

(** *** The models cache *)

Lemma models_of_filter data :
  models_of data
  = List.map project
      (List.filter (fun m => truthy (get m "id")) (entries_of data)).
Proof.
  unfold models_of. induction (entries_of data) as [| m ms IH]; [reflexivity |].
  cbn [List.map List.filter]. change (get (project m) "id") with (get m "id").
  destruct (truthy (get m "id")); cbn [List.map]; rewrite IH; reflexivity.
Qed.

Lemma models_of_nil data :
  models_of data = []
  <-> Forall (fun m => truthy (get m "id") = false) (entries_of data).
Proof.
  rewrite models_of_filter.
  induction (entries_of data) as [| m ms IH]; cbn [List.map List.filter].
  - split; [constructor | reflexivity].
  - destruct (truthy (get m "id")) eqn:Hid; cbn [List.map].
    + split; [discriminate |]. intros H. inversion H; congruence.
    + rewrite IH. split; [intros H; constructor; assumption |].
      intros H. inversion H; assumption.
Qed.

Lemma entries_of_not_array data :
  isArray (get data "data") = false -> entries_of data = [].
Proof.
  unfold entries_of.
  destruct (get data "data"); first [reflexivity | discriminate].
Qed.

(** On a miss, [handleModels] leaves the store as it is and waits for
    [GET /models]. *)
Lemma handleModels_miss request env clk st :
  present (OPEN_ROUTER_API_KEY env) = true ->
  cache_hit (ttl_of host env) (now clk) st = false ->
  exists k,
    handleModels host request env clk st = (Await (models_request env) k, st)
    /\ (forall clk' e st',
           k clk' (Throw e) st'
           = (Respond
                (json_response
                   (JObj [ ("models", JArr fallbackModels);
                           ("fallback", JBool true);
                           ("degraded", JBool true) ])
                   200 request env), st'))
    /\ (forall clk' res st',
           ok res = false ->
           k clk' (Normal res) st'
           = (Respond
                (json_response
                   (JObj [ ("models", JArr fallbackModels);
                           ("fallback", JBool true) ])
                   200 request env), st'))
    /\ (forall clk' res e st',
           ok res = true -> up_json res = Throw e ->
           k clk' (Normal res) st'
           = (Respond
                (json_response
                   (JObj [ ("models", JArr fallbackModels);
                           ("fallback", JBool true);
                           ("degraded", JBool true) ])
                   200 request env), st'))
    /\ (forall clk' res data st',
           ok res = true -> up_json res = Normal data ->
           models_of data = [] ->
           k clk' (Normal res) st'
           = (Respond
                (json_response
                   (JObj [ ("models", JArr fallbackModels);
                           ("fallback", JBool true) ])
                   200 request env), st'))
    /\ (forall clk' res data st',
           ok res = true -> up_json res = Normal data ->
           models_of data <> [] ->
           k clk' (Normal res) st'
           = (Respond
                (json_response
                   (JObj [ ("models", JArr (models_of data));
                           ("cached", JBool false) ])
                   200 request env),
              assign_modelsCache (now clk) (models_of data) st')).
Proof.
  intros Hkey Hmiss. unfold handleModels. rewrite Hkey, Hmiss. cbn [negb].
  eexists. split; [reflexivity |].
  split; [| split; [| split; [| split]]].
  - intros clk' e st'. cbn beta iota. rewrite json_ok by lia. reflexivity.
  - intros clk' res st' Hok. cbn beta iota. rewrite Hok. cbn [negb].
    rewrite json_ok by lia. reflexivity.
  - intros clk' res e st' Hok Hjson. cbn beta iota. rewrite Hok, Hjson.
    cbn [negb]. rewrite json_ok by lia. reflexivity.
  - intros clk' res data st' Hok Hjson Hnil. cbn beta iota.
    rewrite Hok, Hjson, Hnil. cbn [negb]. rewrite json_ok by lia. reflexivity.
  - intros clk' res data st' Hok Hjson Hsome. cbn beta iota.
    rewrite Hok, Hjson. cbn [negb].
    destruct (models_of data) as [| m ms]; [contradiction |].
    cbn zeta. rewrite json_ok by lia. reflexivity.
Qed.

(** C2. When [handleModels] asks upstream (a credential is configured and
    the cache does not answer), every non-2xx response, and every 2xx
    response whose parsed body gives no valid entry ([data] missing or not
    an array, or every entry without an [id]), is answered with the static
    fallback list, which is not empty, flagged [fallback: true], and the
    store is left as it was; a rejected call and a body that does not parse
    are answered with the same list flagged [fallback: true] and
    [degraded: true], the store again left as it was. *)
Theorem handleModels_fallback request env clk st :
  present (OPEN_ROUTER_API_KEY env) = true ->
  cache_hit (ttl_of host env) (now clk) st = false ->
  let plain :=
    json_response
      (JObj [("models", JArr fallbackModels); ("fallback", JBool true)])
      200 request env in
  let degraded :=
    json_response
      (JObj [ ("models", JArr fallbackModels);
              ("fallback", JBool true);
              ("degraded", JBool true) ])
      200 request env in
  fallbackModels <> []
  /\ exists k,
       handleModels host request env clk st = (Await (models_request env) k, st)
       /\ (forall clk' res st',
              ok res = false -> k clk' (Normal res) st' = (Respond plain, st'))
       /\ (forall clk' res data st',
              ok res = true -> up_json res = Normal data ->
              isArray (get data "data") = false ->
              k clk' (Normal res) st' = (Respond plain, st'))
       /\ (forall clk' res data st',
              ok res = true -> up_json res = Normal data ->
              Forall (fun m => truthy (get m "id") = false) (entries_of data) ->
              k clk' (Normal res) st' = (Respond plain, st'))
       /\ (forall clk' e st',
              k clk' (Throw e) st' = (Respond degraded, st'))
       /\ (forall clk' res e st',
              ok res = true -> up_json res = Throw e ->
              k clk' (Normal res) st' = (Respond degraded, st')).
Proof.
  intros Hkey Hmiss plain degraded. split; [discriminate |].
  destruct (handleModels_miss request env clk st Hkey Hmiss)
    as (k & Hk & Hthrow & Hstatus & Hparse & Hnone & _).
  exists k. split; [exact Hk |].
  split; [| split; [| split; [| split]]].
  - exact Hstatus.
  - intros clk' res data st' Hok Hjson Harr.
    apply (Hnone clk' res data st' Hok Hjson).
    apply models_of_nil. rewrite (entries_of_not_array data Harr). constructor.
  - intros clk' res data st' Hok Hjson Hall.
    apply (Hnone clk' res data st' Hok Hjson).
    apply models_of_nil, Hall.
  - exact Hthrow.
  - exact Hparse.
Qed.

Lemma models_of_some data :
  Exists (fun m => truthy (get m "id") = true) (entries_of data) ->
  models_of data <> [].
Proof.
  intros Hex Hnil. apply models_of_nil in Hnil.
  induction Hex as [m ms Hm | m ms _ IH].
  - inversion Hnil; congruence.
  - inversion Hnil; auto.
Qed.

Lemma read_assigned at_ models st :
  modelsCache_at (assign_modelsCache at_ models st) = at_
  /\ modelsCache_data (assign_modelsCache at_ models st) = Some models.
Proof.
  unfold modelsCache_at, modelsCache_data, assign_modelsCache.
  cbn [objects arrays modelsCache].
  rewrite list_lookup_total_middle by reflexivity. cbn [cache_at cache_data].
  rewrite list_lookup_total_middle by reflexivity. split; reflexivity.
Qed.

(** C4, as the worker has it: the name of an entry is kept when it is
    truthy and is the id otherwise ([name || id]).  On a 2xx response with
    at least one entry that has an id, the entries without an id are
    dropped and each other one is projected to [{ id, name: name || id }];
    the binding [modelsCache] is pointed at a new pair
    [{ at: now, data: models }], [now] being the time read when the call
    came in; and the list is answered with [cached: false]. *)
Theorem handleModels_fresh request env clk st :
  present (OPEN_ROUTER_API_KEY env) = true ->
  cache_hit (ttl_of host env) (now clk) st = false ->
  (forall m,
      project m
      = JObj [ ("id", get m "id");
               ("name", if truthy (get m "name") then get m "name"
                        else get m "id") ])
  /\ (forall data,
         models_of data
         = List.map project
             (List.filter (fun m => truthy (get m "id")) (entries_of data)))
  /\ exists k,
       handleModels host request env clk st = (Await (models_request env) k, st)
       /\ forall clk' res data st',
            ok res = true -> up_json res = Normal data ->
            Exists (fun m => truthy (get m "id") = true) (entries_of data) ->
            k clk' (Normal res) st'
            = (Respond
                 (json_response
                    (JObj [ ("models", JArr (models_of data));
                            ("cached", JBool false) ])
                    200 request env),
               assign_modelsCache (now clk) (models_of data) st')
            /\ modelsCache_at (assign_modelsCache (now clk) (models_of data) st')
               = now clk
            /\ modelsCache_data
                 (assign_modelsCache (now clk) (models_of data) st')
               = Some (models_of data).
Proof.
  intros Hkey Hmiss. split; [reflexivity |]. split; [exact models_of_filter |].
  destruct (handleModels_miss request env clk st Hkey Hmiss)
    as (k & Hk & _ & _ & _ & _ & Hfresh).
  exists k. split; [exact Hk |].
  intros clk' res data st' Hok Hjson Hvalid.
  split; [| apply read_assigned].
  apply Hfresh; [exact Hok | exact Hjson |]. apply models_of_some, Hvalid.
Qed.

(** A hit answers the stored list and leaves the store as it is. *)
Lemma handleModels_hit request env clk st models :
  present (OPEN_ROUTER_API_KEY env) = true ->
  modelsCache_data st = Some models ->
  lt_num (now clk - modelsCache_at st) (ttl_of host env) = true ->
  handleModels host request env clk st
  = (Respond
       (json_response
          (JObj [("models", JArr models); ("cached", JBool true)])
          200 request env), st).
Proof.
  intros Hkey Hdata Hfresh. unfold handleModels, cache_hit.
  rewrite Hkey, Hdata, Hfresh. cbn [negb default].
  rewrite json_ok by lia. reflexivity.
Qed.

(** C3, as the worker has it: the window is counted from the call that
    captured the list.  If a first call fetched the list from upstream and
    stored it (it answered [cached: false]), then a second call whose
    [Date.now()] is less than [ttl] after that of the first, on the store as
    the first call left it, answers [cached: true] with the very same list
    and leaves the store as it is. *)
Theorem handleModels_cached_within_ttl request1 request2 env clk1 clk2 st k :
  present (OPEN_ROUTER_API_KEY env) = true ->
  handleModels host request1 env clk1 st = (Await (models_request env) k, st) ->
  forall clk' res data st1,
    ok res = true -> up_json res = Normal data -> models_of data <> [] ->
    lt_num (now clk2 - now clk1) (ttl_of host env) = true ->
    let st2 := assign_modelsCache (now clk1) (models_of data) st1 in
    k clk' (Normal res) st1
    = (Respond
         (json_response
            (JObj [ ("models", JArr (models_of data));
                    ("cached", JBool false) ])
            200 request1 env), st2)
    /\ handleModels host request2 env clk2 st2
       = (Respond
            (json_response
               (JObj [ ("models", JArr (models_of data));
                       ("cached", JBool true) ])
               200 request2 env), st2).
Proof.
  intros Hkey Hk clk' res data st1 Hok Hjson Hsome Hwithin st2.
  assert (Hmiss : cache_hit (ttl_of host env) (now clk1) st = false).
  { revert Hk. unfold handleModels. rewrite Hkey. cbn [negb].
    destruct (cache_hit (ttl_of host env) (now clk1) st); [| reflexivity].
    rewrite json_ok by lia. discriminate. }
  destruct (handleModels_miss request1 env clk1 st Hkey Hmiss)
    as (k' & Hk' & _ & _ & _ & _ & Hfresh).
  assert (k' = k) as -> by congruence.
  split.
  - apply Hfresh; assumption.
  - destruct (read_assigned (now clk1) (models_of data) st1) as [Hat Hdata].
    apply handleModels_hit; [exact Hkey | exact Hdata |].
    unfold st2. rewrite Hat. exact Hwithin.
Qed.

(** *** The deadline of the chat relay *)

(** C1. For a chat request that passes validation the outbound call is
    armed with a 30 000 ms abort signal.  If the other end has not answered
    after more than 30 000 ms, or never answers, the call is aborted and
    the request is answered 504 "upstream timeout".  If the call rejects
    before the deadline with an error whose text does not contain
    "upstream_timeout", the call is not aborted and the request is answered
    502 "network failure".  The handler tells a timeout from another
    failure by looking for "upstream_timeout" in the text of the rejection,
    and there it departs from the two statuses: a call that rejects before
    the deadline with an error whose own text contains these characters is
    not aborted, and the request is answered 504 "upstream timeout" all the
    same. *)
Theorem handleChat_deadline request env clk st body_ model prompt persona :
  present (OPEN_ROUTER_API_KEY env) = true ->
  json_body request = Some body_ ->
  text_field host body_ "model" "" = Normal model ->
  text_field host body_ "prompt" "" = Normal prompt ->
  text_field host body_ "persona" "default" = Normal persona ->
  model <> "" ->
  prompt <> "" ->
  JS.length prompt <= MAX_PROMPT_CHARS ->
  let waiting_ := (handleChat host request env clk, st) in
  let timeout :=
    json_response (JObj [("error", JStr "upstream timeout")]) 504 request env in
  let failure :=
    json_response (JObj [("error", JStr "network failure")]) 502 request env in
  (exists k, waiting_.1 = Await (chat_request env model prompt persona) k)
  /\ deadline_ms chat_signal = 30000
  /\ (forall clk',
         deliver waiting_ clk' Never = Some ((Respond timeout, st), true))
  /\ (forall clk' after c,
         30000 < after ->
         deliver waiting_ clk' (Settles after c)
         = Some ((Respond timeout, st), true))
  /\ (forall clk' after e,
         after < 30000 ->
         includes "upstream_timeout" (error_text e) = false ->
         deliver waiting_ clk' (Settles after (Throw e))
         = Some ((Respond failure, st), false))
  /\ (forall clk' after e,
         after < 30000 ->
         includes "upstream_timeout" (error_text e) = true ->
         deliver waiting_ clk' (Settles after (Throw e))
         = Some ((Respond timeout, st), false)).
Proof.
  intros Hkey Hbody Hmodel Hprompt Hpersona Hm Hp Hlen waiting_ timeout failure.
  pose proof (handleChat_valid request env clk body_ Hkey Hbody
                model prompt persona Hmodel Hprompt Hpersona Hm Hp Hlen)
    as Hk.
  assert (Hcatch : forall e,
             chat_catch host request env e
             = Respond (if includes "upstream_timeout" (error_text e)
                        then timeout else failure)).
  { intros e. unfold chat_catch.
    destruct (includes "upstream_timeout" (error_text e));
      rewrite json_ok by lia; reflexivity. }
  unfold deliver, waiting_. cbn [fst snd]. rewrite Hk. unfold await.
  split; [eexists; reflexivity |]. split; [reflexivity |].
  cbn [signal chat_request settle chat_signal deadline_ms reason chat_settled].
  split; [| split; [| split]].
  - intros clk'. rewrite (Hcatch (ThrownText "upstream_timeout")).
    reflexivity.
  - intros clk' after c Hlate.
    replace (after <? 30000) with false by lia. cbn [chat_settled].
    rewrite (Hcatch (ThrownText "upstream_timeout")). reflexivity.
  - intros clk' after e Hearly Htext.
    replace (after <? 30000) with true by lia. cbn [chat_settled].
    rewrite (Hcatch e), Htext. reflexivity.
  - intros clk' after e Hearly Htext.
    replace (after <? 30000) with true by lia. cbn [chat_settled].
    rewrite (Hcatch e), Htext. reflexivity.
Qed.

(** *** The binding [modelsCache] across the life of the worker *)

Lemma cache_safe_finish c : cache_safe (finish c).
Proof. destruct c; constructor. Qed.

Lemma cache_safe_try_return c handler :
  (forall e, cache_safe (handler e)) -> cache_safe (try_return c handler).
Proof. intros H. destruct c; [constructor | apply H]. Qed.

Lemma cache_safe_await_pure req k :
  (forall clk settled, cache_safe (k clk settled)) ->
  cache_safe (await req k).
Proof.
  intros Hk. apply cache_safe_await. intros clk settled st. cbn [fst snd].
  split; [left; reflexivity | apply Hk].
Qed.

(** Walks down a handler that never names [modelsCache]. *)
Ltac walk_safe :=
  repeat
    (lazymatch goal with
     | |- cache_safe (if ?c then _ else _) => destruct c
     | |- cache_safe (match ?x with _ => _ end) => destruct x
     | |- cache_safe (await _ _) => apply cache_safe_await_pure; intros
     | |- cache_safe (try_return _ _) => apply cache_safe_try_return; intros
     | |- cache_safe (and_then ?c _) => destruct c; cbn [and_then]
     | |- cache_safe (Fail _) => apply cache_safe_fail
     | |- cache_safe (finish _) => apply cache_safe_finish
     end).

Lemma handleModels_cache_safe request env clk st :
  (handleModels host request env clk st).2 = st
  /\ cache_safe (handleModels host request env clk st).1.
Proof.
  unfold handleModels.
  destruct (negb (present (OPEN_ROUTER_API_KEY env))); cbn [fst snd];
    [split; [reflexivity | walk_safe] |].
  destruct (cache_hit (ttl_of host env) (now clk) st); cbn [fst snd];
    [split; [reflexivity | walk_safe] |].
  split; [reflexivity |]. apply cache_safe_await. intros clk' settled st'.
  destruct settled as [res | e]; cbn [fst snd];
    [| split; [left; reflexivity | walk_safe]].
  destruct (negb (ok res)); cbn [fst snd];
    [split; [left; reflexivity | walk_safe] |].
  destruct (up_json res) as [data | e]; cbn [fst snd];
    [| split; [left; reflexivity | walk_safe]].
  destruct (models_of data) as [| m ms] eqn:Hmodels; cbn [fst snd].
  - split; [left; reflexivity | walk_safe].
  - split; [| walk_safe]. right. exists (now clk), (m :: ms).
    split; [discriminate | reflexivity].
Qed.

Lemma fetch_cache_safe request env clk st :
  (fetch host request env clk st).2 = st
  /\ cache_safe (fetch host request env clk st).1.
Proof.
  unfold fetch.
  repeat
    (lazymatch goal with
     | |- snd (if ?c then _ else _) = _ /\ _ => destruct c
     end);
    cbn [fst snd].
  all: try apply handleModels_cache_safe.
  all: split; [reflexivity |].
  all: unfold htmlResponse, handleChat, chat_settled, chat_catch,
         handleBuilderStateGet, handleBuilderStatePost, handleMemoryGet,
         handleMemoryPost, handleAnalyticsEventPost,
         handleAnalyticsSummaryGet, handleAutomationTrigger, upsert_result,
         store_catch, not_configured, invalid_json.
  all: walk_safe.
Qed.

Lemma assign_prefix at_ models st :
  objects st `prefix_of` objects (assign_modelsCache at_ models st)
  /\ arrays st `prefix_of` arrays (assign_modelsCache at_ models st).
Proof. split; apply prefix_app_r; reflexivity. Qed.

Lemma assign_cache_inv at_ models st :
  models <> [] -> cache_inv (assign_modelsCache at_ models st).
Proof.
  intros Hmodels. unfold cache_inv, assign_modelsCache.
  cbn [objects arrays modelsCache].
  rewrite list_lookup_total_middle by reflexivity. cbn [cache_data].
  rewrite list_lookup_total_middle by reflexivity.
  rewrite !length_app. cbn [List.length]. repeat split; [lia | lia | exact Hmodels].
Qed.

Lemma replaced_or_kept_inv st st' :
  replaced_or_kept st st' -> cache_inv st -> cache_inv st'.
Proof.
  intros [-> | (at_ & models & Hmodels & ->)] Hinv; [exact Hinv |].
  apply assign_cache_inv, Hmodels.
Qed.

(** What a step of the event loop does to the store. *)
Lemma step_store env w w' :
  Forall cache_safe (waiting w) ->
  step host env w w' ->
  replaced_or_kept (store w) (store w') /\ Forall cache_safe (waiting w').
Proof.
  intros Hsafe Hstep.
  destruct Hstep as [w request clk t st' Hfetch
                    | w i req k u settled aborted clk t st' Hi Hsettle Hk];
    cbn [store waiting].
  - destruct (fetch_cache_safe request env clk (store w)) as [Hst Ht].
    rewrite Hfetch in Hst, Ht. cbn [fst snd] in Hst, Ht. subst st'.
    split; [left; reflexivity | constructor; assumption].
  - assert (Hawait : cache_safe (Await req k)).
    { rewrite Forall_lookup in Hsafe. exact (Hsafe i _ Hi). }
    inversion Hawait as [| | req' k' Hall]; subst.
    destruct (Hall clk settled (store w)) as [Hst Ht].
    rewrite Hk in Hst, Ht. cbn [fst snd] in Hst, Ht.
    split; [exact Hst | apply Forall_insert; assumption].
Qed.

Lemma reachable_inv env w : reachable host env w -> world_inv w.
Proof.
  induction 1 as [| w w' _ [Hinv Hsafe] Hstep].
  - split; [| constructor]. unfold cache_inv. cbn. split; [lia | exact I].
  - destruct (step_store env w w' Hsafe Hstep) as [Hst Hsafe'].
    split; [exact (replaced_or_kept_inv _ _ Hst Hinv) | exact Hsafe'].
Qed.

(** C8. Between any two segments of any handlers, reached in any order from
    the start of the worker, the next segment either leaves the store as it
    is, or points [modelsCache] at a pair [{ at, data }] that did not exist
    before, complete with its time and its list.  In both cases every
    object and every array that was in the heap is there unchanged, so
    neither field of a pair nor a stored list is ever written to, and the
    binding always points at a complete pair. *)
Theorem modelsCache_replaced_whole env w w' :
  reachable host env w ->
  step host env w w' ->
  (objects (store w) `prefix_of` objects (store w')
   /\ arrays (store w) `prefix_of` arrays (store w'))
  /\ (store w' = store w
      \/ exists at_ models,
           store w' = assign_modelsCache at_ models (store w)
           /\ modelsCache (store w') = List.length (objects (store w))
           /\ modelsCache_at (store w') = at_
           /\ modelsCache_data (store w') = Some models)
  /\ cache_inv (store w').
Proof.
  intros Hreach Hstep.
  destruct (reachable_inv env w Hreach) as [Hinv Hsafe].
  destruct (step_store env w w' Hsafe Hstep) as [Hst _].
  split; [| split].
  - destruct Hst as [-> | (at_ & models & _ & ->)];
      [split; reflexivity | apply assign_prefix].
  - destruct Hst as [Hkept | (at_ & models & _ & Hassigned)];
      [left; exact Hkept |].
    right. exists at_, models. rewrite Hassigned.
    split; [reflexivity |]. split; [reflexivity |]. apply read_assigned.
  - exact (replaced_or_kept_inv _ _ Hst Hinv).
Qed.

(** *** The status of [/api/models] *)

Lemma handleModels_lists_models request env clk st :
  cache_inv st ->
  present (OPEN_ROUTER_API_KEY env) = true ->
  answers lists_models (handleModels host request env clk st).1.
Proof.
  intros [_ Hinv] Hkey.
  destruct (cache_hit (ttl_of host env) (now clk) st) eqn:Hhit.
  - unfold cache_hit in Hhit.
    destruct (modelsCache_data st) as [models |] eqn:Hdata; [| discriminate].
    rewrite (handleModels_hit request env clk st models Hkey Hdata Hhit).
    apply answers_now. split; [reflexivity |]. exists models.
    split; [reflexivity |].
    unfold modelsCache_data in Hdata.
    destruct (cache_data (objects st !!! modelsCache st)) as [a |];
      [| discriminate].
    injection Hdata as <-. apply Hinv.
  - destruct (handleModels_miss request env clk st Hkey Hhit)
      as (k & -> & Hthrow & Hstatus & Hparse & Hnone & Hfresh).
    apply answers_later. intros clk' settled st'.
    destruct settled as [res | e]; [| rewrite Hthrow].
    + destruct (ok res) eqn:Hok; [| rewrite (Hstatus _ _ _ Hok)].
      * destruct (up_json res) as [data | e] eqn:Hjson;
          [| rewrite (Hparse _ _ _ _ Hok Hjson)].
        -- destruct (models_of data) as [| m ms] eqn:Hmodels.
           ++ rewrite (Hnone _ _ _ _ Hok Hjson Hmodels).
              apply answers_now. split; [reflexivity |].
              eexists. split; [reflexivity | discriminate].
           ++ rewrite (Hfresh clk' res data st' Hok Hjson)
                by (rewrite Hmodels; discriminate).
              apply answers_now. split; [reflexivity |].
              eexists. split; [reflexivity |]. rewrite Hmodels. discriminate.
        -- apply answers_now. split; [reflexivity |].
           eexists. split; [reflexivity | discriminate].
      * apply answers_now. split; [reflexivity |].
        eexists. split; [reflexivity | discriminate].
    + apply answers_now. split; [reflexivity |].
      eexists. split; [reflexivity | discriminate].
Qed.

(** C10. On any store the worker can be in, a call to [handleModels] with a
    credential is answered 200 with a list of at least one model, however
    it goes: answered from the cache, or after the outbound call, whatever
    that call settles with; it never throws.  Without a credential it is
    answered 500 with the code CONFIG_ERROR. *)
Theorem handleModels_status env w request clk :
  reachable host env w ->
  (present (OPEN_ROUTER_API_KEY env) = true ->
   answers lists_models (handleModels host request env clk (store w)).1)
  /\ (present (OPEN_ROUTER_API_KEY env) = false ->
      handleModels host request env clk (store w)
      = (Respond
           (json_response
              (JObj [ ("error", JStr "OPEN_ROUTER_API_KEY missing");
                      ("code", JStr "CONFIG_ERROR") ])
              500 request env), store w)).
Proof.
  intros Hreach. destruct (reachable_inv env w Hreach) as [Hinv _].
  split.
  - apply handleModels_lists_models, Hinv.
  - intros Hkey. unfold handleModels. rewrite Hkey. cbn [negb].
    rewrite json_ok by lia. reflexivity.
Qed.

(** *** What every route does *)

Lemma new_Response_status b st hs r :
  new_Response host b st hs = Normal r -> 200 <= status r <= 599.
Proof.
  intros H. pose proof (new_Response_inv b st hs r H) as ->.
  unfold new_Response in H. cbn [status].
  destruct (st <? 200) eqn:Hlow; [discriminate |].
  destruct (599 <? st) eqn:Hhigh; [discriminate |]. lia.
Qed.

Lemma finish_json_status data st request env :
  200 <= st <= 599 -> st <> 204 -> st <> 205 -> st <> 304 ->
  answers (fun r => 200 <= status r <= 599)
    (finish (json host data st (corsHeaders request env))).
Proof.
  intros. rewrite json_ok by assumption. apply answers_now. cbn [status json_response]. lia.
Qed.

(** Walks down a handler, checking that each way out is a response. *)
Ltac walk_status :=
  repeat
    (lazymatch goal with
     | |- answers _ (if ?c then _ else _) => destruct c
     | |- answers _ (match ?x with _ => _ end) => destruct x
     | |- answers _ (await _ _) => apply answers_await; intros
     | |- answers _ (try_return _ _) =>
         apply answers_try_return;
         [ intros ? ?; eapply new_Response_status; eassumption | intros ]
     | |- answers _ (chat_catch _ _ _ _) =>
         unfold chat_catch;
         destruct (includes "upstream_timeout" (error_text _))
     | |- answers _ (finish (json _ _ _ _)) => apply finish_json_status; lia
     | |- answers _ (finish _) => apply answers_now; cbn; lia
     end).

Lemma handleModels_answers request env clk st :
  answers (fun r => 200 <= status r <= 599)
    (handleModels host request env clk st).1.
Proof.
  unfold handleModels.
  destruct (negb (present (OPEN_ROUTER_API_KEY env))); cbn [fst];
    [walk_status |].
  destruct (cache_hit (ttl_of host env) (now clk) st); cbn [fst];
    [walk_status |].
  apply answers_later. intros clk' settled st'.
  destruct settled as [res | e]; cbn [fst]; [| walk_status].
  destruct (negb (ok res)); cbn [fst]; [walk_status |].
  destruct (up_json res); cbn [fst]; [| walk_status].
  destruct (models_of a); cbn [fst]; walk_status.
Qed.

(** What [String] throws is the [TypeError] of an object that has no
    primitive value, whichever object of the value it meets first. *)
Lemma String__throws :
  forall v e, String_ host v = Throw e -> e = primitive_TypeError host.
Proof.
  induction v as [| | b | z | s | elems IH | props] using JSValue_elems_ind;
    intros e; cbn [String_]; try (destruct b); try discriminate.
  - induction IH as [| x rest Hx _ IHrest] in e |- *; [discriminate |].
    intros Hthrow.
    destruct (match x with
              | JUndefined | JNull => Normal ""
              | _ => String_ host x
              end) as [p | e1] eqn:Hp.
    + apply (IHrest e). revert Hthrow.
      destruct ((fix parts (l : list JSValue) : Completion (list string) :=
                   match l with
                   | [] => Normal []
                   | x :: rest =>
                       match match x with
                             | JUndefined | JNull => Normal ""
                             | _ => String_ host x
                             end with
                       | Throw e => Throw e
                       | Normal p =>
                           match parts rest with
                           | Throw e => Throw e
                           | Normal ps => Normal (p :: ps)
                           end
                       end
                   end) rest); [discriminate | exact (fun H => H)].
    + assert (e1 = e) as -> by congruence.
      destruct x; first [discriminate | exact (Hx _ Hp)].
  - destruct (has_own "toString" props); congruence.
Qed.

(** On a plain value [String] does not throw, and gives the text of
    [ToString]. *)
Lemma String__plain v : plain v = true -> String_ host v = Normal (ToString v).
Proof.
  induction v as [| | b | z | s | elems IH | props] using JSValue_elems_ind;
    cbn [plain String_ ToString]; intros Hplain; try reflexivity.
  - destruct b; reflexivity.
  - rewrite Hplain. reflexivity.
  - enough (Hparts :
        (fix parts (l : list JSValue) : Completion (list string) :=
           match l with
           | [] => Normal []
           | x :: rest =>
               match match x with
                     | JUndefined | JNull => Normal ""
                     | _ => String_ host x
                     end with
               | Throw e => Throw e
               | Normal p =>
                   match parts rest with
                   | Throw e => Throw e
                   | Normal ps => Normal (p :: ps)
                   end
               end
           end) elems
        = Normal (List.map (fun x => match x with
                                     | JUndefined | JNull => ""
                                     | _ => ToString x
                                     end) elems))
      by (rewrite Hparts; reflexivity).
    induction IH as [| x rest Hx _ IHrest]; [reflexivity |].
    cbn [forallb] in Hplain. apply andb_prop in Hplain as [Hhead Hrest].
    rewrite (IHrest Hrest). cbn [List.map].
    destruct x; try reflexivity; rewrite (Hx Hhead); reflexivity.
  - destruct (has_own "toString" props); [discriminate | reflexivity].
Qed.

Lemma text_field_throws body_ k d e :
  text_field host body_ k d = Throw e -> e = primitive_TypeError host.
Proof.
  unfold text_field, String_field.
  destruct (String_ host (or_else (get body_ k) (JStr d))) eqn:Hs;
    [discriminate |].
  intros [= <-]. exact (String__throws _ _ Hs).
Qed.

Lemma sliced_field_throws body_ k d n e :
  sliced_field host body_ k d n = Throw e -> e = primitive_TypeError host.
Proof.
  unfold sliced_field, String_field.
  destruct (String_ host (or_else (get body_ k) (JStr d))) eqn:Hs;
    [discriminate |].
  intros [= <-]. exact (String__throws _ _ Hs).
Qed.

Lemma finish_json_ends Q data st request env :
  200 <= st <= 599 -> st <> 204 -> st <> 205 -> st <> 304 ->
  ends_with (fun r => 200 <= status r <= 599) Q
    (finish (json host data st (corsHeaders request env))).
Proof.
  intros. apply ends_with_answers, finish_json_status; assumption.
Qed.

(** Walks down a handler, checking each way out. *)
Ltac walk_ends :=
  repeat
    (lazymatch goal with
     | |- ends_with _ _ (if ?c then _ else _) => destruct c
     | |- ends_with _ _ (match ?x with _ => _ end) => destruct x
     | |- ends_with _ _ (await _ _) => apply ends_with_await; intros
     | |- ends_with _ _ (and_then _ _) =>
         apply ends_with_and_then;
         [ intros
         | intros;
           first [ eapply text_field_throws; eassumption
                 | eapply sliced_field_throws; eassumption ] ]
     | |- ends_with _ _ (try_return _ _) =>
         apply ends_with_try_return;
         [ intros ? ?; eapply new_Response_status; eassumption | intros ]
     | |- ends_with _ _ (chat_catch _ _ _ _) =>
         unfold chat_catch;
         destruct (includes "upstream_timeout" (error_text _))
     | |- ends_with _ _ (finish (json _ _ _ _)) => apply finish_json_ends; lia
     | |- ends_with _ _ (finish _) => apply ends_with_now; cbn; lia
     end).

(** X1. Every way a route of the worker can end: whatever the request, the
    environment, the store and whatever each outbound call settles with (an
    upstream status of any value included), the handler answers with a
    status between 200 and 599, or it throws the [TypeError] of a field of
    the body that [String] cannot convert.  Nothing else is ever thrown. *)
Theorem fetch_ends request env clk st :
  ends_with (fun r => 200 <= status r <= 599)
    (fun e => e = primitive_TypeError host)
    (fetch host request env clk st).1.
Proof.
  unfold fetch.
  repeat
    (lazymatch goal with
     | |- ends_with _ _ (fst (if ?c then _ else _)) => destruct c
     end);
    cbn [fst].
  all: try apply ends_with_answers, handleModels_answers.
  all: unfold htmlResponse, handleChat, chat_settled,
         handleBuilderStateGet, handleBuilderStatePost, handleMemoryGet,
         handleMemoryPost, handleAnalyticsEventPost,
         handleAnalyticsSummaryGet, handleAutomationTrigger, upsert_result,
         store_catch, not_configured, invalid_json.
  all: walk_ends.
Qed.

Lemma route_test_false path meth p m :
  (path, meth) <> (p, m) -> String.eqb path p && String.eqb meth m = false.
Proof.
  intros Hne. destruct (String.eqb_spec path p) as [-> | _]; [| reflexivity].
  destruct (String.eqb_spec meth m) as [-> | _]; [| reflexivity].
  contradiction.
Qed.

(** X2. A preflight is answered before any route is looked at: an
    [OPTIONS] request to any path, known or not, with or without a
    credential, is answered 200 with no body and the four CORS headers, with
    no outbound call and the store left as it is. *)
Theorem fetch_preflight request env clk st :
  method request = "OPTIONS" ->
  fetch host request env clk st
  = (Respond {| status := 200;
                headers := corsHeaders request env;
                body := NoBody |}, st)
  /\ List.map fst (corsHeaders request env)
     = [ "access-control-allow-origin"; "access-control-allow-methods";
         "access-control-allow-headers"; "vary" ]
  /\ header "access-control-allow-methods" (corsHeaders request env)
     = Some "GET,POST,OPTIONS"
  /\ header "access-control-allow-headers" (corsHeaders request env)
     = Some "content-type"
  /\ header "vary" (corsHeaders request env) = Some "Origin".
Proof.
  intros Hmeth. unfold fetch. rewrite Hmeth.
  split; [reflexivity |]. repeat (split; [reflexivity |]). reflexivity.
Qed.

(** X3. A request that is not a preflight, not for one of the two pages or
    the health check, and whose path and method together are not one of the
    ten handler routes (a known path with the wrong method included) is
    answered 404 with [{ error: "Not found" }], with no outbound call and
    the store left as it is. *)
Theorem fetch_not_found request env clk st :
  method request <> "OPTIONS" ->
  ~ In (pathname request) ["/"; "/builder"; "/api/health"] ->
  ~ In (pathname request, method request) handler_routes ->
  fetch host request env clk st
  = (Respond (json_response (JObj [("error", JStr "Not found")]) 404
                request env), st).
Proof.
  intros Hmeth Hpage Hroute. unfold fetch.
  rewrite (proj2 (String.eqb_neq _ _) Hmeth).
  assert (Hp : forall p, In p ["/"; "/builder"; "/api/health"] ->
                         String.eqb (pathname request) p = false).
  { intros p Hin. apply String.eqb_neq. intros Heq. apply Hpage.
    rewrite Heq. exact Hin. }
  rewrite !Hp by (cbn; tauto).
  assert (Hr : forall p m, In (p, m) handler_routes ->
                 String.eqb (pathname request) p
                 && String.eqb (method request) m = false).
  { intros p m Hin. apply route_test_false. intros Heq. apply Hroute.
    rewrite Heq. exact Hin. }
  rewrite !Hr by (cbn; tauto).
  rewrite json_ok by lia. reflexivity.
Qed.

Lemma keeps_store_finish c : keeps_store (finish c).
Proof. destruct c; constructor. Qed.

Lemma keeps_store_try_return c handler :
  (forall e, keeps_store (handler e)) -> keeps_store (try_return c handler).
Proof. intros H. destruct c; [constructor | apply H]. Qed.

Lemma keeps_store_await_pure req k :
  (forall clk settled, keeps_store (k clk settled)) ->
  keeps_store (await req k).
Proof.
  intros Hk. apply keeps_store_await. intros clk settled st. cbn [fst snd].
  split; [reflexivity | apply Hk].
Qed.

(** Walks down a handler that is given no store. *)
Ltac walk_keeps :=
  repeat
    (lazymatch goal with
     | |- keeps_store (if ?c then _ else _) => destruct c
     | |- keeps_store (match ?x with _ => _ end) => destruct x
     | |- keeps_store (await _ _) => apply keeps_store_await_pure; intros
     | |- keeps_store (try_return _ _) => apply keeps_store_try_return; intros
     | |- keeps_store (and_then ?c _) => destruct c; cbn [and_then]
     | |- keeps_store (Fail _) => apply keeps_store_fail
     | |- keeps_store (finish _) => apply keeps_store_finish
     end).

(** X4. Only [GET /api/models] can change the models cache: for every other
    request, in the segment that takes it in and in every later segment of
    its handler, whatever its outbound calls settle with, the store comes
    out as it went in. *)
Theorem fetch_keeps_store request env clk st :
  (pathname request, method request) <> ("/api/models", "GET") ->
  (fetch host request env clk st).2 = st
  /\ keeps_store (fetch host request env clk st).1.
Proof.
  intros Hroute. unfold fetch.
  rewrite (route_test_false _ _ _ _ Hroute).
  repeat
    (lazymatch goal with
     | |- snd (if ?c then _ else _) = _ /\ _ => destruct c
     end);
    cbn [fst snd].
  all: split; [reflexivity |].
  all: unfold htmlResponse, handleChat, chat_settled, chat_catch,
         handleBuilderStateGet, handleBuilderStatePost, handleMemoryGet,
         handleMemoryPost, handleAnalyticsEventPost,
         handleAnalyticsSummaryGet, handleAutomationTrigger, upsert_result,
         store_catch, not_configured, invalid_json.
  all: walk_keeps.
Qed.

(** X5. The store of builder states, memories and events is optional: when
    [SUPABASE_URL] or [SUPABASE_ANON_KEY] is missing or empty, each of the
    six routes that need it is answered 200 with
    [{ ok: false, code: "SUPABASE_NOT_CONFIGURED" }], before the body of the
    request is looked at and with no outbound call. *)
Theorem fetch_store_not_configured request env clk st :
  store_configured env = false ->
  In (pathname request, method request) store_routes ->
  fetch host request env clk st
  = (Respond
       (json_response
          (JObj [ ("ok", JBool false);
                  ("code", JStr "SUPABASE_NOT_CONFIGURED") ])
          200 request env), st).
Proof.
  intros Hcfg Hin. unfold fetch.
  cbn in Hin.
  repeat (destruct Hin as [Hin | Hin];
          [injection Hin as Hpath Hmeth; rewrite <- Hpath, <- Hmeth;
           cbn [String.eqb Ascii.eqb Bool.eqb andb];
           unfold handleBuilderStateGet, handleBuilderStatePost,
             handleMemoryGet, handleMemoryPost, handleAnalyticsEventPost,
             handleAnalyticsSummaryGet, not_configured;
           rewrite Hcfg; cbn [negb]; rewrite json_ok by lia; reflexivity |]).
  contradiction.
Qed.

(** *** The chat relay after validation *)

Lemma trim_all_space s : all_space s = true -> trim s = "".
Proof.
  unfold trim. induction s as [| c s IH]; [reflexivity |].
  cbn [all_space trimStart]. intros H. apply andb_prop in H as [Hc Hs].
  rewrite Hc. apply IH, Hs.
Qed.

(** X6. A model that is missing, [null], [false], [0], empty, or made of
    white space only counts as no model: with a credential and a JSON body
    whose prompt and persona convert to text, the request is answered 400
    "model is required". *)
Theorem handleChat_blank_model request env clk body_ prompt persona :
  present (OPEN_ROUTER_API_KEY env) = true ->
  json_body request = Some body_ ->
  text_field host body_ "prompt" "" = Normal prompt ->
  text_field host body_ "persona" "default" = Normal persona ->
  truthy (get body_ "model") = false
  \/ (exists s, get body_ "model" = JStr s /\ all_space s = true) ->
  handleChat host request env clk
  = Respond (json_response (JObj [("error", JStr "model is required")])
               400 request env).
Proof.
  intros Hkey Hbody Hprompt Hpersona Hblank.
  apply (handleChat_no_model request env clk body_ Hkey Hbody
           "" prompt persona); try assumption; try reflexivity.
  destruct Hblank as [Hfalsy | (s & Hs & Hspace)].
  - apply text_field_falsy, Hfalsy.
  - destruct (String.eqb_spec s "") as [-> | Hne].
    + apply text_field_falsy. rewrite Hs. reflexivity.
    + rewrite (text_field_string body_ "model" "" s Hs Hne).
      rewrite (trim_all_space s Hspace). reflexivity.
Qed.

(** X7. When upstream answers a valid chat request in time with a 2xx and
    a body, the relay answers 200 with that very stream of chunks as its
    body, in the same order and untouched, typed [text/event-stream] with
    caching switched off; the call is not aborted and the store is left as
    it is. *)
Theorem handleChat_streams request env clk st body_ model prompt persona :
  present (OPEN_ROUTER_API_KEY env) = true ->
  json_body request = Some body_ ->
  text_field host body_ "model" "" = Normal model ->
  text_field host body_ "prompt" "" = Normal prompt ->
  text_field host body_ "persona" "default" = Normal persona ->
  model <> "" ->
  prompt <> "" ->
  JS.length prompt <= MAX_PROMPT_CHARS ->
  forall clk' after res chunks,
    after < 30000 -> ok res = true -> up_body res = Some chunks ->
    exists r,
      deliver (handleChat host request env clk, st) clk'
        (Settles after (Normal res))
      = Some ((Respond r, st), false)
      /\ status r = 200
      /\ body r = StreamBody chunks
      /\ header "content-type" (headers r)
         = Some "text/event-stream; charset=utf-8"
      /\ header "cache-control" (headers r) = Some "no-cache, no-transform"
      /\ header "x-accel-buffering" (headers r) = Some "no".
Proof.
  intros Hkey Hbody Hmodel Hprompt Hpersona Hm Hp Hlen
    clk' after res chunks Hearly Hok Hchunks.
  unfold deliver. cbn [fst snd].
  rewrite (handleChat_valid request env clk body_ Hkey Hbody
             model prompt persona Hmodel Hprompt Hpersona Hm Hp Hlen).
  unfold await.
  cbn [signal chat_request settle chat_signal deadline_ms reason].
  replace (after <? 30000) with true by lia.
  cbn [chat_settled]. unfold has_body. rewrite Hok, Hchunks.
  cbn [negb orb default].
  eexists. split; [reflexivity |]. repeat (split; [reflexivity |]).
  reflexivity.
Qed.

(** X8. When upstream answers a valid chat request in time but not with a
    2xx, or with no body, the relay, once it has read the text of that
    answer for its log, answers with an error envelope that carries the
    upstream status and nothing of the upstream body.  The status of the
    answer is the upstream status when that is a status a response with a
    body may have, 2xx included: a 2xx without a body is reported as an
    error under its own 2xx status.  An upstream status of 0 is answered
    502. *)
Theorem handleChat_upstream_error request env clk st body_ model prompt persona :
  present (OPEN_ROUTER_API_KEY env) = true ->
  json_body request = Some body_ ->
  text_field host body_ "model" "" = Normal model ->
  text_field host body_ "prompt" "" = Normal prompt ->
  text_field host body_ "persona" "default" = Normal persona ->
  model <> "" ->
  prompt <> "" ->
  JS.length prompt <= MAX_PROMPT_CHARS ->
  forall clk' after res,
    after < 30000 ->
    ok res = false \/ up_body res = None ->
    (200 <= up_status res <= 599 ->
     up_status res <> 204 -> up_status res <> 205 -> up_status res <> 304 ->
     deliver (handleChat host request env clk, st) clk'
       (Settles after (Normal res))
     = Some ((Respond
                (json_response
                   (JObj [ ("error", JStr "upstream error");
                           ("status", JNum (up_status res)) ])
                   (up_status res) request env), st), false))
    /\ (up_status res = 0 ->
        deliver (handleChat host request env clk, st) clk'
          (Settles after (Normal res))
        = Some ((Respond
                   (json_response
                      (JObj [ ("error", JStr "upstream error");
                              ("status", JNum 0) ])
                      502 request env), st), false)).
Proof.
  intros Hkey Hbody Hmodel Hprompt Hpersona Hm Hp Hlen
    clk' after res Hearly Hbad.
  unfold deliver. cbn [fst snd].
  rewrite (handleChat_valid request env clk body_ Hkey Hbody
             model prompt persona Hmodel Hprompt Hpersona Hm Hp Hlen).
  unfold await.
  cbn [signal chat_request settle chat_signal deadline_ms reason].
  replace (after <? 30000) with true by lia.
  cbn [chat_settled].
  assert (Htest : negb (ok res) || negb (has_body res) = true).
  { unfold has_body. destruct Hbad as [-> | ->]; [reflexivity |].
    apply orb_true_r. }
  rewrite Htest. split.
  - intros Hrange H204 H205 H304.
    replace (up_status res =? 0) with false by lia.
    rewrite json_ok by assumption. reflexivity.
  - intros Hzero. rewrite Hzero. cbn [Z.eqb].
    rewrite json_ok by lia. reflexivity.
Qed.

(** *** The automation trigger *)

(** X9. [handleAutomationTrigger] parses the body first, converts its four
    fields to text, then wants a text, and only then a credential: a body
    that is not JSON is answered 400; when the four fields convert, a
    missing or blank text is answered 400 "text required" even when no
    credential is configured, and a text without a credential is answered
    500.  With both, the text goes upstream whatever its length (the 8000
    character cap of [/api/chat] is not applied), in a call that is not
    streamed and has no abort signal: if upstream never answers, neither
    does the handler.  A field that [String] cannot convert, the text or
    any of the three others, makes the handler throw before the text is
    looked at. *)
Theorem handleAutomationTrigger_checks request env clk st :
  (json_body request = None ->
   handleAutomationTrigger host request env clk
   = Respond (json_response
                (JObj [("ok", JBool false); ("error", JStr "invalid json")])
                400 request env))
  /\ (forall body_ text model persona userId,
         json_body request = Some body_ ->
         text_field host body_ "text" "" = Normal text ->
         text_field host body_ "model" "openai/gpt-4o-mini" = Normal model ->
         text_field host body_ "persona" "support" = Normal persona ->
         text_field host body_ "userId" "automation" = Normal userId ->
         (text = "" ->
          handleAutomationTrigger host request env clk
          = Respond (json_response
                       (JObj [ ("ok", JBool false);
                               ("error", JStr "text required") ])
                       400 request env))
         /\ (text <> "" ->
             present (OPEN_ROUTER_API_KEY env) = false ->
             handleAutomationTrigger host request env clk
             = Respond (json_response
                          (JObj [ ("ok", JBool false);
                                  ("error", JStr "OPEN_ROUTER_API_KEY missing") ])
                          500 request env))
         /\ (text <> "" ->
             present (OPEN_ROUTER_API_KEY env) = true ->
             exists req k,
               handleAutomationTrigger host request env clk = Await req k
               /\ url req
                  = or_default (OPENROUTER_BASE_URL env) DEFAULT_BASE
                    ++ "/chat/completions"
               /\ out_body req
                  = Some (JObj
                      [ ("model", JStr model);
                        ("stream", JBool false);
                        ("messages",
                         JArr [ JObj [ ("role", JStr "system");
                                       ("content",
                                        JStr (personaPrompt persona)) ];
                                JObj [ ("role", JStr "user");
                                       ("content", JStr text) ] ]) ])
               /\ signal req = None
               /\ forall clk',
                    deliver (handleAutomationTrigger host request env clk, st)
                      clk' Never = None))
  /\ (forall body_ e,
         json_body request = Some body_ ->
         first_throw [ text_field host body_ "text" "";
                       text_field host body_ "model" "openai/gpt-4o-mini";
                       text_field host body_ "persona" "support";
                       text_field host body_ "userId" "automation" ] = Some e ->
         handleAutomationTrigger host request env clk = Fail e).
Proof.
  split; [| split].
  - intros Hbody. unfold handleAutomationTrigger, invalid_json.
    rewrite Hbody, json_ok by lia. reflexivity.
  - intros body_ text model persona userId Hbody Htext Hmodel Hpersona Huser.
    unfold handleAutomationTrigger, deliver.
    rewrite Hbody, Htext, Hmodel, Hpersona, Huser. cbn [and_then].
    split; [| split].
    + intros ->. cbn [String.eqb]. rewrite json_ok by lia. reflexivity.
    + intros Hne Hkey. rewrite (eqb_empty_false _ Hne), Hkey.
      cbn [negb]. rewrite json_ok by lia. reflexivity.
    + intros Hne Hkey. rewrite (eqb_empty_false _ Hne), Hkey.
      cbn [negb]. unfold await. eexists. eexists.
      split; [reflexivity |]. repeat (split; [reflexivity |]).
      intros clk'. reflexivity.
  - intros body_ e Hbody Hthrow. unfold handleAutomationTrigger.
    rewrite Hbody. cbn [first_throw] in Hthrow.
    destruct (text_field host body_ "text" "");
      [| cbn [and_then]; congruence].
    destruct (text_field host body_ "model" "openai/gpt-4o-mini");
      [| cbn [and_then]; congruence].
    destruct (text_field host body_ "persona" "support");
      [| cbn [and_then]; congruence].
    destruct (text_field host body_ "userId" "automation");
      [discriminate | cbn [and_then]; congruence].
Qed.

(** X10. Once upstream has answered an automation request with a 2xx, the
    reply is [{ ok: true, output }] with status 200, where [output] is
    [choices[0].message.content] of the upstream JSON, or the empty string
    when that is missing or falsy or the body does not parse.  Without the
    store the reply is given at once; with the store the handler first
    posts an analytics event, and gives the same reply whatever that call
    settles with, a rejection included. *)
Theorem handleAutomationTrigger_output request env clk body_
    text model persona userId :
  json_body request = Some body_ ->
  text_field host body_ "text" "" = Normal text ->
  text_field host body_ "model" "openai/gpt-4o-mini" = Normal model ->
  text_field host body_ "persona" "support" = Normal persona ->
  text_field host body_ "userId" "automation" = Normal userId ->
  text <> "" ->
  present (OPEN_ROUTER_API_KEY env) = true ->
  exists req k,
    handleAutomationTrigger host request env clk = Await req k
    /\ forall clk' upstream st,
         ok upstream = true ->
         let answer :=
           or_else
             (get (get (get0 (get (json_or_empty upstream) "choices"))
                     "message") "content")
             (JStr "") in
         let reply :=
           Respond
             (json_response (JObj [("ok", JBool true); ("output", answer)])
                200 request env) in
         (forall e, up_json upstream = Throw e -> answer = JStr "")
         /\ (store_configured env = false ->
             k clk' (Normal upstream) st = (reply, st))
         /\ (store_configured env = true ->
             exists req2 k2,
               k clk' (Normal upstream) st = (Await req2 k2, st)
               /\ url req2
                  = interpolate (SUPABASE_URL env) ++ "/rest/v1/analytics_events"
               /\ forall clk'' settled st',
                    k2 clk'' settled st' = (reply, st')).
Proof.
  intros Hbody Htext Hmodel Hpersona Huser Hne Hkey.
  unfold handleAutomationTrigger.
  rewrite Hbody, Htext, Hmodel, Hpersona, Huser. cbn [and_then].
  rewrite (eqb_empty_false _ Hne), Hkey.
  cbn [negb]. unfold await. eexists. eexists. split; [reflexivity |].
  intros clk' upstream st Hok. cbn beta iota.
  rewrite Hok. cbn [negb]. split; [| split].
  - intros e He. unfold json_or_empty. rewrite He. reflexivity.
  - intros Hcfg. rewrite Hcfg. rewrite json_ok by lia. reflexivity.
  - intros Hcfg. rewrite Hcfg. eexists. eexists.
    split; [reflexivity |]. split; [reflexivity |].
    intros clk'' settled st'. rewrite json_ok by lia. reflexivity.
Qed.

(** *** The persistence passthrough *)

Lemma slice0_length n s : JS.length (slice0 n s) <= Z.of_nat n.
Proof.
  unfold JS.length. apply inj_le. revert s.
  induction n as [| n IH]; intros [| c s]; cbn; try lia.
  specialize (IH s). lia.
Qed.

Lemma slice0_prefix n s : String.prefix (slice0 n s) s = true.
Proof.
  revert s. induction n as [| n IH]; intros [| c s]; cbn; try reflexivity.
  destruct (Ascii.ascii_dec c c) as [_ | Hne]; [apply IH | contradiction].
Qed.

Lemma sliced_field_slice body_ k d n s :
  String_field host body_ k d = Normal s ->
  sliced_field host body_ k d n = Normal (slice0 n s).
Proof. intros Hs. unfold sliced_field. rewrite Hs. reflexivity. Qed.

(** X11. An analytics event is cut to size before it is stored: when the
    four fields of the event convert to text, in the row posted to
    [analytics_events] the event type is the first 64 characters of its
    text and the user id, the session id and the node id the first 128 of
    theirs, so each is a start of the text the request gave (or of the
    default, "message" being the default event type); and the row carries
    the time at which the request came in.  The row is built before the
    [try]: a field that [String] cannot convert makes the handler throw
    with no call to the store. *)
Theorem handleAnalyticsEventPost_row request env clk body_ :
  store_configured env = true ->
  json_body request = Some body_ ->
  (forall eventType userId sessionId nodeId,
      String_field host body_ "eventType" "message" = Normal eventType ->
      String_field host body_ "userId" "guest" = Normal userId ->
      String_field host body_ "sessionId" "session" = Normal sessionId ->
      String_field host body_ "nodeId" "" = Normal nodeId ->
      exists req k,
        handleAnalyticsEventPost host request env clk = Await req k
        /\ url req
           = interpolate (SUPABASE_URL env) ++ "/rest/v1/analytics_events"
        /\ out_body req
           = Some (JArr [ JObj [ ("event_type", JStr (slice0 64 eventType));
                                 ("user_id", JStr (slice0 128 userId));
                                 ("session_id", JStr (slice0 128 sessionId));
                                 ("node_id", JStr (slice0 128 nodeId));
                                 ("meta_json",
                                  or_else (get body_ "meta") (JObj []));
                                 ("created_at", JStr (iso clk)) ] ])
        /\ (JS.length (slice0 64 eventType) <= 64
            /\ JS.length (slice0 128 userId) <= 128
            /\ JS.length (slice0 128 sessionId) <= 128
            /\ JS.length (slice0 128 nodeId) <= 128)
        /\ String.prefix (slice0 64 eventType) eventType = true
        /\ String.prefix (slice0 128 userId) userId = true
        /\ String.prefix (slice0 128 sessionId) sessionId = true
        /\ String.prefix (slice0 128 nodeId) nodeId = true)
  /\ (truthy (get body_ "eventType") = false ->
      String_field host body_ "eventType" "message" = Normal "message")
  /\ (forall e,
         first_throw [ String_field host body_ "eventType" "message";
                       String_field host body_ "userId" "guest";
                       String_field host body_ "sessionId" "session";
                       String_field host body_ "nodeId" "" ] = Some e ->
         handleAnalyticsEventPost host request env clk = Fail e).
Proof.
  intros Hcfg Hbody. split; [| split].
  - intros eventType userId sessionId nodeId Hevent Huser Hsession Hnode.
    unfold handleAnalyticsEventPost.
    rewrite Hcfg, Hbody. cbn [negb].
    rewrite (sliced_field_slice _ _ _ _ _ Hevent),
            (sliced_field_slice _ _ _ _ _ Huser),
            (sliced_field_slice _ _ _ _ _ Hsession),
            (sliced_field_slice _ _ _ _ _ Hnode).
    cbn [and_then]. cbn zeta. unfold await.
    eexists. eexists. split; [reflexivity |]. split; [reflexivity |].
    split; [reflexivity |].
    split;
      [ split; [exact (slice0_length 64 _) |];
        split; [exact (slice0_length 128 _) |];
        split; exact (slice0_length 128 _) |].
    repeat (split; [apply slice0_prefix |]). apply slice0_prefix.
  - intros Hfalsy. unfold String_field, or_else. rewrite Hfalsy. reflexivity.
  - intros e Hthrow. unfold handleAnalyticsEventPost.
    rewrite Hcfg, Hbody. cbn [negb]. unfold sliced_field.
    cbn [first_throw] in Hthrow.
    destruct (String_field host body_ "eventType" "message");
      [| cbn [and_then]; congruence].
    destruct (String_field host body_ "userId" "guest");
      [| cbn [and_then]; congruence].
    destruct (String_field host body_ "sessionId" "session");
      [| cbn [and_then]; congruence].
    destruct (String_field host body_ "nodeId" "");
      [discriminate | cbn [and_then]; congruence].
Qed.

(** X12. [GET /api/builder/state] asks the store for the one row of the bot
    named in the query (trimmed, "default" when the query names none) and
    answers 200 with the [state_json] of the first row, or with
    [state: null] when the store gives no row or something that is not an
    array.  A store status that is not 2xx is answered 500 with the store's
    JSON as the error; a body that does not parse, or a rejected call, is
    answered 500 with the text of the error. *)
Theorem handleBuilderStateGet_state request env clk :
  store_configured env = true ->
  exists req k,
    handleBuilderStateGet host request env clk = Await req k
    /\ url req
       = interpolate (SUPABASE_URL env) ++ "/rest/v1/builder_states?bot=eq."
         ++ encodeURIComponent host
              (trim (or_default (searchParams_get "bot" (searchParams request))
                       "default"))
         ++ "&select=bot,state_json,updated_at&limit=1"
    /\ forall clk' st,
         (forall res row rest,
             ok res = true -> up_json res = Normal (JArr (row :: rest)) ->
             truthy row = true ->
             k clk' (Normal res) st
             = (Respond
                  (json_response
                     (JObj [ ("ok", JBool true);
                             ("state", get row "state_json") ])
                     200 request env), st))
         /\ (forall res arr,
                ok res = true -> up_json res = Normal arr ->
                isArray arr = false \/ arr = JArr [] ->
                k clk' (Normal res) st
                = (Respond
                     (json_response
                        (JObj [("ok", JBool true); ("state", JNull)])
                        200 request env), st))
         /\ (forall res arr,
                ok res = false -> up_json res = Normal arr ->
                k clk' (Normal res) st
                = (Respond
                     (json_response
                        (JObj [("ok", JBool false); ("error", arr)])
                        500 request env), st))
         /\ (forall res e,
                up_json res = Throw e ->
                k clk' (Normal res) st
                = (Respond
                     (json_response
                        (JObj [ ("ok", JBool false);
                                ("error", JStr (error_text e)) ])
                        500 request env), st))
         /\ (forall e,
                k clk' (Throw e) st
                = (Respond
                     (json_response
                        (JObj [ ("ok", JBool false);
                                ("error", JStr (error_text e)) ])
                        500 request env), st)).
Proof.
  intros Hcfg. unfold handleBuilderStateGet. rewrite Hcfg. cbn [negb].
  cbn zeta. unfold await. eexists. eexists.
  split; [reflexivity |]. split; [reflexivity |].
  intros clk' st. cbn beta iota. unfold store_catch.
  split; [| split; [| split; [| split]]].
  - intros res row rest Hok Hjson Hrow. rewrite Hjson, Hok. cbn [negb].
    unfold first_row. cbn [isArray get0 andb]. rewrite Hrow.
    rewrite json_ok by lia. reflexivity.
  - intros res arr Hok Hjson Hnone. rewrite Hjson, Hok. cbn [negb].
    unfold first_row.
    destruct Hnone as [Hnot | ->].
    + rewrite Hnot. cbn [andb]. rewrite json_ok by lia. reflexivity.
    + cbn [isArray get0 truthy andb]. rewrite json_ok by lia. reflexivity.
  - intros res arr Hok Hjson. rewrite Hjson, Hok. cbn [negb].
    rewrite json_ok by lia. reflexivity.
  - intros res e Hjson. rewrite Hjson, json_ok by lia. reflexivity.
  - intros e. rewrite json_ok by lia. reflexivity.
Qed.

(** X13. [POST /api/builder/state] converts the bot name to text (a missing
    name is "default") and wants a state that is truthy and a name that is
    not blank: otherwise it is answered 400 "bot/state required" with no
    outbound call.  Else it upserts one row [{ bot, state_json, updated_at }]
    on the key [bot], with the state as it was given, and answers 200
    [{ ok: true, data }] when the store says 2xx and 500
    [{ ok: false, error }] otherwise, [data] and [error] being the store's
    JSON, or [{}] when it does not parse; a rejected call is answered 500
    with the text of the error.  A bot name that [String] cannot convert
    makes the handler throw before the check. *)
Theorem handleBuilderStatePost_upsert request env clk body_ :
  store_configured env = true ->
  json_body request = Some body_ ->
  let state := get body_ "state" in
  (forall bot,
      text_field host body_ "bot" "default" = Normal bot ->
      (truthy state = false \/ bot = "" ->
       handleBuilderStatePost host request env clk
       = Respond
           (json_response
              (JObj [("ok", JBool false); ("error", JStr "bot/state required")])
              400 request env))
      /\ (truthy state = true -> bot <> "" ->
          exists req k,
            handleBuilderStatePost host request env clk = Await req k
            /\ url req
               = interpolate (SUPABASE_URL env)
                 ++ "/rest/v1/builder_states?on_conflict=bot"
            /\ header "Prefer" (out_headers req)
               = Some "resolution=merge-duplicates,return=representation"
            /\ out_body req
               = Some (JArr [ JObj [ ("bot", JStr bot);
                                     ("state_json", state);
                                     ("updated_at", JStr (iso clk)) ] ])
            /\ forall clk' st,
                 (forall res,
                     ok res = true ->
                     k clk' (Normal res) st
                     = (Respond
                          (json_response
                             (JObj [ ("ok", JBool true);
                                     ("data", json_or_empty res) ])
                             200 request env), st))
                 /\ (forall res,
                        ok res = false ->
                        k clk' (Normal res) st
                        = (Respond
                             (json_response
                                (JObj [ ("ok", JBool false);
                                        ("error", json_or_empty res) ])
                                500 request env), st))
                 /\ (forall e,
                        k clk' (Throw e) st
                        = (Respond
                             (json_response
                                (JObj [ ("ok", JBool false);
                                        ("error", JStr (error_text e)) ])
                                500 request env), st))))
  /\ (forall e,
         text_field host body_ "bot" "default" = Throw e ->
         handleBuilderStatePost host request env clk = Fail e).
Proof.
  intros Hcfg Hbody state. unfold handleBuilderStatePost.
  rewrite Hcfg, Hbody. cbn [negb]. split.
  - intros bot Hbot. rewrite Hbot. cbn [and_then]. cbn zeta. fold state.
    split.
    + intros [Hstate | Hblank].
      * rewrite Hstate. cbn [negb]. rewrite orb_true_r.
        rewrite json_ok by lia. reflexivity.
      * rewrite Hblank. cbn [String.eqb orb]. rewrite json_ok by lia.
        reflexivity.
    + intros Hstate Hne. rewrite Hstate, (eqb_empty_false bot Hne).
      cbn [negb orb]. unfold await. eexists. eexists.
      split; [reflexivity |]. split; [reflexivity |].
      split; [reflexivity |]. split; [reflexivity |].
      intros clk' st. cbn beta iota. unfold upsert_result, store_catch.
      split; [| split].
      * intros res Hok. rewrite Hok. cbn [negb]. rewrite json_ok by lia.
        reflexivity.
      * intros res Hok. rewrite Hok. cbn [negb]. rewrite json_ok by lia.
        reflexivity.
      * intros e. rewrite json_ok by lia. reflexivity.
  - intros e Hthrow. rewrite Hthrow. reflexivity.
Qed.

(** *** Expiry and retry of the models cache *)

Lemma lt_num_mono d d' n : d <= d' -> lt_num d' n = true -> lt_num d n = true.
Proof.
  intros Hle. destruct n as [| | | num den]; cbn; try easy.
  intros H. apply Z.ltb_lt in H. apply Z.ltb_lt. nia.
Qed.

Lemma cache_hit_expired ttl t t' st :
  t <= t' -> cache_hit ttl t st = false -> cache_hit ttl t' st = false.
Proof.
  unfold cache_hit. intros Hle.
  destruct (modelsCache_data st); [| reflexivity].
  intros Hmiss.
  destruct (lt_num (t' - modelsCache_at st) ttl) eqn:Hhit; [| reflexivity].
  rewrite (lt_num_mono (t - modelsCache_at st) (t' - modelsCache_at st) ttl)
    in Hmiss by (try lia; exact Hhit).
  discriminate.
Qed.

(** X14. A failure is never cached.  When a call to [handleModels] has to
    ask upstream and upstream gives no list (a rejection, a status that is
    not 2xx, a body that does not parse or holds no valid entry), the store
    is left as it was, and every call that comes at the same time or later
    on that store asks upstream again. *)
Theorem handleModels_retries request request' env clk clk2 st :
  present (OPEN_ROUTER_API_KEY env) = true ->
  cache_hit (ttl_of host env) (now clk) st = false ->
  now clk <= now clk2 ->
  exists k,
    handleModels host request env clk st = (Await (models_request env) k, st)
    /\ forall clk' settled,
         gave_no_models settled ->
         (k clk' settled st).2 = st
         /\ exists k2,
              handleModels host request' env clk2 (k clk' settled st).2
              = (Await (models_request env) k2, st).
Proof.
  intros Hkey Hmiss Hlater.
  destruct (handleModels_miss request env clk st Hkey Hmiss)
    as (k & Hk & Hthrow & Hstatus & Hparse & Hnone & _).
  exists k. split; [exact Hk |]. intros clk' settled Hfail.
  assert (Hkept : (k clk' settled st).2 = st).
  { destruct settled as [res | e]; [| rewrite Hthrow; reflexivity].
    destruct Hfail as [Hok | [(e & He) | (data & Hdata & Hnil)]].
    - rewrite (Hstatus _ _ _ Hok). reflexivity.
    - destruct (ok res) eqn:Hok;
        [rewrite (Hparse _ _ _ _ Hok He) | rewrite (Hstatus _ _ _ Hok)];
        reflexivity.
    - destruct (ok res) eqn:Hok;
        [rewrite (Hnone _ _ _ _ Hok Hdata Hnil) | rewrite (Hstatus _ _ _ Hok)];
        reflexivity. }
  split; [exact Hkept |]. rewrite Hkept.
  destruct (handleModels_miss request' env clk2 st Hkey
              (cache_hit_expired _ _ _ _ Hlater Hmiss)) as (k2 & Hk2 & _).
  exists k2. exact Hk2.
Qed.

(** X15. A [MODELS_CACHE_TTL_MS] that [Number] does not read as a number
    switches the cache off: with a credential, every call to [handleModels]
    asks upstream, whatever the store holds and whatever the time. *)
Theorem handleModels_ttl_not_a_number request env clk st s :
  present (OPEN_ROUTER_API_KEY env) = true ->
  MODELS_CACHE_TTL_MS env = Some s -> s <> "" ->
  Number host s = NaN ->
  exists k,
    handleModels host request env clk st = (Await (models_request env) k, st).
Proof.
  intros Hkey Httl Hs Hnan.
  assert (Hmiss : cache_hit (ttl_of host env) (now clk) st = false).
  { unfold ttl_of, present. rewrite Httl, (eqb_empty_false s Hs).
    cbn [negb interpolate]. rewrite Hnan. unfold cache_hit.
    destruct (modelsCache_data st); reflexivity. }
  destruct (handleModels_miss request env clk st Hkey Hmiss) as (k & Hk & _).
  exists k. exact Hk.
Qed.

(** X16. With [MODELS_CACHE_TTL_MS] absent or empty the window is
    300 000 ms, its end excluded: on a store that holds a list, a call less
    than 300 000 ms after the capture is answered from the cache with that
    list, and a call 300 000 ms after it or later asks upstream. *)
Theorem handleModels_default_ttl request env clk st models :
  present (OPEN_ROUTER_API_KEY env) = true ->
  present (MODELS_CACHE_TTL_MS env) = false ->
  modelsCache_data st = Some models ->
  (now clk - modelsCache_at st < 300000 ->
   handleModels host request env clk st
   = (Respond
        (json_response
           (JObj [("models", JArr models); ("cached", JBool true)])
           200 request env), st))
  /\ (300000 <= now clk - modelsCache_at st ->
      exists k,
        handleModels host request env clk st
        = (Await (models_request env) k, st)).
Proof.
  intros Hkey Hdefault Hdata.
  assert (Httl : ttl_of host env = Fin 300000 1).
  { unfold ttl_of. rewrite Hdefault. reflexivity. }
  split.
  - intros Hfresh. apply handleModels_hit; [exact Hkey | exact Hdata |].
    rewrite Httl. cbn [lt_num]. apply Z.ltb_lt. lia.
  - intros Hstale.
    assert (Hmiss : cache_hit (ttl_of host env) (now clk) st = false).
    { unfold cache_hit. rewrite Hdata, Httl. cbn [lt_num].
      apply Z.ltb_ge. lia. }
    destruct (handleModels_miss request env clk st Hkey Hmiss) as (k & Hk & _).
    exists k. exact Hk.
Qed.

(** *** What the models cache holds *)

Lemma captures_finish c : captures_upstream (finish c).
Proof. destruct c; constructor. Qed.

Lemma captures_try_return c handler :
  (forall e, captures_upstream (handler e)) ->
  captures_upstream (try_return c handler).
Proof. intros H. destruct c; [constructor | apply H]. Qed.

Lemma captures_await_pure req k :
  (forall clk settled, captures_upstream (k clk settled)) ->
  captures_upstream (await req k).
Proof.
  intros Hk. apply captures_await. intros clk settled st. cbn [fst snd].
  split; [left; reflexivity | apply Hk].
Qed.

(** Walks down a handler, one case of its control flow at a time. *)
Ltac walk_captures :=
  repeat
    (lazymatch goal with
     | |- captures_upstream (if ?c then _ else _) => destruct c
     | |- captures_upstream (match ?x with _ => _ end) => destruct x
     | |- captures_upstream (await _ _) => apply captures_await_pure; intros
     | |- captures_upstream (try_return _ _) =>
         apply captures_try_return; intros
     | |- captures_upstream (and_then ?c _) => destruct c; cbn [and_then]
     | |- captures_upstream (Fail _) => apply captures_fail
     | |- captures_upstream (finish _) => apply captures_finish
     end).

Lemma handleModels_captures request env clk st :
  (handleModels host request env clk st).2 = st
  /\ captures_upstream (handleModels host request env clk st).1.
Proof.
  unfold handleModels.
  destruct (negb (present (OPEN_ROUTER_API_KEY env))); cbn [fst snd];
    [split; [reflexivity | walk_captures] |].
  destruct (cache_hit (ttl_of host env) (now clk) st); cbn [fst snd];
    [split; [reflexivity | walk_captures] |].
  split; [reflexivity |]. apply captures_await. intros clk' settled st'.
  destruct settled as [res | e]; cbn [fst snd];
    [| split; [left; reflexivity | walk_captures]].
  destruct (negb (ok res)); cbn [fst snd];
    [split; [left; reflexivity | walk_captures] |].
  destruct (up_json res) as [data | e]; cbn [fst snd];
    [| split; [left; reflexivity | walk_captures]].
  destruct (models_of data) as [| m ms] eqn:Hmodels; cbn [fst snd].
  - split; [left; reflexivity | walk_captures].
  - split; [| walk_captures]. right. exists (now clk), data.
    rewrite Hmodels. split; [discriminate | reflexivity].
Qed.

Lemma fetch_captures request env clk st :
  (fetch host request env clk st).2 = st
  /\ captures_upstream (fetch host request env clk st).1.
Proof.
  unfold fetch.
  repeat
    (lazymatch goal with
     | |- snd (if ?c then _ else _) = _ /\ _ => destruct c
     end);
    cbn [fst snd].
  all: try apply handleModels_captures.
  all: split; [reflexivity |].
  all: unfold htmlResponse, handleChat, chat_settled, chat_catch,
         handleBuilderStateGet, handleBuilderStatePost, handleMemoryGet,
         handleMemoryPost, handleAnalyticsEventPost,
         handleAnalyticsSummaryGet, handleAutomationTrigger, upsert_result,
         store_catch, not_configured, invalid_json.
  all: walk_captures.
Qed.

Lemma kept_or_captured_provenance st st' :
  kept_or_captured st st' -> cache_provenance st -> cache_provenance st'.
Proof.
  intros [-> | (at_ & data & Hsome & ->)] Hinv; [exact Hinv |].
  unfold cache_provenance.
  rewrite (proj2 (read_assigned at_ (models_of data) st)).
  exists data. split; [reflexivity | exact Hsome].
Qed.

Lemma step_captures env w w' :
  Forall captures_upstream (waiting w) ->
  step host env w w' ->
  kept_or_captured (store w) (store w')
  /\ Forall captures_upstream (waiting w').
Proof.
  intros Hsafe Hstep.
  destruct Hstep as [w request clk t st' Hfetch
                    | w i req k u settled aborted clk t st' Hi Hsettle Hk];
    cbn [store waiting].
  - destruct (fetch_captures request env clk (store w)) as [Hst Ht].
    rewrite Hfetch in Hst, Ht. cbn [fst snd] in Hst, Ht. subst st'.
    split; [left; reflexivity | constructor; assumption].
  - assert (Hawait : captures_upstream (Await req k)).
    { rewrite Forall_lookup in Hsafe. exact (Hsafe i _ Hi). }
    inversion Hawait as [| | req' k' Hall]; subst.
    destruct (Hall clk settled (store w)) as [Hst Ht].
    rewrite Hk in Hst, Ht. cbn [fst snd] in Hst, Ht.
    split; [exact Hst | apply Forall_insert; assumption].
Qed.

Lemma reachable_provenance env w :
  reachable host env w ->
  cache_provenance (store w) /\ Forall captures_upstream (waiting w).
Proof.
  induction 1 as [| w w' _ [Hinv Hsafe] Hstep].
  - split; [exact I | constructor].
  - destruct (step_captures env w w' Hsafe Hstep) as [Hst Hsafe'].
    split; [exact (kept_or_captured_provenance _ _ Hst Hinv) | exact Hsafe'].
Qed.

Lemma models_of_entries data : Forall model_entry (models_of data).
Proof.
  unfold models_of. induction (entries_of data) as [| m ms IH];
    cbn [List.map List.filter]; [constructor |].
  change (get (project m) "id") with (get m "id").
  destruct (truthy (get m "id")) eqn:Hid; [| exact IH].
  constructor; [| exact IH].
  exists (get m "id"), (or_else (get m "name") (get m "id")).
  split; [reflexivity |]. split; [exact Hid |].
  unfold or_else. destruct (truthy (get m "name")) eqn:Hname; assumption.
Qed.

Lemma fallbackModels_entries : Forall model_entry fallbackModels.
Proof.
  repeat constructor; eexists; eexists; (split; [reflexivity |]);
    split; reflexivity.
Qed.

Lemma takes_own_finish env c : takes_own env (finish c).
Proof. destruct c; constructor. Qed.

Lemma takes_own_try_return env c handler :
  (forall e, takes_own env (handler e)) ->
  takes_own env (try_return c handler).
Proof. intros H. destruct c; [constructor | apply H]. Qed.

Lemma takes_own_await_pure env req k :
  (forall clk settled, takes_own env (k clk settled)) ->
  takes_own env (await req k).
Proof.
  intros Hk. apply takes_own_await. intros clk settled st. cbn [fst snd].
  split; [left; reflexivity | apply Hk].
Qed.

(** Walks down a handler, one case of its control flow at a time. *)
Ltac walk_takes :=
  repeat
    (lazymatch goal with
     | |- takes_own _ (if ?c then _ else _) => destruct c
     | |- takes_own _ (match ?x with _ => _ end) => destruct x
     | |- takes_own _ (await _ _) => apply takes_own_await_pure; intros
     | |- takes_own _ (try_return _ _) => apply takes_own_try_return; intros
     | |- takes_own _ (and_then ?c _) => destruct c; cbn [and_then]
     | |- takes_own _ (Fail _) => apply takes_own_fail
     | |- takes_own _ (finish _) => apply takes_own_finish
     end).

Lemma handleModels_takes request env clk st :
  (handleModels host request env clk st).2 = st
  /\ takes_own env (handleModels host request env clk st).1.
Proof.
  unfold handleModels.
  destruct (negb (present (OPEN_ROUTER_API_KEY env))); cbn [fst snd];
    [split; [reflexivity | walk_takes] |].
  destruct (cache_hit (ttl_of host env) (now clk) st); cbn [fst snd];
    [split; [reflexivity | walk_takes] |].
  split; [reflexivity |]. apply takes_own_await. intros clk' settled st'.
  destruct settled as [res | e]; cbn [fst snd];
    [| split; [left; reflexivity | walk_takes]].
  destruct (ok res) eqn:Hok; cbn [negb fst snd];
    [| split; [left; reflexivity | walk_takes]].
  destruct (up_json res) as [data | e] eqn:Hjson; cbn [fst snd];
    [| split; [left; reflexivity | walk_takes]].
  destruct (models_of data) as [| m ms] eqn:Hmodels; cbn [fst snd].
  - split; [left; reflexivity | walk_takes].
  - split; [| walk_takes]. right. exists (now clk), res, data.
    rewrite Hmodels. split; [reflexivity |]. split; [reflexivity |].
    split; [exact Hok |]. split; [exact Hjson |].
    split; [discriminate | reflexivity].
Qed.

Lemma fetch_takes request env clk st :
  (fetch host request env clk st).2 = st
  /\ takes_own env (fetch host request env clk st).1.
Proof.
  unfold fetch.
  repeat
    (lazymatch goal with
     | |- snd (if ?c then _ else _) = _ /\ _ => destruct c
     end);
    cbn [fst snd].
  all: try apply handleModels_takes.
  all: split; [reflexivity |].
  all: unfold htmlResponse, handleChat, chat_settled, chat_catch,
         handleBuilderStateGet, handleBuilderStatePost, handleMemoryGet,
         handleMemoryPost, handleAnalyticsEventPost,
         handleAnalyticsSummaryGet, handleAutomationTrigger, upsert_result,
         store_catch, not_configured, invalid_json.
  all: walk_takes.
Qed.

Lemma held_from_later env call calls st :
  held_from env calls st -> held_from env (call :: calls) st.
Proof.
  unfold held_from. destruct (modelsCache_data st); [| exact (fun H => H)].
  intros (res & data & Hin & H). exists res, data.
  split; [right; exact Hin | exact H].
Qed.

Lemma run_held env w calls :
  run host env w calls ->
  held_from env calls (store w) /\ Forall (takes_own env) (waiting w).
Proof.
  induction 1 as [| w calls request clk t st' _ [Hheld Hown] Hfetch
                  | w calls i req k u settled aborted clk t st' _ [Hheld Hown]
                      Hi Hsettle Hk];
    cbn [store waiting].
  - split; [exact I | constructor].
  - destruct (fetch_takes request env clk (store w)) as [Hst Ht].
    rewrite Hfetch in Hst, Ht. cbn [fst snd] in Hst, Ht. subst st'.
    split; [exact Hheld | constructor; assumption].
  - assert (Hawait : takes_own env (Await req k)).
    { rewrite Forall_lookup in Hown. exact (Hown i _ Hi). }
    inversion Hawait as [| | req' k' Hall]; subst.
    destruct (Hall clk settled (store w)) as [Hst Ht].
    rewrite Hk in Hst, Ht. cbn [fst snd] in Hst, Ht.
    split; [| apply Forall_insert; assumption].
    destruct Hst as [-> | (at_ & res & data & -> & -> & Hok & Hjson & Hsome & ->)].
    + apply held_from_later, Hheld.
    + unfold held_from.
      rewrite (proj2 (read_assigned at_ (models_of data) (store w))).
      exists res, data. split; [left; reflexivity |].
      split; [exact Hok |]. split; [exact Hjson |].
      split; [reflexivity | exact Hsome].
Qed.

Lemma run_reachable env w calls :
  run host env w calls -> reachable host env w.
Proof.
  induction 1 as [| w calls request clk t st' _ IH Hfetch
                  | w calls i req k u settled aborted clk t st' _ IH
                      Hi Hsettle Hk].
  - apply reachable_initial.
  - apply (reachable_step host env w); [exact IH |].
    exact (step_request host env w request clk t st' Hfetch).
  - apply (reachable_step host env w); [exact IH |].
    exact (step_settled host env w i req k u settled aborted clk t st'
             Hi Hsettle Hk).
Qed.

Lemma reachable_run env w :
  reachable host env w -> exists calls, run host env w calls.
Proof.
  induction 1 as [| w w' _ [calls Hrun] Hstep].
  - exists []. apply run_initial.
  - destruct Hstep as [w request clk t st' Hfetch
                      | w i req k u settled aborted clk t st' Hi Hsettle Hk].
    + exists calls. exact (run_request host env w calls request clk t st'
                             Hrun Hfetch).
    + exists ((req, settled) :: calls).
      exact (run_settled host env w calls i req k u settled aborted clk t st'
               Hrun Hi Hsettle Hk).
Qed.

(** X17. The cache only ever holds what upstream gave.  In every state the
    worker can reach, whatever requests came in and however their outbound
    calls settled and interleaved, [modelsCache.data] is [null], or it is
    the list projected from the JSON body of a 2xx response that one of the
    calls to [GET /models] made so far has settled with, and this list is
    not empty.  So as long as no call to [GET /models] has been answered
    with a 2xx the cache stays empty, and the static fallback list is never
    stored for want of an answer.  The states of such a run are those the
    event loop reaches. *)
Theorem modelsCache_provenance env w calls :
  run host env w calls ->
  (modelsCache_data (store w) = None
   \/ exists res data,
        In (models_request env, Normal res) calls
        /\ ok res = true
        /\ up_json res = Normal data
        /\ modelsCache_data (store w) = Some (models_of data)
        /\ models_of data <> [])
  /\ ((forall res, In (models_request env, Normal res) calls -> ok res = false) ->
      modelsCache_data (store w) = None)
  /\ reachable host env w
  /\ (forall w', reachable host env w' -> exists calls', run host env w' calls').
Proof.
  intros Hrun. destruct (run_held env w calls Hrun) as [Hheld _].
  unfold held_from in Hheld.
  split; [| split; [| split]].
  - destruct (modelsCache_data (store w)) as [models |]; [| left; reflexivity].
    right. destruct Hheld as (res & data & Hin & Hok & Hjson & -> & Hsome).
    exists res, data. repeat (split; [assumption |]).
    split; [reflexivity | exact Hsome].
  - intros Hnone.
    destruct (modelsCache_data (store w)) as [models |]; [| reflexivity].
    destruct Hheld as (res & data & Hin & Hok & _).
    rewrite (Hnone res Hin) in Hok. discriminate.
  - exact (run_reachable env w calls Hrun).
  - intros w'. apply reachable_run.
Qed.

(** X18. Every model [/api/models] ever lists can be shown and selected: in
    every state the worker can reach, with a credential, however the call
    ends (from the cache, fresh from upstream, or with the fallback), each
    entry of the list answered is an object [{ id, name }] whose id and name
    are both truthy. *)
Theorem handleModels_entries env w request clk :
  reachable host env w ->
  present (OPEN_ROUTER_API_KEY env) = true ->
  answers
    (fun r => exists models,
                listed_models r = Some models /\ Forall model_entry models)
    (handleModels host request env clk (store w)).1.
Proof.
  intros Hreach Hkey.
  destruct (reachable_provenance env w Hreach) as [Hinv _].
  destruct (cache_hit (ttl_of host env) (now clk) (store w)) eqn:Hhit.
  - unfold cache_hit in Hhit. unfold cache_provenance in Hinv.
    destruct (modelsCache_data (store w)) as [models |] eqn:Hdata;
      [| discriminate].
    rewrite (handleModels_hit request env clk (store w) models Hkey Hdata Hhit).
    apply answers_now. exists models. split; [reflexivity |].
    destruct Hinv as (data & -> & _). apply models_of_entries.
  - destruct (handleModels_miss request env clk (store w) Hkey Hhit)
      as (k & -> & Hthrow & Hstatus & Hparse & Hnone & Hfresh).
    apply answers_later. intros clk' settled st'.
    destruct settled as [res | e]; [| rewrite Hthrow].
    + destruct (ok res) eqn:Hok; [| rewrite (Hstatus _ _ _ Hok)].
      * destruct (up_json res) as [data | e] eqn:Hjson;
          [| rewrite (Hparse _ _ _ _ Hok Hjson)].
        -- destruct (models_of data) as [| m ms] eqn:Hmodels.
           ++ rewrite (Hnone _ _ _ _ Hok Hjson Hmodels).
              apply answers_now. eexists.
              split; [reflexivity | apply fallbackModels_entries].
           ++ rewrite (Hfresh clk' res data st' Hok Hjson)
                by (rewrite Hmodels; discriminate).
              apply answers_now. eexists.
              split; [reflexivity | apply models_of_entries].
        -- apply answers_now. eexists.
           split; [reflexivity | apply fallbackModels_entries].
      * apply answers_now. eexists.
        split; [reflexivity | apply fallbackModels_entries].
    + apply answers_now. eexists.
      split; [reflexivity | apply fallbackModels_entries].
Qed.

(** X19. The list keeps the order of upstream and every entry that has an
    id, duplicates included: the ids listed are the truthy ids of the
    upstream entries, in upstream order, so the list is never longer than
    what upstream sent and is cut nowhere. *)
Theorem models_of_ids data :
  List.map (fun m => get m "id") (models_of data)
  = List.filter truthy (List.map (fun m => get m "id") (entries_of data))
  /\ (List.length (models_of data) <= List.length (entries_of data))%nat.
Proof.
  unfold models_of. induction (entries_of data) as [| m ms [IHids IHlen]];
    cbn [List.map List.filter List.length]; [split; [reflexivity | lia] |].
  change (get (project m) "id") with (get m "id").
  destruct (truthy (get m "id")); cbn [List.map List.length].
  - split; [f_equal; exact IHids | lia].
  - split; [exact IHids | lia].
Qed.

(** X20. The last writer wins, whatever the times.  When two calls miss and
    both get a list from upstream, the one whose outbound call settles last
    leaves its own list in the cache, stamped with the time at which that
    call came in: a slow call that started first overwrites the capture of
    a call that started after it, and the capture time goes back. *)
Theorem handleModels_last_writer_wins requestA requestB env clkA clkB st kA kB :
  handleModels host requestA env clkA st = (Await (models_request env) kA, st) ->
  handleModels host requestB env clkB st = (Await (models_request env) kB, st) ->
  now clkA < now clkB ->
  forall clk1 clk2 resA resB dataA dataB,
    ok resA = true -> up_json resA = Normal dataA -> models_of dataA <> [] ->
    ok resB = true -> up_json resB = Normal dataB -> models_of dataB <> [] ->
    let after_B := (kB clk1 (Normal resB) st).2 in
    let after_A := (kA clk2 (Normal resA) after_B).2 in
    modelsCache_at after_B = now clkB
    /\ modelsCache_data after_B = Some (models_of dataB)
    /\ modelsCache_at after_A = now clkA
    /\ modelsCache_data after_A = Some (models_of dataA)
    /\ modelsCache_at after_A < modelsCache_at after_B.
Proof.
  intros HA HB Hlt clk1 clk2 resA resB dataA dataB
    HokA HjsonA HsomeA HokB HjsonB HsomeB after_B after_A.
  assert (Hmiss : forall request clk k,
             handleModels host request env clk st
             = (Await (models_request env) k, st) ->
             forall clk' res data st',
               ok res = true -> up_json res = Normal data ->
               models_of data <> [] ->
               (k clk' (Normal res) st').2
               = assign_modelsCache (now clk) (models_of data) st').
  { intros request clk k Hk clk' res data st' Hok Hjson Hsome.
    revert Hk. unfold handleModels.
    destruct (negb (present (OPEN_ROUTER_API_KEY env)));
      [destruct (json host _ 500 _); discriminate |].
    destruct (cache_hit (ttl_of host env) (now clk) st);
      [destruct (json host _ 200 _); discriminate |].
    intros Hk. injection Hk as <-. cbn beta iota. rewrite Hok, Hjson.
    cbn [negb]. destruct (models_of data); [contradiction | reflexivity]. }
  assert (HafterB : after_B
                    = assign_modelsCache (now clkB) (models_of dataB) st)
    by (apply (Hmiss requestB clkB kB HB); assumption).
  assert (HafterA : after_A
                    = assign_modelsCache (now clkA) (models_of dataA) after_B)
    by (apply (Hmiss requestA clkA kA HA); assumption).
  rewrite HafterA, HafterB.
  destruct (read_assigned (now clkB) (models_of dataB) st) as [HatB HdataB].
  destruct (read_assigned (now clkA) (models_of dataA)
              (assign_modelsCache (now clkB) (models_of dataB) st))
    as [HatA HdataA].
  rewrite HatA, HatB, HdataA, HdataB.
  repeat (split; [reflexivity |]). exact Hlt.
Qed.

(** *** The headers of the calls to the model provider *)

(** X21. Every call to the model provider carries the credential and
    nothing of the store: in the headers of the calls of [handleModels] and
    of [handleChat], [Authorization] is "Bearer " followed by the API key,
    [HTTP-Referer] and [X-Title] are there exactly when [SITE_URL] and
    [SITE_NAME] are configured, with their values, and there is no [apikey]
    header; the chat call asks for an event stream and sends JSON. *)
Theorem openRouterHeaders_credential env key model prompt persona :
  OPEN_ROUTER_API_KEY env = Some key ->
  let models_h := out_headers (models_request env) in
  let chat_h := out_headers (chat_request env model prompt persona) in
  (header "Authorization" models_h = Some ("Bearer " ++ key)
   /\ header "Authorization" chat_h = Some ("Bearer " ++ key))
  /\ (header "HTTP-Referer" models_h
      = (if present (SITE_URL env) then SITE_URL env else None)
      /\ header "HTTP-Referer" chat_h
         = (if present (SITE_URL env) then SITE_URL env else None))
  /\ (header "X-Title" models_h
      = (if present (SITE_NAME env) then SITE_NAME env else None)
      /\ header "X-Title" chat_h
         = (if present (SITE_NAME env) then SITE_NAME env else None))
  /\ (header "apikey" models_h = None /\ header "apikey" chat_h = None)
  /\ header "accept" chat_h = Some "text/event-stream"
  /\ header "content-type" chat_h = Some "application/json".
Proof.
  intros Hkey. cbn zeta.
  unfold models_request, chat_request, openRouterHeaders. cbn [out_headers].
  rewrite Hkey. cbn [interpolate].
  destruct (SITE_URL env) as [site |]; cbn [present interpolate];
    [destruct (String.eqb site ""); cbn [negb] |];
    (destruct (SITE_NAME env) as [name |]; cbn [present interpolate];
     [destruct (String.eqb name ""); cbn [negb] |]);
    repeat split; reflexivity.
Qed.

(** *** The scripts of the pages *)

Section Page_scripts.

Context (JSON_parse : string -> option JSValue).

Lemma append_empty_r (s : string) : (s ++ "")%string = s.
Proof.
  induction s as [| c s IH]; [reflexivity | exact (f_equal (String c) IH)].
Qed.

Lemma append_assoc (s t u : string) :
  ((s ++ t) ++ u)%string = (s ++ (t ++ u))%string.
Proof.
  induction s as [| c s IH]; [reflexivity | exact (f_equal (String c) IH)].
Qed.

Lemma split_blank_cons c c' rest :
  Page.split_blank (String c (String c' rest))
  = if Page.is_newline c && Page.is_newline c'
    then EmptyString :: Page.split_blank rest
    else Page.cons_first c (Page.split_blank (String c' rest)).
Proof. reflexivity. Qed.

Lemma split_blank_nonempty s : Page.split_blank s <> [].
Proof.
  destruct s as [| c [| c' rest]]; try discriminate.
  rewrite split_blank_cons.
  destruct (Page.is_newline c && Page.is_newline c'); [discriminate |].
  destruct (Page.split_blank (String c' rest)); discriminate.
Qed.

Lemma split_blank_single s p : Page.split_blank s = [p] -> p = s.
Proof.
  revert p. induction s as [| c s IH]; intros p H.
  - cbn in H. congruence.
  - destruct s as [| c' rest]; [cbn in H; congruence |].
    rewrite split_blank_cons in H.
    destruct (Page.is_newline c && Page.is_newline c').
    + injection H as _ Hrest. destruct (split_blank_nonempty rest Hrest).
    + destruct (Page.split_blank (String c' rest)) as [| q qs] eqn:Hs;
        [destruct (split_blank_nonempty _ Hs) |].
      cbn in H. injection H as <- ->. rewrite (IH q eq_refl). reflexivity.
Qed.

(** Splitting a text that grows: the events found so far stay, and only the
    last piece is split again with what came after it. *)
Lemma split_blank_app s t :
  Page.split_blank (s ++ t)
  = (removelast (Page.split_blank s)
       ++ Page.split_blank (List.last (Page.split_blank s) "" ++ t))%list.
Proof.
  revert t.
  assert (Hsingle : forall s,
             Page.split_blank s = [s] ->
             forall t,
               Page.split_blank (s ++ t)
               = (removelast (Page.split_blank s)
                    ++ Page.split_blank
                         (List.last (Page.split_blank s) "" ++ t))%list).
  { intros s0 Hs t. rewrite Hs. reflexivity. }
  enough (Hboth :
            (forall t,
                Page.split_blank (s ++ t)
                = (removelast (Page.split_blank s)
                     ++ Page.split_blank
                          (List.last (Page.split_blank s) "" ++ t))%list)
            /\ (forall c t,
                   Page.split_blank (String c s ++ t)
                   = (removelast (Page.split_blank (String c s))
                        ++ Page.split_blank
                             (List.last (Page.split_blank (String c s)) ""
                                ++ t))%list))
    by exact (proj1 Hboth).
  induction s as [| x s [IHs IHx]].
  - split; [apply Hsingle; reflexivity |].
    intros c. apply Hsingle. reflexivity.
  - split; [exact (IHx x) |]. intros c t.
    change (String c (String x s) ++ t)%string
      with (String c (String x (s ++ t))).
    rewrite !split_blank_cons.
    destruct (Page.is_newline c && Page.is_newline x) eqn:Htest.
    + rewrite IHs.
      destruct (Page.split_blank s) as [| p ps] eqn:Hs;
        [destruct (split_blank_nonempty _ Hs) |].
      reflexivity.
    + change (String x (s ++ t)) with (String x s ++ t)%string.
      rewrite (IHx x t).
      destruct (Page.split_blank (String x s)) as [| p [| q qs]] eqn:Hs.
      * destruct (split_blank_nonempty _ Hs).
      * pose proof (split_blank_single _ _ Hs) as ->.
        cbn [removelast List.last Page.cons_first app].
        change (String c (String x s) ++ t)%string
          with (String c (String x (s ++ t))).
        rewrite split_blank_cons, Htest. reflexivity.
      * reflexivity.
Qed.

Lemma split_blank_last s :
  Page.split_blank (List.last (Page.split_blank s) "")
  = [List.last (Page.split_blank s) ""].
Proof.
  pose proof (split_blank_app s "") as H.
  rewrite !append_empty_r in H.
  rewrite (app_removelast_last "" (split_blank_nonempty s)) in H at 1.
  apply app_inv_head in H. symmetry. exact H.
Qed.

Lemma read_chunks_whole chunks : forall buf out,
  Page.split_blank buf = [buf] ->
  Page.read_chunks JSON_parse buf out chunks
  = fold_left (fun o ev => (o ++ Page.event_text JSON_parse ev)%string)
      (removelast (Page.split_blank (buf ++ Page.stream_text chunks))) out.
Proof.
  induction chunks as [| chunk rest IH]; intros buf out Hbuf.
  - cbn [Page.read_chunks Page.stream_text]. rewrite append_empty_r, Hbuf.
    reflexivity.
  - cbn [Page.read_chunks Page.stream_text]. cbn zeta.
    rewrite IH by apply split_blank_last.
    rewrite <- append_assoc, (split_blank_app (buf ++ chunk)).
    rewrite removelast_app by apply split_blank_nonempty.
    rewrite fold_left_app. reflexivity.
Qed.

Lemma aiReply_whole chunks :
  Page.aiReply JSON_parse chunks
  = fold_left (fun o ev => (o ++ Page.event_text JSON_parse ev)%string)
      (removelast (Page.split_blank (Page.stream_text chunks))) "".
Proof. unfold Page.aiReply. rewrite read_chunks_whole; reflexivity. Qed.

(** X22. What the pages show of a reply does not depend on how the network
    cut the stream: two streams with the same text, cut into chunks at any
    places (in the middle of an event, of a line, or between the two
    newlines that end an event), give the same text. *)
Theorem aiReply_chunking chunks chunks' :
  Page.stream_text chunks = Page.stream_text chunks' ->
  Page.aiReply JSON_parse chunks = Page.aiReply JSON_parse chunks'.
Proof. intros H. rewrite !aiReply_whole, H. reflexivity. Qed.

Lemma prefix_blank_line c c' rest :
  String.prefix Page.blank_line (String c (String c' rest))
  = Page.is_newline c && Page.is_newline c'.
Proof.
  unfold Page.blank_line, Page.is_newline. cbn [String.prefix].
  destruct (Ascii.ascii_dec Page.newline c) as [<- | Hc].
  - rewrite Ascii.eqb_refl.
    destruct (Ascii.ascii_dec Page.newline c') as [<- | Hc'].
    + rewrite Ascii.eqb_refl. destruct rest; reflexivity.
    + destruct (Ascii.eqb_spec c' Page.newline); [congruence | reflexivity].
  - destruct (Ascii.eqb_spec c Page.newline); [congruence | reflexivity].
Qed.

Lemma split_blank_none s :
  includes Page.blank_line s = false -> Page.split_blank s = [s].
Proof.
  induction s as [| c s IH]; [reflexivity |].
  cbn [includes]. intros H. apply orb_false_elim in H as [Hhead Htail].
  destruct s as [| c' rest]; [reflexivity |].
  rewrite split_blank_cons, <- (prefix_blank_line c c' rest), Hhead,
    (IH Htail).
  reflexivity.
Qed.

(** X23. An event counts only once the blank line after it has come: a
    stream that ends before any blank line (a reply cut short, or a last
    event that upstream did not close) shows nothing, whatever it holds
    and however it was cut into chunks. *)
Theorem aiReply_unterminated chunks :
  includes Page.blank_line (Page.stream_text chunks) = false ->
  Page.aiReply JSON_parse chunks = "".
Proof.
  intros H. rewrite aiReply_whole, (split_blank_none _ H). reflexivity.
Qed.

End Page_scripts.

Lemma all_chars_app p s t :
  Page.all_chars p (s ++ t) = Page.all_chars p s && Page.all_chars p t.
Proof.
  induction s as [| c s IH]; [reflexivity |].
  change (String c s ++ t)%string with (String c (s ++ t)).
  cbn [Page.all_chars]. rewrite IH, andb_assoc. reflexivity.
Qed.

Lemma escape_char_cases c :
  (c = "&"%char /\ Page.escape_char c = "&amp;")
  \/ (c = "<"%char /\ Page.escape_char c = "&lt;")
  \/ (c = ">"%char /\ Page.escape_char c = "&gt;")
  \/ (c = Page.double_quote /\ Page.escape_char c = "&quot;")
  \/ (c = "'"%char /\ Page.escape_char c = "&#039;")
  \/ (Page.escape_char c = String c EmptyString
      /\ c <> "&"%char /\ Page.is_markup c = false).
Proof.
  unfold Page.escape_char, Page.is_markup.
  destruct (Ascii.eqb_spec c "&"); [left; split; [assumption | reflexivity] |].
  destruct (Ascii.eqb_spec c "<");
    [right; left; split; [assumption | reflexivity] |].
  destruct (Ascii.eqb_spec c ">");
    [right; right; left; split; [assumption | reflexivity] |].
  destruct (Ascii.eqb_spec c Page.double_quote);
    [right; right; right; left; split; [assumption | reflexivity] |].
  destruct (Ascii.eqb_spec c "'");
    [right; right; right; right; left; split; [assumption | reflexivity] |].
  right; right; right; right; right. repeat split; assumption.
Qed.

(** X24. [escapeHtml] leaves no character that could open or close markup
    or an attribute value in its result (no [<], [>], double or single
    quote), and it loses nothing: two different texts are never escaped to
    the same text. *)
Theorem escapeHtml_safe :
  (forall s,
      Page.all_chars (fun c => negb (Page.is_markup c)) (Page.escapeHtml s)
      = true)
  /\ (forall s t, Page.escapeHtml s = Page.escapeHtml t -> s = t).
Proof.
  split.
  - induction s as [| c s IH]; [reflexivity |].
    cbn [Page.escapeHtml]. rewrite all_chars_app, IH, andb_true_r.
    destruct (escape_char_cases c)
      as [[_ ->] | [[_ ->] | [[_ ->] | [[_ ->] | [[_ ->] | (-> & _ & Hc)]]]]];
      try reflexivity.
    cbn [Page.all_chars]. rewrite Hc. reflexivity.
  - induction s as [| c s IH]; intros [| d t] H.
    + reflexivity.
    + cbn [Page.escapeHtml] in H.
      destruct (escape_char_cases d)
        as [[_ Hd] | [[_ Hd] | [[_ Hd] | [[_ Hd] | [[_ Hd] | (Hd & _)]]]]];
        rewrite Hd in H; discriminate.
    + cbn [Page.escapeHtml] in H.
      destruct (escape_char_cases c)
        as [[_ Hc] | [[_ Hc] | [[_ Hc] | [[_ Hc] | [[_ Hc] | (Hc & _)]]]]];
        rewrite Hc in H; discriminate.
    + cbn [Page.escapeHtml] in H.
      destruct (escape_char_cases c)
        as [[Hc Ec] | [[Hc Ec] | [[Hc Ec] | [[Hc Ec] | [[Hc Ec]
            | (Ec & Hc & _)]]]]];
        destruct (escape_char_cases d)
          as [[Hd Ed] | [[Hd Ed] | [[Hd Ed] | [[Hd Ed] | [[Hd Ed]
              | (Ed & Hd & _)]]]]];
        rewrite Ec, Ed in H; simpl in H;
        first
          [ discriminate
          | injection H; intros; subst;
            first [congruence | f_equal; apply IH; assumption] ].
Qed.

(** *** The memory of a user *)

(** X25. The memory routes never turn a caller away for what is missing.
    [POST /api/memory] upserts one row on the key [user_id] for any JSON
    body whose [userId] converts to text: a missing or falsy [userId] is
    stored as "guest", a missing or falsy [memory] as [{}]; a [userId] that
    [String] cannot convert makes the handler throw with no call to the
    store.  [GET /api/memory] asks for the row of the user named in the
    query ("guest" when it names none) and answers 200 with [memory: {}]
    when the store has no row for that user, and with the [memory_json] of
    the first row otherwise. *)
Theorem memory_defaults request env clk :
  store_configured env = true ->
  (forall body_,
      json_body request = Some body_ ->
      (forall userId,
          text_field host body_ "userId" "guest" = Normal userId ->
          exists req k,
            handleMemoryPost host request env clk = Await req k
            /\ url req
               = interpolate (SUPABASE_URL env)
                 ++ "/rest/v1/user_memory?on_conflict=user_id"
            /\ out_body req
               = Some (JArr [ JObj [ ("user_id", JStr userId);
                                     ("memory_json",
                                      or_else (get body_ "memory") (JObj []));
                                     ("updated_at", JStr (iso clk)) ] ]))
      /\ (truthy (get body_ "userId") = false ->
          text_field host body_ "userId" "guest" = Normal "guest")
      /\ (truthy (get body_ "memory") = false ->
          or_else (get body_ "memory") (JObj []) = JObj [])
      /\ (forall e,
             text_field host body_ "userId" "guest" = Throw e ->
             handleMemoryPost host request env clk = Fail e))
  /\ exists req k,
       handleMemoryGet host request env clk = Await req k
       /\ url req
          = interpolate (SUPABASE_URL env) ++ "/rest/v1/user_memory?user_id=eq."
            ++ encodeURIComponent host
                 (trim (or_default
                          (searchParams_get "userId" (searchParams request))
                          "guest"))
            ++ "&select=user_id,memory_json,updated_at&limit=1"
       /\ forall clk' st res,
            ok res = true ->
            (up_json res = Normal (JArr []) ->
             k clk' (Normal res) st
             = (Respond
                  (json_response
                     (JObj [("ok", JBool true); ("memory", JObj [])])
                     200 request env), st))
            /\ (forall row rest,
                   up_json res = Normal (JArr (row :: rest)) ->
                   truthy row = true ->
                   k clk' (Normal res) st
                   = (Respond
                        (json_response
                           (JObj [ ("ok", JBool true);
                                   ("memory", get row "memory_json") ])
                           200 request env), st)).
Proof.
  intros Hcfg. split.
  - intros body_ Hbody. unfold handleMemoryPost. rewrite Hcfg, Hbody.
    cbn [negb]. split; [| split; [| split]].
    + intros userId Huser. rewrite Huser. cbn [and_then]. cbn zeta.
      unfold await. eexists. eexists.
      split; [reflexivity |]. split; reflexivity.
    + intros Hfalsy. apply (text_field_falsy body_ "userId" "guest" Hfalsy).
    + intros Hfalsy. unfold or_else. rewrite Hfalsy. reflexivity.
    + intros e Hthrow. rewrite Hthrow. reflexivity.
  - unfold handleMemoryGet. rewrite Hcfg. cbn [negb]. cbn zeta.
    unfold await. eexists. eexists.
    split; [reflexivity |]. split; [reflexivity |].
    intros clk' st res Hok. cbn beta iota. split.
    + intros Hjson. rewrite Hjson, Hok. cbn [negb]. unfold first_row.
      cbn [isArray get0 truthy andb]. rewrite json_ok by lia. reflexivity.
    + intros row rest Hjson Hrow. rewrite Hjson, Hok. cbn [negb].
      unfold first_row. cbn [isArray get0 andb]. rewrite Hrow.
      rewrite json_ok by lia. reflexivity.
Qed.

End Properties.

Lemma handleChat_validation_order_witness :
  handleChat example_host
    (example_request "POST" "/api/chat"
       (Some (JObj [("model", JStr ""); ("prompt", JStr "")])))
    example_env (clock_at 0)
  = Respond
      (json_response (JObj [("error", JStr "model is required")]) 400
         (example_request "POST" "/api/chat"
            (Some (JObj [("model", JStr ""); ("prompt", JStr "")])))
         example_env).
Proof.
  exact (proj1 (handleChat_validation_order example_host
                  (example_request "POST" "/api/chat"
                     (Some (JObj [("model", JStr ""); ("prompt", JStr "")])))
                  example_env (clock_at 0)
                  (JObj [("model", JStr ""); ("prompt", JStr "")])
                  eq_refl eq_refl)
           "default" eq_refl eq_refl eq_refl).
Defined.

Lemma handleChat_prompt_boundary_witness :
  (exists k,
      handleChat example_host
        (example_request "POST" "/api/chat"
           (Some (JObj [ ("model", JStr "openai/gpt-4o-mini");
                         ("prompt", JStr (prompt_of_length 8000)) ])))
        example_env (clock_at 0)
      = Await (chat_request example_env "openai/gpt-4o-mini"
                 (prompt_of_length 8000) "default") k)
  /\ handleChat example_host
       (example_request "POST" "/api/chat"
          (Some (JObj [ ("model", JStr "openai/gpt-4o-mini");
                        ("prompt", JStr (prompt_of_length 8001)) ])))
       example_env (clock_at 0)
     = Respond
         (json_response (JObj [("error", JStr "prompt exceeds 8000 chars")]) 400
            (example_request "POST" "/api/chat"
               (Some (JObj [ ("model", JStr "openai/gpt-4o-mini");
                             ("prompt", JStr (prompt_of_length 8001)) ])))
            example_env).
Proof.
  split.
  - refine (proj1 (proj2 (handleChat_prompt_boundary example_host _ _ _))
              (JObj [ ("model", JStr "openai/gpt-4o-mini");
                      ("prompt", JStr (prompt_of_length 8000)) ])
              "openai/gpt-4o-mini" (prompt_of_length 8000) "default"
              _ _ _ _ _ _ _).
    + reflexivity.
    + reflexivity.
    + reflexivity.
    + vm_compute. reflexivity.
    + reflexivity.
    + discriminate.
    + vm_compute. reflexivity.
  - refine (proj1 (proj2 (proj2 (handleChat_prompt_boundary example_host _ _ _)))
              (JObj [ ("model", JStr "openai/gpt-4o-mini");
                      ("prompt", JStr (prompt_of_length 8001)) ])
              "openai/gpt-4o-mini" (prompt_of_length 8001) "default"
              _ _ _ _ _ _ _).
    + reflexivity.
    + reflexivity.
    + reflexivity.
    + vm_compute. reflexivity.
    + reflexivity.
    + discriminate.
    + vm_compute. reflexivity.
Defined.

Lemma personaPrompt_table_witness :
  personaPrompt "SaLeS" = personaPrompt "sales"
  /\ personaPrompt "TUTOR"
     = "You are a tutor. Explain step-by-step, ask check questions, and adapt to learner level."
  /\ personaPrompt "pirate" = personaPrompt "default"
  /\ personaPrompt
       (string_field (JObj [("model", JStr "m"); ("prompt", JStr "hi")])
          "persona" "default")
     = personaPrompt "default".
Proof.
  destruct personaPrompt_table
    as (Hcase & _ & Htutor & _ & Hother & _ & Habsent & _).
  split; [| split; [| split]].
  - apply Hcase. reflexivity.
  - apply Htutor. reflexivity.
  - apply Hother; discriminate.
  - apply Habsent. reflexivity.
Defined.

Lemma cors_allow_origin_witness :
  header "access-control-allow-origin"
    (corsHeaders (example_request "GET" "/api/models" None)
       {| OPEN_ROUTER_API_KEY := Some "sk-or-test";
          OPENROUTER_BASE_URL := None;
          MODELS_CACHE_TTL_MS := None;
          SITE_URL := None;
          SITE_NAME := None;
          ALLOWED_ORIGIN := Some "https://chat.example";
          SUPABASE_URL := None;
          SUPABASE_ANON_KEY := None |})
  = Some "https://chat.example".
Proof.
  refine (proj1 (proj1 (proj2 (cors_allow_origin example_host _ _ (clock_at 0)
                                 initial_store))
                   "https://chat.example" _ _ _) _).
  - reflexivity.
  - discriminate.
  - discriminate.
  - reflexivity.
Defined.

Lemma handleModels_fallback_witness :
  resume
    (handleModels example_host (example_request "GET" "/api/models" None)
       example_env (clock_at 1000) initial_store)
    (clock_at 1200) (Normal (json_reply 503 JNull))
  = (Respond
       (json_response
          (JObj [("models", JArr fallbackModels); ("fallback", JBool true)])
          200 (example_request "GET" "/api/models" None) example_env),
     initial_store).
Proof.
  destruct (handleModels_fallback example_host
              (example_request "GET" "/api/models" None)
              example_env (clock_at 1000) initial_store eq_refl eq_refl)
    as (_ & k & Hk & Hstatus & _).
  unfold resume. rewrite Hk. cbn [fst snd]. apply Hstatus. reflexivity.
Defined.

Lemma handleModels_fresh_witness :
  resume
    (handleModels example_host (example_request "GET" "/api/models" None)
       example_env (clock_at 1000) initial_store)
    (clock_at 1200)
    (Normal
       (json_reply 200
          (JObj [("data", JArr [ JObj [("id", JStr "acme/model-1")];
                                 JObj [("name", JStr "no id")] ])])))
  = (Respond
       (json_response
          (JObj [ ("models",
                   JArr [ JObj [ ("id", JStr "acme/model-1");
                                 ("name", JStr "acme/model-1") ] ]);
                  ("cached", JBool false) ])
          200 (example_request "GET" "/api/models" None) example_env),
     assign_modelsCache 1000
       [ JObj [("id", JStr "acme/model-1"); ("name", JStr "acme/model-1")] ]
       initial_store).
Proof.
  destruct (handleModels_fresh example_host
              (example_request "GET" "/api/models" None)
              example_env (clock_at 1000) initial_store eq_refl eq_refl)
    as (_ & _ & k & Hk & Hfresh).
  unfold resume. rewrite Hk. cbn [fst snd].
  refine (proj1 (Hfresh (clock_at 1200) _
                   (JObj [("data", JArr [ JObj [("id", JStr "acme/model-1")];
                                          JObj [("name", JStr "no id")] ])])
                   initial_store _ _ _)).
  - reflexivity.
  - reflexivity.
  - apply Exists_cons_hd. reflexivity.
Defined.

(** The claim C4 words the projection as [{ id, name: name ?? id }]: an
    entry whose name is the empty string would keep it.  The worker answers
    the id in its place. *)
Lemma handleModels_fresh_counterexample :
  let entry := JObj [("id", JStr "acme/model-1"); ("name", JStr "")] in
  let request := example_request "GET" "/api/models" None in
  (resume
     (handleModels example_host request example_env (clock_at 1000)
        initial_store)
     (clock_at 1200)
     (Normal (json_reply 200 (JObj [("data", JArr [entry])])))).1
  = Respond
      (json_response
         (JObj [ ("models",
                  JArr [ JObj [ ("id", JStr "acme/model-1");
                                ("name", JStr "acme/model-1") ] ]);
                 ("cached", JBool false) ])
         200 request example_env)
  /\ List.map project_nullish
       (List.filter (fun m => truthy (get m "id")) [entry])
     = [ JObj [("id", JStr "acme/model-1"); ("name", JStr "")] ]
  /\ models_of (JObj [("data", JArr [entry])])
     <> List.map project_nullish
          (List.filter (fun m => truthy (get m "id")) [entry]).
Proof.
  cbn zeta. split; [reflexivity | split; [reflexivity | discriminate]].
Qed.

Lemma handleModels_cached_within_ttl_witness :
  let request := example_request "GET" "/api/models" None in
  let models :=
    [ JObj [("id", JStr "acme/model-1"); ("name", JStr "Model One")] ] in
  handleModels example_host request example_env (clock_at 300999)
    (assign_modelsCache 1000 models initial_store)
  = (Respond
       (json_response
          (JObj [("models", JArr models); ("cached", JBool true)])
          200 request example_env),
     assign_modelsCache 1000 models initial_store).
Proof.
  cbn zeta.
  destruct (handleModels_miss example_host
              (example_request "GET" "/api/models" None)
              example_env (clock_at 1000) initial_store eq_refl eq_refl)
    as (k & Hk & _).
  refine (proj2 (handleModels_cached_within_ttl example_host
                   (example_request "GET" "/api/models" None)
                   (example_request "GET" "/api/models" None)
                   example_env (clock_at 1000) (clock_at 300999)
                   initial_store k eq_refl Hk (clock_at 1200)
                   (json_reply 200
                      (JObj [("data",
                              JArr [ JObj [ ("id", JStr "acme/model-1");
                                            ("name", JStr "Model One") ] ])]))
                   _ initial_store eq_refl eq_refl _ eq_refl)).
  discriminate.
Defined.

(** The claim C3 counts the window between the two calls.  The list is
    captured at time 0 and the window is 300 000 ms.  A call at 299 999 is
    answered from the cache; a call one millisecond later, with upstream
    answering what it answered before, is not: it fetches again and answers
    [cached: false].  And two calls one millisecond apart that both find
    upstream down are both answered with the fallback, neither with
    [cached: true]. *)
Lemma handleModels_cached_within_ttl_counterexample :
  let request := example_request "GET" "/api/models" None in
  let data :=
    JObj [("data", JArr [JObj [("id", JStr "acme/model-1");
                               ("name", JStr "Model One")]])] in
  let captured :=
    (resume (handleModels example_host request example_env (clock_at 0)
               initial_store)
       (clock_at 200) (Normal (json_reply 200 data))).2 in
  let first := handleModels example_host request example_env (clock_at 299999)
                 captured in
  let second :=
    resume (handleModels example_host request example_env (clock_at 300000)
              first.2)
      (clock_at 300200) (Normal (json_reply 200 data)) in
  let down1 :=
    resume (handleModels example_host request example_env (clock_at 0)
              initial_store)
      (clock_at 200) (Normal (json_reply 503 JNull)) in
  let down2 :=
    resume (handleModels example_host request example_env (clock_at 1) down1.2)
      (clock_at 201) (Normal (json_reply 503 JNull)) in
  lt_num (300000 - 299999) (ttl_of example_host example_env) = true
  /\ (exists r1, first.1 = Respond r1 /\ flag "cached" r1 = JBool true)
  /\ (exists r2, second.1 = Respond r2
                 /\ flag "cached" r2 = JBool false
                 /\ flag "cached" r2 <> JBool true)
  /\ (exists r3, down2.1 = Respond r3
                 /\ flag "cached" r3 = JUndefined
                 /\ flag "cached" r3 <> JBool true).
Proof.
  cbn zeta. split; [reflexivity |].
  split; [eexists; split; reflexivity |].
  split; eexists; (split; [reflexivity | split; [reflexivity | discriminate]]).
Qed.

(** With [OPENROUTER_BASE_URL] set to the string "upstream_timeout",
    [fetch] rejects at once with a [TypeError] that quotes the URL: the call
    is not aborted, and the request is answered 504 "upstream timeout", as
    it is when upstream never answers. *)
Lemma handleChat_deadline_witness :
  let env :=
    {| OPEN_ROUTER_API_KEY := Some "sk-or-test";
       OPENROUTER_BASE_URL := Some "upstream_timeout";
       MODELS_CACHE_TTL_MS := None;
       SITE_URL := None;
       SITE_NAME := None;
       ALLOWED_ORIGIN := None;
       SUPABASE_URL := None;
       SUPABASE_ANON_KEY := None |} in
  let request :=
    example_request "POST" "/api/chat"
      (Some (JObj [ ("model", JStr "openai/gpt-4o-mini");
                    ("prompt", JStr "hello") ])) in
  let e :=
    ErrorObj "TypeError" "Invalid URL: upstream_timeout/chat/completions" in
  let timeout :=
    json_response (JObj [("error", JStr "upstream timeout")]) 504 request env in
  deliver (handleChat example_host request env (clock_at 0), initial_store)
    (clock_at 30000) Never
  = Some ((Respond timeout, initial_store), true)
  /\ deliver (handleChat example_host request env (clock_at 0), initial_store)
       (clock_at 5) (Settles 5 (Throw e))
     = Some ((Respond timeout, initial_store), false).
Proof.
  cbn zeta.
  destruct (handleChat_deadline example_host
              (example_request "POST" "/api/chat"
                 (Some (JObj [ ("model", JStr "openai/gpt-4o-mini");
                               ("prompt", JStr "hello") ])))
              {| OPEN_ROUTER_API_KEY := Some "sk-or-test";
                 OPENROUTER_BASE_URL := Some "upstream_timeout";
                 MODELS_CACHE_TTL_MS := None;
                 SITE_URL := None;
                 SITE_NAME := None;
                 ALLOWED_ORIGIN := None;
                 SUPABASE_URL := None;
                 SUPABASE_ANON_KEY := None |}
              (clock_at 0) initial_store
              (JObj [ ("model", JStr "openai/gpt-4o-mini");
                      ("prompt", JStr "hello") ])
              "openai/gpt-4o-mini" "hello" "default"
              eq_refl eq_refl eq_refl eq_refl eq_refl
              ltac:(discriminate) ltac:(discriminate)
              ltac:(vm_compute; discriminate))
    as (_ & _ & Hnever & _ & _ & Hmarker).
  split.
  - exact (Hnever (clock_at 30000)).
  - exact (Hmarker (clock_at 5) 5
             (ErrorObj "TypeError"
                "Invalid URL: upstream_timeout/chat/completions")
             eq_refl eq_refl).
Defined.

Lemma example_world_waiting_reachable :
  reachable example_host example_env example_world_waiting.
Proof.
  apply (reachable_step example_host example_env initial_world);
    [apply reachable_initial |].
  exact (step_request example_host example_env initial_world
           example_models_request (clock_at 1000) _ _ eq_refl).
Defined.

Lemma example_world_captured_step :
  step example_host example_env example_world_waiting example_world_captured.
Proof.
  refine (step_settled example_host example_env example_world_waiting 0
            _ _ (Settles 200 (Normal example_models_reply))
            (Normal example_models_reply) false (clock_at 1200) _ _
            eq_refl eq_refl eq_refl).
Defined.

Lemma modelsCache_replaced_whole_witness :
  modelsCache (store example_world_captured) = 1%nat
  /\ modelsCache_at (store example_world_captured) = 1000
  /\ modelsCache_data (store example_world_captured)
     = Some [ JObj [("id", JStr "acme/model-1"); ("name", JStr "Model One")] ]
  /\ objects (store example_world_waiting)
       `prefix_of` objects (store example_world_captured).
Proof.
  destruct (modelsCache_replaced_whole example_host example_env
              example_world_waiting example_world_captured
              example_world_waiting_reachable example_world_captured_step)
    as ((Hobjects & _) & _ & _).
  split; [reflexivity |]. split; [reflexivity |]. split; [reflexivity |].
  exact Hobjects.
Defined.

Lemma handleModels_status_witness :
  answers lists_models
    (handleModels example_host example_models_request example_env
       (clock_at 2000) (store example_world_captured)).1.
Proof.
  refine (proj1 (handleModels_status example_host example_env
                   example_world_captured example_models_request
                   (clock_at 2000) _) eq_refl).
  exact (reachable_step example_host example_env example_world_waiting
           example_world_captured example_world_waiting_reachable
           example_world_captured_step).
Defined.

Lemma fetch_preflight_witness :
  fetch example_host (example_request "OPTIONS" "/no/such/path" None)
    example_env (clock_at 0) initial_store
  = (Respond {| status := 200;
                headers := corsHeaders
                             (example_request "OPTIONS" "/no/such/path" None)
                             example_env;
                body := NoBody |}, initial_store).
Proof.
  exact (proj1 (fetch_preflight example_host
                  (example_request "OPTIONS" "/no/such/path" None)
                  example_env (clock_at 0) initial_store eq_refl)).
Defined.

Lemma fetch_not_found_witness :
  fetch example_host (example_request "POST" "/api/models" None)
    example_env (clock_at 0) initial_store
  = (Respond (json_response (JObj [("error", JStr "Not found")]) 404
                (example_request "POST" "/api/models" None) example_env),
     initial_store).
Proof.
  apply (fetch_not_found example_host
           (example_request "POST" "/api/models" None)
           example_env (clock_at 0) initial_store).
  - discriminate.
  - cbn. intros [H | [H | [H | []]]]; discriminate.
  - cbn. intros H.
    repeat (destruct H as [H | H]; [discriminate |]). contradiction.
Defined.

Lemma fetch_keeps_store_witness :
  (fetch example_host
     (example_request "POST" "/api/chat"
        (Some (JObj [("model", JStr "m"); ("prompt", JStr "hi")])))
     example_env (clock_at 0) initial_store).2
  = initial_store.
Proof.
  refine (proj1 (fetch_keeps_store example_host
                   (example_request "POST" "/api/chat"
                      (Some (JObj [("model", JStr "m"); ("prompt", JStr "hi")])))
                   example_env (clock_at 0) initial_store _)).
  discriminate.
Defined.

Lemma fetch_store_not_configured_witness :
  fetch example_host (example_request "GET" "/api/memory" None)
    example_env (clock_at 0) initial_store
  = (Respond
       (json_response
          (JObj [ ("ok", JBool false);
                  ("code", JStr "SUPABASE_NOT_CONFIGURED") ])
          200 (example_request "GET" "/api/memory" None) example_env),
     initial_store).
Proof.
  apply (fetch_store_not_configured example_host
           (example_request "GET" "/api/memory" None)
           example_env (clock_at 0) initial_store).
  - reflexivity.
  - cbn. tauto.
Defined.

Lemma handleChat_blank_model_witness :
  handleChat example_host
    (example_request "POST" "/api/chat"
       (Some (JObj [("model", JStr "   "); ("prompt", JStr "hi")])))
    example_env (clock_at 0)
  = Respond
      (json_response (JObj [("error", JStr "model is required")]) 400
         (example_request "POST" "/api/chat"
            (Some (JObj [("model", JStr "   "); ("prompt", JStr "hi")])))
         example_env).
Proof.
  apply (handleChat_blank_model example_host _ example_env (clock_at 0)
           (JObj [("model", JStr "   "); ("prompt", JStr "hi")])
           "hi" "default").
  - reflexivity.
  - reflexivity.
  - reflexivity.
  - reflexivity.
  - right. exists "   ". split; reflexivity.
Defined.

Lemma handleChat_streams_witness :
  exists r,
    deliver
      (handleChat example_host
         (example_request "POST" "/api/chat"
            (Some (JObj [("model", JStr "m"); ("prompt", JStr "hi")])))
         example_env (clock_at 0), initial_store)
      (clock_at 40)
      (Settles 40
         (Normal {| up_status := 200;
                    up_body := Some ["data: a"; "data: b"];
                    up_json := Throw (ErrorObj "SyntaxError" "not JSON");
                    up_text := Normal "" |}))
    = Some ((Respond r, initial_store), false)
    /\ body r = StreamBody ["data: a"; "data: b"].
Proof.
  destruct (handleChat_streams example_host
              (example_request "POST" "/api/chat"
                 (Some (JObj [("model", JStr "m"); ("prompt", JStr "hi")])))
              example_env (clock_at 0) initial_store
              (JObj [("model", JStr "m"); ("prompt", JStr "hi")])
              "m" "hi" "default"
              eq_refl eq_refl eq_refl eq_refl eq_refl
              ltac:(discriminate) ltac:(discriminate)
              ltac:(vm_compute; discriminate)
              (clock_at 40) 40
              {| up_status := 200;
                 up_body := Some ["data: a"; "data: b"];
                 up_json := Throw (ErrorObj "SyntaxError" "not JSON");
                 up_text := Normal "" |}
              ["data: a"; "data: b"] eq_refl eq_refl eq_refl)
    as (r & Hr & _ & Hbody & _).
  exists r. split; assumption.
Defined.

Lemma handleChat_upstream_error_witness :
  deliver
    (handleChat example_host
       (example_request "POST" "/api/chat"
          (Some (JObj [("model", JStr "m"); ("prompt", JStr "hi")])))
       example_env (clock_at 0), initial_store)
    (clock_at 40) (Settles 40 (Normal (json_reply 429 JNull)))
  = Some ((Respond
             (json_response
                (JObj [ ("error", JStr "upstream error");
                        ("status", JNum 429) ])
                429
                (example_request "POST" "/api/chat"
                   (Some (JObj [("model", JStr "m"); ("prompt", JStr "hi")])))
                example_env), initial_store), false).
Proof.
  refine (proj1 (handleChat_upstream_error example_host
                   (example_request "POST" "/api/chat"
                      (Some (JObj [("model", JStr "m"); ("prompt", JStr "hi")])))
                   example_env (clock_at 0) initial_store
                   (JObj [("model", JStr "m"); ("prompt", JStr "hi")])
                   "m" "hi" "default"
                   eq_refl eq_refl eq_refl eq_refl eq_refl _ _ _
                   (clock_at 40) 40 (json_reply 429 JNull) eq_refl
                   (or_introl eq_refl)) _ _ _ _).
  - discriminate.
  - discriminate.
  - vm_compute. discriminate.
  - cbn. lia.
  - discriminate.
  - discriminate.
  - discriminate.
Defined.

Lemma handleAutomationTrigger_checks_witness :
  handleAutomationTrigger example_host
    (example_request "POST" "/api/automation/trigger"
       (Some (JObj [("text", JStr "  ")])))
    example_env_bare (clock_at 0)
  = Respond
      (json_response
         (JObj [("ok", JBool false); ("error", JStr "text required")]) 400
         (example_request "POST" "/api/automation/trigger"
            (Some (JObj [("text", JStr "  ")])))
         example_env_bare).
Proof.
  exact (proj1 (proj1 (proj2 (handleAutomationTrigger_checks example_host
                                (example_request "POST" "/api/automation/trigger"
                                   (Some (JObj [("text", JStr "  ")])))
                                example_env_bare (clock_at 0) initial_store))
                  (JObj [("text", JStr "  ")])
                  "" "openai/gpt-4o-mini" "support" "automation"
                  eq_refl eq_refl eq_refl eq_refl eq_refl)
           eq_refl).
Defined.

Lemma handleAutomationTrigger_output_witness :
  (resume
     (handleAutomationTrigger example_host
        (example_request "POST" "/api/automation/trigger"
           (Some (JObj [("text", JStr "ping")])))
        example_env (clock_at 0), initial_store)
     (clock_at 90)
     (Normal
        (json_reply 200
           (JObj [("choices",
                   JArr [JObj [("message",
                                JObj [("content", JStr "pong")])]])])))).1
  = Respond
      (json_response (JObj [("ok", JBool true); ("output", JStr "pong")]) 200
         (example_request "POST" "/api/automation/trigger"
            (Some (JObj [("text", JStr "ping")])))
         example_env).
Proof.
  destruct (handleAutomationTrigger_output example_host
              (example_request "POST" "/api/automation/trigger"
                 (Some (JObj [("text", JStr "ping")])))
              example_env (clock_at 0) (JObj [("text", JStr "ping")])
              "ping" "openai/gpt-4o-mini" "support" "automation"
              eq_refl eq_refl eq_refl eq_refl eq_refl
              ltac:(discriminate) eq_refl)
    as (req & k & Hk & Hout).
  unfold resume. cbn [fst snd]. rewrite Hk.
  destruct (Hout (clock_at 90)
              (json_reply 200
                 (JObj [("choices",
                         JArr [JObj [("message",
                                      JObj [("content", JStr "pong")])]])]))
              initial_store eq_refl) as (_ & Hplain & _).
  rewrite (Hplain eq_refl). reflexivity.
Defined.

Lemma handleAnalyticsEventPost_row_witness :
  exists req k,
    handleAnalyticsEventPost example_host
      (example_request "POST" "/api/analytics/event"
         (Some (JObj [("eventType", JStr (prompt_of_length 70))])))
      example_env_store (clock_at 0)
    = Await req k
    /\ get (get0 (default JNull (out_body req))) "event_type"
       = JStr (prompt_of_length 64).
Proof.
  destruct (proj1 (handleAnalyticsEventPost_row example_host
                     (example_request "POST" "/api/analytics/event"
                        (Some (JObj [("eventType",
                                      JStr (prompt_of_length 70))])))
                     example_env_store (clock_at 0)
                     (JObj [("eventType", JStr (prompt_of_length 70))])
                     eq_refl eq_refl)
              (prompt_of_length 70) "guest" "session" ""
              eq_refl eq_refl eq_refl eq_refl)
    as (req & k & Hk & _ & Hrow & _).
  exists req, k. split; [exact Hk |].
  rewrite Hrow. reflexivity.
Defined.

Lemma handleBuilderStateGet_state_witness :
  (resume
     (handleBuilderStateGet example_host
        (example_request "GET" "/api/builder/state" None)
        example_env_store (clock_at 0), initial_store)
     (clock_at 30) (Normal (json_reply 200 (JArr [])))).1
  = Respond
      (json_response (JObj [("ok", JBool true); ("state", JNull)]) 200
         (example_request "GET" "/api/builder/state" None) example_env_store).
Proof.
  destruct (handleBuilderStateGet_state example_host
              (example_request "GET" "/api/builder/state" None)
              example_env_store (clock_at 0) eq_refl)
    as (req & k & Hk & _ & Hres).
  unfold resume. cbn [fst snd]. rewrite Hk.
  destruct (Hres (clock_at 30) initial_store) as (_ & Hnone & _).
  rewrite (Hnone (json_reply 200 (JArr [])) (JArr []) eq_refl eq_refl
             (or_intror eq_refl)).
  reflexivity.
Defined.

Lemma handleBuilderStatePost_upsert_witness :
  handleBuilderStatePost example_host
    (example_request "POST" "/api/builder/state"
       (Some (JObj [("bot", JStr "Helper"); ("state", JNum 0)])))
    example_env_store (clock_at 0)
  = Respond
      (json_response
         (JObj [("ok", JBool false); ("error", JStr "bot/state required")])
         400
         (example_request "POST" "/api/builder/state"
            (Some (JObj [("bot", JStr "Helper"); ("state", JNum 0)])))
         example_env_store).
Proof.
  exact (proj1 (proj1 (handleBuilderStatePost_upsert example_host
                         (example_request "POST" "/api/builder/state"
                            (Some (JObj [ ("bot", JStr "Helper");
                                          ("state", JNum 0) ])))
                         example_env_store (clock_at 0)
                         (JObj [("bot", JStr "Helper"); ("state", JNum 0)])
                         eq_refl eq_refl)
                  "Helper" eq_refl)
           (or_introl eq_refl)).
Defined.

Lemma handleModels_retries_witness :
  exists k2,
    handleModels example_host example_models_request example_env
      (clock_at 1001)
      (resume
         (handleModels example_host example_models_request example_env
            (clock_at 1000) initial_store)
         (clock_at 1000) (Normal (json_reply 503 JNull))).2
    = (Await (models_request example_env) k2, initial_store).
Proof.
  destruct (handleModels_retries example_host example_models_request
              example_models_request example_env (clock_at 1000)
              (clock_at 1001) initial_store eq_refl eq_refl
              ltac:(cbn; lia))
    as (k & Hk & Hretry).
  unfold resume. rewrite Hk. cbn [fst snd].
  exact (proj2 (Hretry (clock_at 1000) (Normal (json_reply 503 JNull))
                  (or_introl eq_refl))).
Defined.

Lemma handleModels_ttl_not_a_number_witness :
  exists k,
    handleModels example_host example_models_request
      {| OPEN_ROUTER_API_KEY := Some "sk-or-test";
         OPENROUTER_BASE_URL := None;
         MODELS_CACHE_TTL_MS := Some "5 minutes";
         SITE_URL := None;
         SITE_NAME := None;
         ALLOWED_ORIGIN := None;
         SUPABASE_URL := None;
         SUPABASE_ANON_KEY := None |}
      (clock_at 1001) (store example_world_captured)
    = (Await
         (models_request
            {| OPEN_ROUTER_API_KEY := Some "sk-or-test";
               OPENROUTER_BASE_URL := None;
               MODELS_CACHE_TTL_MS := Some "5 minutes";
               SITE_URL := None;
               SITE_NAME := None;
               ALLOWED_ORIGIN := None;
               SUPABASE_URL := None;
               SUPABASE_ANON_KEY := None |}) k,
       store example_world_captured).
Proof.
  apply (handleModels_ttl_not_a_number example_host example_models_request
           _ (clock_at 1001) (store example_world_captured) "5 minutes").
  - reflexivity.
  - reflexivity.
  - discriminate.
  - reflexivity.
Defined.

Lemma handleModels_default_ttl_witness :
  exists k,
    handleModels example_host example_models_request example_env
      (clock_at 301000) (store example_world_captured)
    = (Await (models_request example_env) k, store example_world_captured).
Proof.
  refine (proj2 (handleModels_default_ttl example_host example_models_request
                   example_env (clock_at 301000)
                   (store example_world_captured)
                   [ JObj [("id", JStr "acme/model-1");
                           ("name", JStr "Model One")] ]
                   eq_refl eq_refl eq_refl) _).
  vm_compute. discriminate.
Defined.

Lemma example_world_captured_run :
  run example_host example_env example_world_captured
    [(models_request example_env, Normal example_models_reply)].
Proof.
  refine (run_settled example_host example_env example_world_waiting [] 0
            _ _ (Settles 200 (Normal example_models_reply))
            (Normal example_models_reply) false (clock_at 1200) _ _
            _ eq_refl eq_refl eq_refl).
  exact (run_request example_host example_env initial_world []
           example_models_request (clock_at 1000) _ _
           (run_initial example_host example_env) eq_refl).
Defined.

Lemma modelsCache_provenance_witness :
  modelsCache_data (store example_world_captured) = None
  \/ exists res data,
       In (models_request example_env, Normal res)
         [(models_request example_env, Normal example_models_reply)]
       /\ ok res = true
       /\ up_json res = Normal data
       /\ modelsCache_data (store example_world_captured)
          = Some (models_of data)
       /\ models_of data <> [].
Proof.
  exact (proj1 (modelsCache_provenance example_host example_env
                  example_world_captured
                  [(models_request example_env, Normal example_models_reply)]
                  example_world_captured_run)).
Defined.

Lemma handleModels_entries_witness :
  answers
    (fun r => exists models,
                listed_models r = Some models /\ Forall model_entry models)
    (handleModels example_host example_models_request example_env
       (clock_at 2000) (store example_world_captured)).1.
Proof.
  exact (handleModels_entries example_host example_env example_world_captured
           example_models_request (clock_at 2000)
           (reachable_step example_host example_env example_world_waiting
              example_world_captured example_world_waiting_reachable
              example_world_captured_step)
           eq_refl).
Defined.

Lemma handleModels_last_writer_wins_witness :
  let slow := handleModels example_host example_models_request example_env
                (clock_at 1000) initial_store in
  let quick := handleModels example_host example_models_request example_env
                 (clock_at 2000) initial_store in
  let after_quick := (resume quick (clock_at 2100)
                        (Normal example_models_reply)).2 in
  modelsCache_at
    (resume (slow.1, after_quick) (clock_at 9000)
       (Normal example_models_reply)).2
  = 1000.
Proof.
  cbn zeta.
  destruct (handleModels_miss example_host example_models_request example_env
              (clock_at 1000) initial_store eq_refl eq_refl)
    as (kA & HA & _).
  destruct (handleModels_miss example_host example_models_request example_env
              (clock_at 2000) initial_store eq_refl eq_refl)
    as (kB & HB & _).
  destruct (handleModels_last_writer_wins example_host
              example_models_request example_models_request example_env
              (clock_at 1000) (clock_at 2000) initial_store kA kB HA HB
              ltac:(cbn; lia) (clock_at 2100) (clock_at 9000)
              example_models_reply example_models_reply _ _
              eq_refl eq_refl ltac:(discriminate)
              eq_refl eq_refl ltac:(discriminate))
    as (_ & _ & Hat & _).
  unfold resume. rewrite HA, HB. cbn [fst snd]. exact Hat.
Defined.

Lemma openRouterHeaders_credential_witness :
  header "Authorization" (out_headers (models_request example_env))
  = Some "Bearer sk-or-test".
Proof.
  exact (proj1 (proj1 (openRouterHeaders_credential example_env "sk-or-test"
                         "m" "p" "default" eq_refl))).
Defined.

Lemma aiReply_chunking_witness :
  Page.aiReply Page.example_parse
    [ "data: he"; "llo" ++ String Page.newline "";
      String Page.newline "" ++ "data: [DONE]" ++ Page.blank_line ]
  = Page.aiReply Page.example_parse
      [ "data: hello" ++ Page.blank_line ++ "data: [DONE]" ++ Page.blank_line ].
Proof.
  apply (aiReply_chunking Page.example_parse). reflexivity.
Defined.

Lemma aiReply_unterminated_witness :
  Page.aiReply Page.example_parse ["data: hel"; "lo"] = "".
Proof.
  apply (aiReply_unterminated Page.example_parse). reflexivity.
Defined.

Lemma escapeHtml_safe_witness :
  Page.all_chars (fun c => negb (Page.is_markup c))
    (Page.escapeHtml "<a href='x'>&</a>")
  = true.
Proof. exact (proj1 escapeHtml_safe "<a href='x'>&</a>"). Defined.

Lemma memory_defaults_witness :
  exists req k,
    handleMemoryPost example_host
      (example_request "POST" "/api/memory" (Some (JObj [])))
      example_env_store (clock_at 0)
    = Await req k
    /\ out_body req
       = Some (JArr [ JObj [ ("user_id", JStr "guest");
                             ("memory_json", JObj []);
                             ("updated_at", JStr "") ] ]).
Proof.
  destruct (proj1 (proj1 (memory_defaults example_host
                            (example_request "POST" "/api/memory"
                               (Some (JObj [])))
                            example_env_store (clock_at 0) eq_refl)
                     (JObj []) eq_refl)
              "guest" eq_refl)
    as (req & k & Hk & _ & Hbody).
  exists req, k. split; [exact Hk | exact Hbody].
Defined.

End Worker.
